(** * Dawami attendance and leave services: a shallow embedding

    The Python services under [dawami_app/backend/services] keep their state in
    a SQLite file.  This development embeds the three services that carry the
    business rules ([attendance_service], [leave_service], [reporting_service])
    as functions over an explicit database value, and proves the properties the
    specification states about them; it then follows the code further, to the
    listings, the attendance summary, the directory of employees and the
    handlers of the views.

    Embedded: [clock_in], [get_open_attendance], [clock_out],
    [get_attendance_records]; [add_leave_type], [get_leave_types],
    [get_leave_balance], [update_leave_balance], [apply_for_leave],
    [_update_leave_request_status] with [approve_leave_request] and
    [reject_leave_request], [get_leave_requests]; [_calculate_duration],
    [get_daily_attendance_report], [get_employee_attendance_summary],
    [get_leave_report], [get_absentee_report]; [get_employee],
    [get_all_employees], [delete_employee]; the handlers of
    [attendance_view] and [reporting_view].  [add_employee] and
    [update_employee] are left out: they write columns no other embedded
    function reads.

    Conventions of the embedding
    - a table is the list of its rows in rowid order; a row is a record with
      the columns the services read or write;
    - TEXT columns are [string]s and are compared the way SQLite's BINARY
      collation compares them (byte by byte), REAL columns are IEEE doubles
      ([PrimFloat.float]), INTEGER columns are [Z];
    - every call into the [sqlite3] module may raise a [sqlite3.Error]: the
      world a service runs in carries the list of upcoming storage outcomes,
      and the empty list stands for storage that keeps working;
    - a Python function is a state transformer on that world returning either
      a value or a raised exception. *)

From Stdlib Require Import ZArith List String Ascii Bool Lia PrimFloat DecimalString Sorted.
Import ListNotations.
Local Open Scope string_scope.
Local Open Scope list_scope.
Local Open Scope Z_scope.

(** ** Python's [datetime], as far as the services use it *)

Module PyDatetime.

(** A naive [datetime.datetime] value. *)
Record datetime := mkdatetime {
  year : Z; month : Z; day : Z;
  hour : Z; minute : Z; second : Z; microsecond : Z
}.

(** A [datetime.date] value. *)
Record date := mkdate { d_year : Z; d_month : Z; d_day : Z }.

Definition _is_leap (y : Z) : bool :=
  (y mod 4 =? 0) && (negb (y mod 100 =? 0) || (y mod 400 =? 0)).

Definition _days_in_month (y m : Z) : Z :=
  if m =? 2 then (if _is_leap y then 29 else 28)
  else if (m =? 4) || (m =? 6) || (m =? 9) || (m =? 11) then 30
  else 31.

Definition _days_before_year (y : Z) : Z :=
  let y1 := y - 1 in y1 * 365 + y1 / 4 - y1 / 100 + y1 / 400.

(** [_DAYS_BEFORE_MONTH[month] + (month > 2 and _is_leap(year))]. *)
Definition _days_before_month (y m : Z) : Z :=
  nth (Z.to_nat m) [0; 0; 31; 59; 90; 120; 151; 181; 212; 243; 273; 304; 334] 0
  + (if (2 <? m) && _is_leap y then 1 else 0).

Definition _ymd2ord (y m d : Z) : Z :=
  _days_before_year y + _days_before_month y m + d.

Definition toordinal (t : datetime) : Z := _ymd2ord (year t) (month t) (day t).

(** The values the constructors of [date] and [datetime] accept. *)
Definition valid_date (d : date) : Prop :=
  1 <= d_year d <= 9999 /\ 1 <= d_month d <= 12 /\
  1 <= d_day d <= _days_in_month (d_year d) (d_month d).

Definition valid_datetime (t : datetime) : Prop :=
  1 <= year t <= 9999 /\ 1 <= month t <= 12 /\
  1 <= day t <= _days_in_month (year t) (month t) /\
  0 <= hour t <= 23 /\ 0 <= minute t <= 59 /\ 0 <= second t <= 59 /\
  0 <= microsecond t <= 999999.

Definition valid_datetimeb (t : datetime) : bool :=
  (1 <=? year t) && (year t <=? 9999) && (1 <=? month t) && (month t <=? 12) &&
  (1 <=? day t) && (day t <=? _days_in_month (year t) (month t)) &&
  (0 <=? hour t) && (hour t <=? 23) && (0 <=? minute t) && (minute t <=? 59) &&
  (0 <=? second t) && (second t <=? 59) &&
  (0 <=? microsecond t) && (microsecond t <=? 999999).

(** [datetime.__lt__] and friends compare the seven fields in order. *)
Definition lex (c : comparison) (k : comparison) : comparison :=
  match c with Eq => k | _ => c end.

Definition _cmp (a b : datetime) : comparison :=
  lex (year a ?= year b) (lex (month a ?= month b) (lex (day a ?= day b)
  (lex (hour a ?= hour b) (lex (minute a ?= minute b) (lex (second a ?= second b)
  (microsecond a ?= microsecond b)))))).

Definition dt_lt (a b : datetime) : bool :=
  match _cmp a b with Lt => true | _ => false end.

Definition date_cmp (a b : date) : comparison :=
  lex (d_year a ?= d_year b) (lex (d_month a ?= d_month b) (d_day a ?= d_day b)).

Definition date_le (a b : date) : bool :=
  match date_cmp a b with Gt => false | _ => true end.

(** [a - b] as a [timedelta], read in microseconds. *)
Definition sub_microseconds (a b : datetime) : Z :=
  let days := toordinal a - toordinal b in
  let secs := (second a + minute a * 60 + hour a * 3600)
              - (second b + minute b * 60 + hour b * 3600) in
  (days * 86400 + secs) * 1000000 + (microsecond a - microsecond b).

(** [int((a - b).total_seconds())]: [int] truncates towards zero. *)
Definition total_seconds_int (a b : datetime) : Z :=
  Z.quot (sub_microseconds a b) 1000000.

(** *** Formatting *)

Definition digit (d : Z) : ascii := ascii_of_N (Z.to_N (48 + d)).

(** Two and four decimal digits, zero padded: what [%m %d %H %M %S] and [%Y]
    print for the values of a valid [datetime] ([%Y] as documented, padded
    to four digits). *)
Definition pad2 (n : Z) (rest : string) : string :=
  String (digit (n / 10 mod 10)) (String (digit (n mod 10)) rest).

Definition pad4 (n : Z) (rest : string) : string :=
  String (digit (n / 1000 mod 10)) (String (digit (n / 100 mod 10)) (pad2 n rest)).

(** [d.strftime("%Y-%m-%d")]. *)
Definition strftime_ymd (y m d : Z) (rest : string) : string :=
  pad4 y (String "-" (pad2 m (String "-" (pad2 d rest)))).

Definition date_strftime (d : date) : string :=
  strftime_ymd (d_year d) (d_month d) (d_day d) "".

(** [t.strftime(DATE_FORMAT)] on a [datetime]. *)
Definition strftime_date (t : datetime) : string :=
  strftime_ymd (year t) (month t) (day t) "".

(** [t.strftime(DATETIME_FORMAT)], ["%Y-%m-%d %H:%M:%S"]: the microseconds
    are dropped. *)
Definition strftime_datetime (t : datetime) : string :=
  strftime_ymd (year t) (month t) (day t)
    (String " " (pad2 (hour t) (String ":" (pad2 (minute t) (String ":" (pad2 (second t) "")))))).

(** *** Parsing

    [datetime.strptime(text, format)] turns the format into a regular
    expression ([_strptime.TimeRE]: every directive a group of alternatives,
    every run of blanks in the format [\s+], everything else itself), takes
    the first match at the start of the text in the order in which a
    backtracking matcher tries the alternatives, raises [ValueError] when
    there is none or when text remains after it, and raises [ValueError]
    again when the numbers it read are not a date or a time.

    A [string] is a Python [str] of code points below 256; there [\d] is
    [0-9], and [\s] the blanks listed in [is_space].  Text with other
    characters (the digits of other scripts, which [\d] matches too) is
    outside the model. *)

Definition digit_val (c : ascii) : option Z :=
  let n := Z.of_N (N_of_ascii c) in
  if (48 <=? n) && (n <=? 57) then Some (n - 48) else None.

(** The number two, respectively four, decimal digits spell. *)
Definition num2 (a b : ascii) : option Z :=
  match digit_val a, digit_val b with
  | Some x, Some y => Some (10 * x + y)
  | _, _ => None
  end.

Definition num4 (a b c d : ascii) : option Z :=
  match num2 a b, num2 c d with
  | Some x, Some y => Some (100 * x + y)
  | _, _ => None
  end.

(** The character classes [[lo-hi]] and [\s]. *)
Definition between (lo hi : ascii) (c : ascii) : bool :=
  (N_of_ascii lo <=? N_of_ascii c)%N && (N_of_ascii c <=? N_of_ascii hi)%N.

Definition is_space (c : ascii) : bool :=
  let n := N_of_ascii c in
  ((9 <=? n) && (n <=? 13) || (28 <=? n) && (n <=? 32) || (n =? 133) || (n =? 160))%N.

(** A piece of a regular expression: every way it matches at the start of
    the text, each with what it read and the text left, in the order in
    which the matcher tries them. *)
Definition matcher (A : Type) : Type := list ascii -> list (A * list ascii).

Definition found {A} (a : A) : matcher A := fun s => [(a, s)].

Definition and_then {A B} (m : matcher A) (k : A -> matcher B) : matcher B :=
  fun s => flat_map (fun ar => k (fst ar) (snd ar)) (m s).

(** [m1|m2]. *)
Definition or_else {A} (m1 m2 : matcher A) : matcher A :=
  fun s => m1 s ++ m2 s.

(** One character of the format that stands for itself. *)
Definition literal (c : ascii) : matcher unit :=
  fun s => match s with
           | a :: r => if Ascii.eqb a c then [(tt, r)] else []
           | [] => []
           end.

(** [[p]] and [[p][q]] for classes of digits, read as a number. *)
Definition one_digit (p : ascii -> bool) : matcher Z :=
  fun s => match s with
           | a :: r =>
             match digit_val a with
             | Some x => if p a then [(x, r)] else []
             | None => []
             end
           | [] => []
           end.

Definition two_digits (p q : ascii -> bool) : matcher Z :=
  fun s => match s with
           | a :: b :: r =>
             match num2 a b with
             | Some x => if p a && q b then [(x, r)] else []
             | None => []
             end
           | _ => []
           end.

(** [\s*] and [\s+]: greedy, so the longest run of blanks first. *)
Fixpoint blanks (s : list ascii) : list (unit * list ascii) :=
  match s with
  | a :: r => if is_space a then blanks r ++ [(tt, s)] else [(tt, s)]
  | [] => [(tt, s)]
  end.

Definition some_blanks : matcher unit :=
  fun s => match s with
           | a :: r => if is_space a then blanks r else []
           | [] => []
           end.

Definition any_digit (c : ascii) : bool := between "0" "9" c.

(** [%Y]: [\d\d\d\d]. *)
Definition directive_Y : matcher Z :=
  fun s => match s with
           | a :: b :: c :: d :: r =>
             match num4 a b c d with
             | Some y => [(y, r)]
             | None => []
             end
           | _ => []
           end.

(** [%m]: [1[0-2]|0[1-9]|[1-9]]. *)
Definition directive_m : matcher Z :=
  or_else (two_digits (Ascii.eqb "1") (between "0" "2"))
 (or_else (two_digits (Ascii.eqb "0") (between "1" "9"))
          (one_digit (between "1" "9"))).

(** [%d]: [3[0-1]|[1-2]\d|0[1-9]|[1-9]| [1-9]]. *)
Definition directive_d : matcher Z :=
  or_else (two_digits (Ascii.eqb "3") (between "0" "1"))
 (or_else (two_digits (between "1" "2") any_digit)
 (or_else (two_digits (Ascii.eqb "0") (between "1" "9"))
 (or_else (one_digit (between "1" "9"))
          (and_then (literal " ") (fun _ => one_digit (between "1" "9")))))).

(** [%H]: [2[0-3]|[0-1]\d|\d]. *)
Definition directive_H : matcher Z :=
  or_else (two_digits (Ascii.eqb "2") (between "0" "3"))
 (or_else (two_digits (between "0" "1") any_digit)
          (one_digit any_digit)).

(** [%M]: [[0-5]\d|\d]. *)
Definition directive_M : matcher Z :=
  or_else (two_digits (between "0" "5") any_digit) (one_digit any_digit).

(** [%S]: [6[0-1]|[0-5]\d|\d]. *)
Definition directive_S : matcher Z :=
  or_else (two_digits (Ascii.eqb "6") (between "0" "1"))
 (or_else (two_digits (between "0" "5") any_digit)
          (one_digit any_digit)).

(** The regular expression of [DATE_FORMAT], ["%Y-%m-%d"]. *)
Definition date_format : matcher (Z * Z * Z) :=
  and_then directive_Y (fun y =>
  and_then (literal "-") (fun _ =>
  and_then directive_m (fun m =>
  and_then (literal "-") (fun _ =>
  and_then directive_d (fun d =>
  found (y, m, d)))))).

(** The regular expression of [DATETIME_FORMAT], ["%Y-%m-%d %H:%M:%S"]. *)
Definition datetime_format : matcher (Z * Z * Z * Z * Z * Z) :=
  and_then directive_Y (fun y =>
  and_then (literal "-") (fun _ =>
  and_then directive_m (fun m =>
  and_then (literal "-") (fun _ =>
  and_then directive_d (fun d =>
  and_then some_blanks (fun _ =>
  and_then directive_H (fun h =>
  and_then (literal ":") (fun _ =>
  and_then directive_M (fun n =>
  and_then (literal ":") (fun _ =>
  and_then directive_S (fun c =>
  found (y, m, d, h, n, c)))))))))))).

(** [format_regex.match(data_string)], then the check that no text
    remains: the first match decides. *)
Definition whole_match {A} (m : matcher A) (s : string) : option A :=
  match m (list_ascii_of_string s) with
  | (a, []) :: _ => Some a
  | _ => None
  end.

(** [datetime.strptime(s, DATETIME_FORMAT)]; [None] is [ValueError]. *)
Definition strptime_datetime (s : string) : option datetime :=
  match whole_match datetime_format s with
  | Some (y, m, d, h, n, c) =>
    let t := mkdatetime y m d h n c 0 in
    if valid_datetimeb t then Some t else None
  | None => None
  end.

(** [datetime.strptime(s, DATE_FORMAT)], of which the callers keep the
    date; [None] is [ValueError]. *)
Definition strptime_date (s : string) : option date :=
  match whole_match date_format s with
  | Some (y, m, d) =>
    if valid_datetimeb (mkdatetime y m d 0 0 0 0) then Some (mkdate y m d) else None
  | None => None
  end.

(** [f"{n:02}"] for an [int]: decimal digits, zero padded to two columns
    (a sign takes one of them). *)
Definition decimal (n : Z) : string := NilZero.string_of_uint (N.to_uint (Z.to_N n)).

Definition format_02 (n : Z) : string :=
  if n <? 0 then String "-" (decimal (- n))
  else if n <? 10 then String "0" (decimal n)
  else decimal n.

End PyDatetime.

(** ** The SQLite file and the [sqlite3] calls *)

Module Sqlite.

(** [sqlite3.IntegrityError] is the subclass of [sqlite3.Error] the services
    name in a clause of its own; everything else is lumped together. *)
Inductive sqlite_error := IntegrityError | OperationalError.

Inductive exn := ValueError | SqliteError (e : sqlite_error).

(** What a Python call hands back to its caller. *)
Inductive py (A : Type) := Return (a : A) | Raise (e : exn).
Arguments Return {A} a.
Arguments Raise {A} e.

(** *** The schema ([scripts/database_setup.py]), columns the services use

    The schema declares foreign keys, but SQLite enforces them only on a
    connection that has run [PRAGMA foreign_keys = ON], which no connection
    of the services does: a row may name an employee, a leave type or a user
    that does not exist. *)

Record EmployeeRow := mkEmployee {
  e_id : Z; first_name : string; last_name : string; employee_code : string }.

Record UserRow := mkUser { u_id : Z; username : string }.

Record AttendanceLogRow := mkAttendance {
  al_id : Z; al_employee_id : Z;
  clock_in_time : string; clock_out_time : option string;
  attendance_date : string; al_notes : option string; al_source : string }.

Record LeaveTypeRow := mkLeaveType {
  lt_id : Z; type_name : string; default_balance : option float }.

Record LeaveRequestRow := mkLeaveRequest {
  lr_id : Z; lr_employee_id : Z; lr_leave_type_id : Z;
  start_date : string; end_date : string; reason : string;
  status : string; approver_id : option Z; request_date : string }.

Record LeaveBalanceRow := mkLeaveBalance {
  lb_id : Z; lb_employee_id : Z; lb_leave_type_id : Z; lb_year : Z;
  balance : float }.

(** The [seq_] fields are the rows of [sqlite_sequence] that AUTOINCREMENT
    keeps for the tables the services insert into. *)
Record database := mkdb {
  Employees : list EmployeeRow;
  Users : list UserRow;
  AttendanceLog : list AttendanceLogRow;
  seq_AttendanceLog : Z;
  LeaveTypes : list LeaveTypeRow;
  LeaveRequests : list LeaveRequestRow;
  seq_LeaveRequests : Z;
  LeaveBalances : list LeaveBalanceRow;
  seq_LeaveBalances : Z
}.

Definition with_AttendanceLog (rows : list AttendanceLogRow) (seq : Z) (d : database) :=
  mkdb (Employees d) (Users d) rows seq (LeaveTypes d)
       (LeaveRequests d) (seq_LeaveRequests d) (LeaveBalances d) (seq_LeaveBalances d).

Definition with_LeaveRequests (rows : list LeaveRequestRow) (seq : Z) (d : database) :=
  mkdb (Employees d) (Users d) (AttendanceLog d) (seq_AttendanceLog d) (LeaveTypes d)
       rows seq (LeaveBalances d) (seq_LeaveBalances d).

Definition with_LeaveBalances (rows : list LeaveBalanceRow) (seq : Z) (d : database) :=
  mkdb (Employees d) (Users d) (AttendanceLog d) (seq_AttendanceLog d) (LeaveTypes d)
       (LeaveRequests d) (seq_LeaveRequests d) rows seq.

(** The rowid an AUTOINCREMENT column gives the next row: one more than the
    largest rowid the table holds or has ever held. *)
Definition autoincrement {A} (id : A -> Z) (rows : list A) (seq : Z) : Z :=
  fold_right (fun r m => Z.max (id r) m) seq rows + 1.

(** [ORDER BY]: a stable insertion sort; [le a b] says that [a] may come
    before [b].  Rows with equal keys stay in rowid order. *)
Fixpoint insert_by {A} (le : A -> A -> bool) (x : A) (l : list A) : list A :=
  match l with
  | [] => [x]
  | y :: l' => if le x y then x :: l else y :: insert_by le x l'
  end.

Definition order_by {A} (le : A -> A -> bool) (l : list A) : list A :=
  fold_right (insert_by le) [] l.

(** Comparison of composite sort keys, first key first. *)
Definition then_by (c k : comparison) : comparison :=
  match c with Eq => k | _ => c end.

Definition not_after (c : comparison) : bool :=
  match c with Gt => false | _ => true end.

(** *** The world a service runs in *)

(** [db] is the content of the database file; [faults] lists what the next
    calls into [sqlite3] will do: [Some e] raises [e], [None] works, and past
    the end of the list every call works. *)
Record world := mkworld { db : database; faults : list (option sqlite_error) }.

(** A connection sees its own uncommitted changes ([work]); the file keeps
    the last committed content. *)
Record connection := mkconn {
  file : database; work : database; pending : list (option sqlite_error) }.

(** Code running between [sqlite3.connect] and [conn.close()], inside the
    [try] block: it ends in a value or in a raised [sqlite3.Error]. *)
Definition Conn (A : Type) : Type := connection -> (sqlite_error + A) * connection.

Definition ret {A} (a : A) : Conn A := fun c => (inr a, c).

Definition bind {A B} (m : Conn A) (k : A -> Conn B) : Conn B :=
  fun c => match m c with
           | (inr a, c') => k a c'
           | (inl e, c') => (inl e, c')
           end.

(** One call into the library: it consumes the next storage outcome. *)
Definition call : Conn unit :=
  fun c => match pending c with
           | Some e :: rest => (inl e, mkconn (file c) (work c) rest)
           | None :: rest => (inr tt, mkconn (file c) (work c) rest)
           | [] => (inr tt, c)
           end.

(** [cursor.execute] of a SELECT followed by its fetch. *)
Definition select {A} (q : database -> A) : Conn A :=
  bind call (fun _ c => (inr (q (work c)), c)).

(** [cursor.execute] of an INSERT or UPDATE: the statement may break a
    constraint; otherwise it changes the working copy and yields
    [lastrowid] or [rowcount]. *)
Definition execute {A} (stmt : database -> sqlite_error + (database * A)) : Conn A :=
  bind call (fun _ c => match stmt (work c) with
                        | inl e => (inl e, c)
                        | inr (d, a) => (inr a, mkconn (file c) d (pending c))
                        end).

Definition commit : Conn unit :=
  bind call (fun _ c => (inr tt, mkconn (work c) (work c) (pending c))).

(** A service call. *)
Definition Service (A : Type) : Type := world -> py A * world.

Definition sret {A} (a : A) : Service A := fun w => (Return a, w).
Definition sraise {A} (e : exn) : Service A := fun w => (Raise e, w).

Definition sbind {A B} (m : Service A) (k : A -> Service B) : Service B :=
  fun w => match m w with
           | (Return a, w') => k a w'
           | (Raise e, w') => (Raise e, w')
           end.

(** [conn = get_db_connection(); try: body; except sqlite3.Error: handler;
    finally: conn.close()].  The connection is opened before the [try], so
    an error of [sqlite3.connect] leaves the function as an exception.
    Closing drops whatever was not committed. *)
Definition with_connection {A} (body : Conn A) (handler : sqlite_error -> Service A)
  : Service A :=
  fun w =>
    match faults w with
    | Some e :: rest => (Raise (SqliteError e), mkworld (db w) rest)
    | fs =>
      match body (mkconn (db w) (db w) (tl fs)) with
      | (inr a, c) => (Return a, mkworld (file c) (pending c))
      | (inl e, c) => handler e (mkworld (file c) (pending c))
      end
    end.

Definition with_LeaveTypes (rows : list LeaveTypeRow) (d : database) :=
  mkdb (Employees d) (Users d) (AttendanceLog d) (seq_AttendanceLog d) rows
       (LeaveRequests d) (seq_LeaveRequests d) (LeaveBalances d) (seq_LeaveBalances d).

Definition with_Employees (rows : list EmployeeRow) (d : database) :=
  mkdb rows (Users d) (AttendanceLog d) (seq_AttendanceLog d) (LeaveTypes d)
       (LeaveRequests d) (seq_LeaveRequests d) (LeaveBalances d) (seq_LeaveBalances d).

End Sqlite.

Import PyDatetime Sqlite.

Notation "x <- m ;; k" := (bind m (fun x => k))
  (at level 61, m at next level, right associativity).
Notation "m ;; k" := (bind m (fun _ => k))
  (at level 61, right associativity).
Notation "x <~ m ;; k" := (sbind m (fun x => k))
  (at level 61, m at next level, right associativity).

(** Python's truth value of an optional string: [None] and [""] are false. *)
Definition truthy (s : option string) : bool :=
  match s with
  | Some s => negb (String.eqb s "")
  | None => false
  end.

Definition is_null {A} (o : option A) : bool :=
  match o with None => true | Some _ => false end.

Definition newline : ascii := ascii_of_nat 10.

(** ** [backend/services/attendance_service.py] *)

Module attendance_service.

(** [INSERT INTO AttendanceLog (employee_id, clock_in_time, attendance_date,
    notes, source) VALUES (?, ?, ?, ?, ?)]; yields [lastrowid]. *)
Definition insert_attendance (employee_id : Z) (clock_in_time_str attendance_date_str : string)
    (notes : option string) (source : string) (d : database)
  : sqlite_error + (database * Z) :=
  let id := autoincrement al_id (AttendanceLog d) (seq_AttendanceLog d) in
  let row := mkAttendance id employee_id clock_in_time_str None attendance_date_str notes source in
  inr (with_AttendanceLog (AttendanceLog d ++ [row]) id d, id).

(** [clock_in(employee_id, clock_in_time_dt=None, notes=None, source='manual')];
    [now] is what [datetime.now()] reads.  No check for a session that is
    still open: "we allow multiple clock-ins without checking for open ones". *)
Definition clock_in (now : datetime) (employee_id : Z) (clock_in_time_dt : option datetime)
    (notes : option string) (source : string) : Service (option Z) :=
  let clock_in_time_dt :=
    match clock_in_time_dt with None => now | Some t => t end in
  let clock_in_time_str := strftime_datetime clock_in_time_dt in
  let attendance_date_str := strftime_date clock_in_time_dt in
  with_connection
    (log_id <- execute (insert_attendance employee_id clock_in_time_str
                          attendance_date_str notes source) ;;
     commit ;;
     ret (Some log_id))
    (fun e => match e with
              | IntegrityError => sret None
              | _ => sret None
              end).

(** The rows [WHERE employee_id = ? AND clock_out_time IS NULL] keeps. *)
Definition is_open_for (employee_id : Z) (r : AttendanceLogRow) : bool :=
  (al_employee_id r =? employee_id) && is_null (clock_out_time r).

(** [SELECT * FROM AttendanceLog WHERE employee_id = ? AND clock_out_time IS
    NULL ORDER BY clock_in_time DESC LIMIT 1], then [fetchone()]. *)
Definition select_open_attendance (employee_id : Z) (d : database)
  : option AttendanceLogRow :=
  hd_error
    (order_by (fun a b => String.leb (clock_in_time b) (clock_in_time a))
              (filter (is_open_for employee_id) (AttendanceLog d))).

Definition get_open_attendance (employee_id : Z) : Service (option AttendanceLogRow) :=
  with_connection
    (open_log <- select (select_open_attendance employee_id) ;;
     ret open_log)
    (fun _ => sret None).

(** [UPDATE AttendanceLog SET clock_out_time = ?, notes = ? WHERE id = ?];
    yields [rowcount]. *)
Definition update_attendance (clock_out_time_str : string) (updated_notes : option string)
    (id : Z) (d : database) : sqlite_error + (database * Z) :=
  let hit r := al_id r =? id in
  let rows := map (fun r => if hit r
                            then mkAttendance (al_id r) (al_employee_id r) (clock_in_time r)
                                   (Some clock_out_time_str) (attendance_date r)
                                   updated_notes (al_source r)
                            else r) (AttendanceLog d) in
  inr (with_AttendanceLog rows (seq_AttendanceLog d) d,
       Z.of_nat (List.length (filter hit (AttendanceLog d)))).

(** The line [clock_out] prints on its way out; only [Updated] goes with
    the return value [True]. *)
Inductive clock_out_branch :=
| NoOpenRecord      (* "No open clock-in record found" *)
| OutBeforeIn       (* "Clock-out time cannot be before clock-in time" *)
| Updated           (* "clocked out successfully" *)
| NothingUpdated    (* "Could not update record" *)
| DatabaseError.    (* "Database error during clock-out" *)

(** [if notes: if updated_notes: ... else: ...]. *)
Definition merge_notes (updated_notes notes : option string) : option string :=
  match notes with
  | Some n =>
    if truthy notes then
      match updated_notes with
      | Some old =>
        if truthy updated_notes
        then Some (old ++ String newline ("Clock-out: " ++ n))%string
        else Some ("Clock-out: " ++ n)%string
      | None => Some ("Clock-out: " ++ n)%string
      end
    else updated_notes
  | None => updated_notes
  end.

Definition clock_out_trace (now : datetime) (employee_id : Z)
    (clock_out_time_dt : option datetime) (notes : option string)
  : Service clock_out_branch :=
  open_log <~ get_open_attendance employee_id ;;
  match open_log with
  | None => sret NoOpenRecord
  | Some open_log =>
    let clock_out_time_dt :=
      match clock_out_time_dt with None => now | Some t => t end in
    let clock_out_time_str := strftime_datetime clock_out_time_dt in
    match strptime_datetime (clock_in_time open_log) with
    | None => sraise ValueError
    | Some clock_in_dt =>
      if dt_lt clock_out_time_dt clock_in_dt then sret OutBeforeIn
      else
        let updated_notes := merge_notes (al_notes open_log) notes in
        with_connection
          (rowcount <- execute (update_attendance clock_out_time_str updated_notes
                                  (al_id open_log)) ;;
           commit ;;
           ret (if 0 <? rowcount then Updated else NothingUpdated))
          (fun _ => sret DatabaseError)
    end
  end.

Definition returned (b : clock_out_branch) : bool :=
  match b with Updated => true | _ => false end.

(** [clock_out(employee_id, clock_out_time_dt=None, notes=None)]. *)
Definition clock_out (now : datetime) (employee_id : Z)
    (clock_out_time_dt : option datetime) (notes : option string) : Service bool :=
  b <~ clock_out_trace now employee_id clock_out_time_dt notes ;;
  sret (returned b).

(** The WHERE clause [get_attendance_records] builds: each clause is there
    only when its argument is not [None]; the dates are compared as text. *)
Definition attendance_where (employee_id : option Z) (start_date_str end_date_str : option string)
    (r : AttendanceLogRow) : bool :=
  match employee_id with Some k => al_employee_id r =? k | None => true end
  && match start_date_str with Some s => String.leb s (attendance_date r) | None => true end
  && match end_date_str with Some e => String.leb (attendance_date r) e | None => true end.

(** [ORDER BY attendance_date DESC, clock_in_time DESC]. *)
Definition latest_first (a b : AttendanceLogRow) : bool :=
  not_after (then_by (String.compare (attendance_date b) (attendance_date a))
                     (String.compare (clock_in_time b) (clock_in_time a))).

Definition select_attendance_records (employee_id : option Z)
    (start_date_str end_date_str : option string) (d : database) : list AttendanceLogRow :=
  order_by latest_first
    (filter (attendance_where employee_id start_date_str end_date_str) (AttendanceLog d)).

(** [get_attendance_records(employee_id=None, start_date_obj=None,
    end_date_obj=None)]. *)
Definition get_attendance_records (employee_id : option Z) (start_date_obj end_date_obj : option date)
  : Service (list AttendanceLogRow) :=
  with_connection
    (records <- select (select_attendance_records employee_id
                          (option_map date_strftime start_date_obj)
                          (option_map date_strftime end_date_obj)) ;;
     ret records)
    (fun _ => sret []).

End attendance_service.

(** ** [backend/services/leave_service.py] *)

Module leave_service.

(** [WHERE employee_id = ? AND leave_type_id = ? AND year = ?]. *)
Definition balance_key (employee_id leave_type_id year : Z) (r : LeaveBalanceRow) : bool :=
  (lb_employee_id r =? employee_id) && (lb_leave_type_id r =? leave_type_id)
  && (lb_year r =? year).

Definition select_balance (employee_id leave_type_id year : Z) (d : database)
  : option LeaveBalanceRow :=
  find (balance_key employee_id leave_type_id year) (LeaveBalances d).

(** [SELECT default_balance FROM LeaveTypes WHERE id = ?]. *)
Definition select_leave_type (leave_type_id : Z) (d : database) : option LeaveTypeRow :=
  find (fun r => lt_id r =? leave_type_id) (LeaveTypes d).

(** [get_leave_balance(employee_id, leave_type_id, year)]. *)
Definition get_leave_balance (employee_id leave_type_id year : Z) : Service float :=
  with_connection
    (row <- select (select_balance employee_id leave_type_id year) ;;
     match row with
     | Some row => ret (balance row)
     | None =>
       lt_row <- select (select_leave_type leave_type_id) ;;
       match lt_row with
       | Some lt_row =>
         match default_balance lt_row with
         | Some dflt => ret dflt
         | None => ret 0%float
         end
       | None => ret 0%float
       end
     end)
    (fun _ => sret 0%float).

(** SQLite binds a NaN as NULL, and [balance] is [REAL NOT NULL]. *)
Definition bind_real (x : float) : sqlite_error + float :=
  if is_nan x then inl IntegrityError else inr x.

(** [UPDATE LeaveBalances SET balance = ? WHERE id = ?]. *)
Definition update_balance (new_balance : float) (id : Z) (d : database)
  : sqlite_error + (database * unit) :=
  match bind_real new_balance with
  | inl e => inl e
  | inr v =>
    let rows := map (fun r => if lb_id r =? id
                              then mkLeaveBalance (lb_id r) (lb_employee_id r)
                                     (lb_leave_type_id r) (lb_year r) v
                              else r) (LeaveBalances d) in
    inr (with_LeaveBalances rows (seq_LeaveBalances d) d, tt)
  end.

(** [INSERT INTO LeaveBalances (employee_id, leave_type_id, year, balance)
    VALUES (?, ?, ?, ?)], under [UNIQUE (employee_id, leave_type_id, year)]. *)
Definition insert_balance (employee_id leave_type_id year : Z) (new_balance : float)
    (d : database) : sqlite_error + (database * unit) :=
  match bind_real new_balance with
  | inl e => inl e
  | inr v =>
    if existsb (balance_key employee_id leave_type_id year) (LeaveBalances d)
    then inl IntegrityError
    else
      let id := autoincrement lb_id (LeaveBalances d) (seq_LeaveBalances d) in
      let row := mkLeaveBalance id employee_id leave_type_id year v in
      inr (with_LeaveBalances (LeaveBalances d ++ [row]) id d, tt)
  end.

(** [update_leave_balance(employee_id, leave_type_id, year, change_amount,
    is_initial_balance=False)]; [change_amount] is the value of
    [float(change_amount)]. *)
Definition update_leave_balance (employee_id leave_type_id year : Z)
    (change_amount : float) (is_initial_balance : bool) : Service float :=
  with_connection
    (existing_balance_row <- select (select_balance employee_id leave_type_id year) ;;
     match existing_balance_row with
     | Some existing_balance_row =>
       let new_balance :=
         if is_initial_balance then change_amount
         else (balance existing_balance_row + change_amount)%float in
       execute (update_balance new_balance (lb_id existing_balance_row)) ;;
       commit ;;
       ret new_balance
     | None =>
       new_balance <-
         (if is_initial_balance then ret change_amount
          else
            lt_row <- select (select_leave_type leave_type_id) ;;
            let base_balance :=
              match lt_row with
              | Some lt_row =>
                match default_balance lt_row with
                | Some dflt => dflt
                | None => 0%float
                end
              | None => 0%float
              end in
            ret (base_balance + change_amount)%float) ;;
       execute (insert_balance employee_id leave_type_id year new_balance) ;;
       commit ;;
       ret new_balance
     end)
    (fun _ => get_leave_balance employee_id leave_type_id year).

(** [INSERT INTO LeaveRequests (employee_id, leave_type_id, start_date,
    end_date, reason, status, request_date) VALUES (...)]; [approver_id]
    stays NULL. *)
Definition insert_request (employee_id leave_type_id : Z)
    (start_date_str end_date_str reason status request_date_str : string)
    (d : database) : sqlite_error + (database * Z) :=
  let id := autoincrement lr_id (LeaveRequests d) (seq_LeaveRequests d) in
  let row := mkLeaveRequest id employee_id leave_type_id start_date_str end_date_str
               reason status None request_date_str in
  inr (with_LeaveRequests (LeaveRequests d ++ [row]) id d, id).

(** [apply_for_leave(employee_id, leave_type_id, start_date_str,
    end_date_str, reason)]: [strptime] must read both dates, and what it
    reads is thrown away: the texts are stored as they were given, also when
    they lack the leading zeros.  Nothing compares the two dates with each
    other or looks the employee or the leave type up. *)
Definition apply_for_leave (now : datetime) (employee_id leave_type_id : Z)
    (start_date_str end_date_str reason : string) : Service (option Z) :=
  let request_date_str := strftime_datetime now in
  let status := "Pending" in
  match strptime_date start_date_str, strptime_date end_date_str with
  | Some _, Some _ =>
    with_connection
      (request_id <- execute (insert_request employee_id leave_type_id start_date_str
                                end_date_str reason status request_date_str) ;;
       commit ;;
       ret (Some request_id))
      (fun _ => sret None)
  | _, _ => sret None
  end.

(** [SELECT id, status FROM LeaveRequests WHERE id = ?]. *)
Definition select_request (leave_request_id : Z) (d : database) : option LeaveRequestRow :=
  find (fun r => lr_id r =? leave_request_id) (LeaveRequests d).

(** [UPDATE LeaveRequests SET status = ?, approver_id = ? WHERE id = ?];
    yields [rowcount]. *)
Definition update_request (new_status : string) (approver : Z) (id : Z) (d : database)
  : sqlite_error + (database * Z) :=
  let hit r := lr_id r =? id in
  let rows := map (fun r => if hit r
                            then mkLeaveRequest (lr_id r) (lr_employee_id r)
                                   (lr_leave_type_id r) (start_date r) (end_date r)
                                   (reason r) new_status (Some approver) (request_date r)
                            else r) (LeaveRequests d) in
  inr (with_LeaveRequests rows (seq_LeaveRequests d) d,
       Z.of_nat (List.length (filter hit (LeaveRequests d)))).

(** [_update_leave_request_status(leave_request_id, new_status, approver_id)]:
    the check of the current status is commented out in the source. *)
Definition _update_leave_request_status (leave_request_id : Z) (new_status : string)
    (approver : Z) : Service bool :=
  with_connection
    (request_row <- select (select_request leave_request_id) ;;
     match request_row with
     | None => ret false
     | Some _ =>
       rowcount <- execute (update_request new_status approver leave_request_id) ;;
       commit ;;
       ret (0 <? rowcount)
     end)
    (fun _ => sret false).

Definition approve_leave_request (leave_request_id approver : Z) : Service bool :=
  _update_leave_request_status leave_request_id "Approved" approver.

Definition reject_leave_request (leave_request_id approver : Z) : Service bool :=
  _update_leave_request_status leave_request_id "Rejected" approver.

(** What SQLite keeps of a bound double in a nullable REAL column: a NaN
    becomes NULL. *)
Definition bind_nullable_real (x : option float) : option float :=
  match x with
  | Some v => if is_nan v then None else Some v
  | None => None
  end.

(** [INSERT INTO LeaveTypes (type_name, default_balance) VALUES (?, ?)],
    under [type_name TEXT NOT NULL UNIQUE]; yields [lastrowid].  [seq] is the
    row [sqlite_sequence] keeps for [LeaveTypes], which [database] does not
    carry. *)
Definition insert_leave_type (seq : Z) (new_type_name : string) (dflt : option float)
    (d : database) : sqlite_error + (database * Z) :=
  if existsb (fun r => String.eqb (type_name r) new_type_name) (LeaveTypes d)
  then inl IntegrityError
  else
    let id := autoincrement lt_id (LeaveTypes d) seq in
    inr (with_LeaveTypes (LeaveTypes d ++ [mkLeaveType id new_type_name (bind_nullable_real dflt)]) d,
         id).

(** [add_leave_type(type_name, default_balance=None)]. *)
Definition add_leave_type (seq : Z) (new_type_name : string) (dflt : option float)
  : Service (option Z) :=
  with_connection
    (leave_type_id <- execute (insert_leave_type seq new_type_name dflt) ;;
     commit ;;
     ret (Some leave_type_id))
    (fun e => match e with
              | IntegrityError => sret None
              | _ => sret None
              end).

(** [SELECT * FROM LeaveTypes ORDER BY type_name]. *)
Definition by_type_name (a b : LeaveTypeRow) : bool :=
  not_after (String.compare (type_name a) (type_name b)).

Definition select_leave_types (d : database) : list LeaveTypeRow :=
  order_by by_type_name (LeaveTypes d).

(** [get_leave_types()]. *)
Definition get_leave_types : Service (list LeaveTypeRow) :=
  with_connection
    (leave_types <- select select_leave_types ;;
     ret leave_types)
    (fun _ => sret []).

(** A row of [get_leave_requests]: the request with the names joined to it. *)
Record LeaveRequestView := mkLeaveRequestView {
  lv_request : LeaveRequestRow;
  lv_employee_name : string; lv_employee_code : string;
  lv_leave_type_name : string; lv_approver_username : option string }.

(** The WHERE clause of [get_leave_requests]. *)
Definition requests_where (employee_id : option Z) (status_filter : option string)
    (lr : LeaveRequestRow) : bool :=
  match employee_id with Some k => lr_employee_id lr =? k | None => true end
  && match status_filter with Some s => String.eqb (status lr) s | None => true end.

(** [FROM LeaveRequests lr JOIN Employees e ON lr.employee_id = e.id
    JOIN LeaveTypes lt ON lr.leave_type_id = lt.id
    LEFT JOIN Users u ON lr.approver_id = u.id]. *)
Definition approvers_of (lr : LeaveRequestRow) (d : database) : list (option UserRow) :=
  match filter (fun u => match approver_id lr with
                         | Some a => a =? u_id u
                         | None => false
                         end) (Users d) with
  | [] => [None]
  | us => map Some us
  end.

Definition joined_requests (d : database)
  : list (LeaveRequestRow * EmployeeRow * LeaveTypeRow * option UserRow) :=
  flat_map
    (fun lr =>
       flat_map
         (fun e =>
            flat_map
              (fun lt => map (fun u => (lr, e, lt, u)) (approvers_of lr d))
              (filter (fun lt => lr_leave_type_id lr =? lt_id lt) (LeaveTypes d)))
         (filter (fun e => lr_employee_id lr =? e_id e) (Employees d)))
    (LeaveRequests d).

(** [ORDER BY lr.request_date DESC]. *)
Definition newest_request_first
    (a b : LeaveRequestRow * EmployeeRow * LeaveTypeRow * option UserRow) : bool :=
  not_after (String.compare (request_date (fst (fst (fst b))))
                            (request_date (fst (fst (fst a))))).

Definition select_leave_requests (employee_id : option Z) (status_filter : option string)
    (d : database) : list (LeaveRequestRow * EmployeeRow * LeaveTypeRow * option UserRow) :=
  order_by newest_request_first
    (filter (fun j => requests_where employee_id status_filter (fst (fst (fst j))))
            (joined_requests d)).

Definition leave_request_view (j : LeaveRequestRow * EmployeeRow * LeaveTypeRow * option UserRow)
  : LeaveRequestView :=
  let e := snd (fst (fst j)) in
  mkLeaveRequestView (fst (fst (fst j)))
    (first_name e ++ " " ++ last_name e)%string (employee_code e)
    (type_name (snd (fst j))) (option_map username (snd j)).

(** [get_leave_requests(employee_id=None, status=None)]. *)
Definition get_leave_requests (employee_id : option Z) (status_filter : option string)
  : Service (list LeaveRequestView) :=
  with_connection
    (rows <- select (select_leave_requests employee_id status_filter) ;;
     ret (map leave_request_view rows))
    (fun _ => sret []).

End leave_service.

(** ** [backend/services/reporting_service.py] *)

Module reporting_service.

(** [_calculate_duration(clock_in_str, clock_out_str)]. *)
Definition _calculate_duration (clock_in_str clock_out_str : option string) : string :=
  if negb (truthy clock_in_str) then "N/A"
  else if negb (truthy clock_out_str) then "Open"
  else
    match clock_in_str, clock_out_str with
    | Some clock_in_str, Some clock_out_str =>
      match strptime_datetime clock_in_str, strptime_datetime clock_out_str with
      | Some clock_in_dt, Some clock_out_dt =>
        if dt_lt clock_out_dt clock_in_dt then "Invalid (Out < In)"
        else
          let total_seconds := total_seconds_int clock_out_dt clock_in_dt in
          let hours := total_seconds / 3600 in
          let minutes := (total_seconds mod 3600) / 60 in
          let seconds := total_seconds mod 60 in
          (format_02 hours ++ ":" ++ format_02 minutes ++ ":" ++ format_02 seconds)%string
      | _, _ => "Error calculating"
      end
    | _, _ => "Error calculating"
    end.

(** A row of the daily attendance report. *)
Record DailyRow := mkDailyRow {
  dr_employee_name : string; dr_employee_code : string;
  dr_clock_in_time : string; dr_clock_out_time : option string;
  dr_notes : option string; dr_source : string; dr_duration : string }.

Definition employee_name (e : EmployeeRow) : string :=
  (first_name e ++ " " ++ last_name e)%string.

(** [FROM AttendanceLog al JOIN Employees e ON al.employee_id = e.id
    WHERE al.attendance_date = ? ORDER BY e.last_name, e.first_name,
    al.clock_in_time]. *)
Definition daily_attendance_rows (report_date_str : string) (d : database)
  : list (AttendanceLogRow * EmployeeRow) :=
  order_by
    (fun a b =>
       not_after
         (then_by (String.compare (last_name (snd a)) (last_name (snd b)))
         (then_by (String.compare (first_name (snd a)) (first_name (snd b)))
                  (String.compare (clock_in_time (fst a)) (clock_in_time (fst b))))))
    (flat_map
       (fun al =>
          if String.eqb (attendance_date al) report_date_str
          then map (fun e => (al, e))
                   (filter (fun e => e_id e =? al_employee_id al) (Employees d))
          else [])
       (AttendanceLog d)).

(** [get_daily_attendance_report(report_date_obj)]. *)
Definition get_daily_attendance_report (report_date_obj : date) : Service (list DailyRow) :=
  let report_date_str := date_strftime report_date_obj in
  with_connection
    (rows <- select (daily_attendance_rows report_date_str) ;;
     ret (map (fun row =>
                 let al := fst row in
                 let e := snd row in
                 mkDailyRow (employee_name e) (employee_code e)
                   (clock_in_time al) (clock_out_time al) (al_notes al) (al_source al)
                   (_calculate_duration (Some (clock_in_time al)) (clock_out_time al)))
              rows))
    (fun _ => sret []).

(** A row of the leave report. *)
Record LeaveReportRow := mkLeaveReportRow {
  rr_employee_name : string; rr_employee_code : string; rr_leave_type_name : string;
  rr_start_date : string; rr_end_date : string; rr_reason : string;
  rr_status : string; rr_request_date : string; rr_approver_username : option string }.

(** An optional filter: [if x is not None: sql_clauses.append("col = ?")]. *)
Definition filter_on {K} (eqb : K -> K -> bool) (wanted : option K) (col : K) : bool :=
  match wanted with
  | None => true
  | Some k => eqb col k
  end.

(** The WHERE clause of [get_leave_report]: [lr.start_date <= ? AND
    lr.end_date >= ?] bound to [(end_date_str, start_date_str)], then the
    optional filters. *)
Definition leave_report_where (start_date_str end_date_str : string)
    (employee_id leave_type_id : option Z) (status_filter : option string)
    (lr : LeaveRequestRow) : bool :=
  String.leb (start_date lr) end_date_str && String.leb start_date_str (end_date lr)
  && filter_on Z.eqb employee_id (lr_employee_id lr)
  && filter_on Z.eqb leave_type_id (lr_leave_type_id lr)
  && filter_on String.eqb status_filter (status lr).

(** [LEFT JOIN Users ua ON lr.approver_id = ua.id]. *)
Definition left_join_users (lr : LeaveRequestRow) (d : database) : list (option UserRow) :=
  match filter (fun u => match approver_id lr with
                         | Some a => a =? u_id u
                         | None => false
                         end) (Users d) with
  | [] => [None]
  | us => map Some us
  end.

Definition JoinedLeave : Type :=
  LeaveRequestRow * EmployeeRow * LeaveTypeRow * option UserRow.

Definition jl_request (j : JoinedLeave) : LeaveRequestRow := fst (fst (fst j)).
Definition jl_employee (j : JoinedLeave) : EmployeeRow := snd (fst (fst j)).
Definition jl_leave_type (j : JoinedLeave) : LeaveTypeRow := snd (fst j).
Definition jl_approver (j : JoinedLeave) : option UserRow := snd j.

(** [FROM LeaveRequests lr JOIN Employees e ON lr.employee_id = e.id
    JOIN LeaveTypes lt ON lr.leave_type_id = lt.id LEFT JOIN Users ua ...
    WHERE ... ORDER BY lr.start_date, e.last_name, e.first_name]. *)
Definition leave_report_rows (start_date_str end_date_str : string)
    (employee_id leave_type_id : option Z) (status_filter : option string)
    (d : database) : list JoinedLeave :=
  order_by
    (fun a b =>
       not_after
         (then_by (String.compare (start_date (jl_request a)) (start_date (jl_request b)))
         (then_by (String.compare (last_name (jl_employee a)) (last_name (jl_employee b)))
                  (String.compare (first_name (jl_employee a)) (first_name (jl_employee b))))))
    (filter
       (fun j => leave_report_where start_date_str end_date_str
                   employee_id leave_type_id status_filter (jl_request j))
       (flat_map
          (fun lr =>
             flat_map
               (fun e =>
                  flat_map
                    (fun lt => map (fun ua => (lr, e, lt, ua)) (left_join_users lr d))
                    (filter (fun lt => lr_leave_type_id lr =? lt_id lt) (LeaveTypes d)))
               (filter (fun e => lr_employee_id lr =? e_id e) (Employees d)))
          (LeaveRequests d))).

Definition leave_report_row (j : JoinedLeave) : LeaveReportRow :=
  let lr := jl_request j in
  mkLeaveReportRow (employee_name (jl_employee j)) (employee_code (jl_employee j))
    (type_name (jl_leave_type j)) (start_date lr) (end_date lr) (reason lr)
    (status lr) (request_date lr) (option_map username (jl_approver j)).

(** [get_leave_report(start_date_obj, end_date_obj, employee_id=None,
    leave_type_id=None, status=None)]. *)
Definition get_leave_report (start_date_obj end_date_obj : date)
    (employee_id leave_type_id : option Z) (status_filter : option string)
  : Service (list LeaveReportRow) :=
  let start_date_str := date_strftime start_date_obj in
  let end_date_str := date_strftime end_date_obj in
  with_connection
    (rows <- select (leave_report_rows start_date_str end_date_str
                       employee_id leave_type_id status_filter) ;;
     ret (map leave_report_row rows))
    (fun _ => sret []).

(** [SELECT DISTINCT al.employee_id FROM AttendanceLog al
    WHERE al.attendance_date = :report_date]. *)
Definition present_ids (report_date : string) (d : database) : list Z :=
  nodup Z.eq_dec
    (map al_employee_id
         (filter (fun al => String.eqb (attendance_date al) report_date) (AttendanceLog d))).

(** [SELECT DISTINCT lr.employee_id FROM LeaveRequests lr
    WHERE lr.status = 'Approved' AND lr.start_date <= :report_date
    AND lr.end_date >= :report_date]. *)
Definition approved_leave (report_date : string) (lr : LeaveRequestRow) : bool :=
  String.eqb (status lr) "Approved"
  && String.leb (start_date lr) report_date && String.leb report_date (end_date lr).

Definition on_leave_ids (report_date : string) (d : database) : list Z :=
  nodup Z.eq_dec
    (map lr_employee_id (filter (approved_leave report_date) (LeaveRequests d))).

Definition not_in (x : Z) (l : list Z) : bool := negb (existsb (Z.eqb x) l).

(** [FROM Employees e WHERE e.id NOT IN (...) AND e.id NOT IN (...)
    ORDER BY e.last_name, e.first_name]. *)
Definition absentee_rows (report_date : string) (d : database) : list EmployeeRow :=
  order_by
    (fun a b =>
       not_after (then_by (String.compare (last_name a) (last_name b))
                          (String.compare (first_name a) (first_name b))))
    (filter (fun e => not_in (e_id e) (present_ids report_date d)
                      && not_in (e_id e) (on_leave_ids report_date d))
            (Employees d)).

(** A row of the absentee report: [employee_code, first_name, last_name]. *)
Record AbsenteeRow := mkAbsentee {
  ab_employee_code : string; ab_first_name : string; ab_last_name : string }.

Definition absentee_row (e : EmployeeRow) : AbsenteeRow :=
  mkAbsentee (employee_code e) (first_name e) (last_name e).

(** [get_absentee_report(report_date_obj)]. *)
Definition get_absentee_report (report_date_obj : date) : Service (list AbsenteeRow) :=
  let report_date_str := date_strftime report_date_obj in
  with_connection
    (rows <- select (absentee_rows report_date_str) ;;
     ret (map absentee_row rows))
    (fun _ => sret []).

(** [FROM AttendanceLog al JOIN Employees e ON al.employee_id = e.id
    LEFT JOIN WorkSchedules ws ON e.work_schedule_id = ws.id
    WHERE al.employee_id = ? AND al.attendance_date >= ? AND
    al.attendance_date <= ? ORDER BY al.attendance_date].  The left join on
    the primary key of [WorkSchedules] adds columns the function never reads
    and no rows. *)
Definition summary_rows (employee_id : Z) (start_date_str end_date_str : string) (d : database)
  : list AttendanceLogRow :=
  order_by (fun a b => not_after (String.compare (attendance_date a) (attendance_date b)))
    (flat_map
       (fun al =>
          if (al_employee_id al =? employee_id)
             && String.leb start_date_str (attendance_date al)
             && String.leb (attendance_date al) end_date_str
          then map (fun _ => al) (filter (fun e => al_employee_id al =? e_id e) (Employees d))
          else [])
       (AttendanceLog d)).

(** The seconds one row adds to [total_duration_seconds]: nothing for an
    open session, for times that do not parse, and for a clock-out that is
    not after the clock-in. *)
Definition session_seconds (al : AttendanceLogRow) : Z :=
  if truthy (Some (clock_in_time al)) && truthy (clock_out_time al) then
    match clock_out_time al with
    | Some clock_out_str =>
      match strptime_datetime (clock_in_time al), strptime_datetime clock_out_str with
      | Some cin, Some cout =>
        if dt_lt cin cout then total_seconds_int cout cin else 0
      | _, _ => 0
      end
    | None => 0
    end
  else 0.

(** The summary dictionary.  The source adds the seconds up in a double;
    the terms are whole numbers, so the sum is the exact one as long as it
    stays below [2^53]. *)
Record Summary := mkSummary {
  su_employee_id : Z; su_start_date : string; su_end_date : string;
  su_total_days_present : Z; su_total_duration_seconds : Z;
  su_total_hours_worked_str : string;
  su_late_arrivals : string; su_early_departures : string }.

Definition summary_of (employee_id : Z) (start_date_str end_date_str : string)
    (rows : list AttendanceLogRow) : Summary :=
  let present_dates := nodup string_dec (map attendance_date rows) in
  let total := fold_left (fun acc al => acc + session_seconds al) rows 0 in
  mkSummary employee_id start_date_str end_date_str
    (Z.of_nat (List.length present_dates)) total
    (format_02 (total / 3600) ++ ":" ++ format_02 ((total mod 3600) / 60) ++ ":"
     ++ format_02 (total mod 60))%string
    "N/A (Deferred)" "N/A (Deferred)".

(** [get_employee_attendance_summary(employee_id, start_date_obj, end_date_obj)]. *)
Definition get_employee_attendance_summary (employee_id : Z) (start_date_obj end_date_obj : date)
  : Service Summary :=
  let start_date_str := date_strftime start_date_obj in
  let end_date_str := date_strftime end_date_obj in
  with_connection
    (rows <- select (summary_rows employee_id start_date_str end_date_str) ;;
     ret (summary_of employee_id start_date_str end_date_str rows))
    (fun _ => sret (mkSummary employee_id start_date_str end_date_str 0 0 "00:00:00"
                      "N/A (Deferred)" "N/A (Deferred)")).

End reporting_service.

(** ** [backend/services/employee_service.py], reading and deleting *)

Module employee_service.

(** [SELECT * FROM Employees WHERE id = ?]. *)
Definition select_employee (employee_id : Z) (d : database) : option EmployeeRow :=
  find (fun e => e_id e =? employee_id) (Employees d).

(** [get_employee(employee_id)]. *)
Definition get_employee (employee_id : Z) : Service (option EmployeeRow) :=
  with_connection
    (employee_row <- select (select_employee employee_id) ;;
     ret employee_row)
    (fun _ => sret None).

(** [DELETE FROM Employees WHERE id = ?]; yields [rowcount].  The schema's
    [ON DELETE CASCADE] and [ON DELETE SET NULL] belong to foreign keys
    that are not enforced, so no other table changes. *)
Definition delete_employee_row (employee_id : Z) (d : database)
  : sqlite_error + (database * Z) :=
  inr (with_Employees (filter (fun e => negb (e_id e =? employee_id)) (Employees d)) d,
       Z.of_nat (List.length (filter (fun e => e_id e =? employee_id) (Employees d)))).

(** [delete_employee(employee_id)]. *)
Definition delete_employee (employee_id : Z) : Service bool :=
  with_connection
    (found <- select (select_employee employee_id) ;;
     match found with
     | None => ret false
     | Some _ =>
       rowcount <- execute (delete_employee_row employee_id) ;;
       commit ;;
       ret (0 <? rowcount)
     end)
    (fun _ => sret false).


(** [SELECT * FROM Employees ORDER BY last_name, first_name]. *)
Definition select_all_employees (d : database) : list EmployeeRow :=
  order_by
    (fun a b => not_after (then_by (String.compare (last_name a) (last_name b))
                                   (String.compare (first_name a) (first_name b))))
    (Employees d).

(** [get_all_employees()]. *)
Definition get_all_employees : Service (list EmployeeRow) :=
  with_connection
    (employees <- select select_all_employees ;;
     ret employees)
    (fun _ => sret []).

End employee_service.

(** ** [frontend/views/attendance_view.py] *)

Module attendance_view.

Import attendance_service.

(** [handle_clock_in_click(employee_id, notes=None)]. *)
Definition handle_clock_in_click (now : datetime) (employee_id : Z) (notes : option string)
  : Service (option Z) :=
  clock_in now employee_id None notes "manual_ui".

(** [handle_clock_out_click(employee_id, notes=None)]. *)
Definition handle_clock_out_click (now : datetime) (employee_id : Z) (notes : option string)
  : Service bool :=
  clock_out now employee_id None notes.

(** [handle_get_current_status_click(employee_id)]. *)
Definition handle_get_current_status_click (employee_id : Z)
  : Service (option AttendanceLogRow) :=
  get_open_attendance employee_id.

(** [if s: obj = datetime.strptime(s, DATE_FORMAT).date()]: the outer
    [None] is the [ValueError], the inner one a bound that was not given. *)
Definition parse_bound (s : option string) : option (option date) :=
  if truthy s then
    match s with
    | Some s => option_map Some (strptime_date s)
    | None => Some None
    end
  else Some None.

(** [handle_view_attendance_click(employee_id=None, start_date_str=None,
    end_date_str=None)]. *)
Definition handle_view_attendance_click (employee_id : option Z)
    (start_date_str end_date_str : option string) : Service (list AttendanceLogRow) :=
  match parse_bound start_date_str with
  | None => sret []
  | Some start_date_obj =>
    match parse_bound end_date_str with
    | None => sret []
    | Some end_date_obj => get_attendance_records employee_id start_date_obj end_date_obj
    end
  end.

End attendance_view.

(** ** [frontend/views/reporting_view.py] *)

Module reporting_view.

Import reporting_service.

(** [handle_generate_daily_attendance_report_click(report_date_str)]. *)
Definition handle_generate_daily_attendance_report_click (report_date_str : string)
  : Service (list DailyRow) :=
  match strptime_date report_date_str with
  | None => sret []
  | Some report_date_obj => get_daily_attendance_report report_date_obj
  end.

(** [handle_generate_employee_summary_click(employee_id, start_date_str,
    end_date_str)]. *)
Definition handle_generate_employee_summary_click (employee_id : Z)
    (start_date_str end_date_str : string) : Service (option Summary) :=
  match strptime_date start_date_str, strptime_date end_date_str with
  | Some start_date_obj, Some end_date_obj =>
    summary_data <~ get_employee_attendance_summary employee_id start_date_obj end_date_obj ;;
    sret (Some summary_data)
  | _, _ => sret None
  end.

(** [handle_generate_leave_report_click(start_date_str, end_date_str,
    employee_id=None, leave_type_id=None, status=None)]. *)
Definition handle_generate_leave_report_click (start_date_str end_date_str : string)
    (employee_id leave_type_id : option Z) (status_filter : option string)
  : Service (list LeaveReportRow) :=
  match strptime_date start_date_str, strptime_date end_date_str with
  | Some start_date_obj, Some end_date_obj =>
    get_leave_report start_date_obj end_date_obj employee_id leave_type_id status_filter
  | _, _ => sret []
  end.

(** [handle_generate_absentee_report_click(report_date_str)]. *)
Definition handle_generate_absentee_report_click (report_date_str : string)
  : Service (list AbsenteeRow) :=
  match strptime_date report_date_str with
  | None => sret []
  | Some report_date_obj => get_absentee_report report_date_obj
  end.

End reporting_view.

(** * Vocabulary of the statements *)

Import attendance_service leave_service reporting_service.

Module Spec.

(** The balance stored for a key, if a row exists. *)
Definition stored_balance (employee_id leave_type_id year : Z) (d : database) : option float :=
option_map balance (select_balance employee_id leave_type_id year d).

(** The default of a leave type, [0.0] when the type or its default is missing. *)
Definition default_or_zero (leave_type_id : Z) (d : database) : float :=
match select_leave_type leave_type_id d with
| Some lt_row =>
  match default_balance lt_row with
  | Some dflt => dflt
  | None => 0%float
  end
| None => 0%float
end.

(** The balance a delta starts from: the stored one, else the leave type's
  default, else [0.0]. *)
Definition starting_balance (e lt y : Z) (d : database) : float :=
match select_balance e lt y d with
| Some row => balance row
| None => default_or_zero lt d
end.

(** The database after [update_leave_balance(..., amount)] on working storage. *)
Definition apply_delta (e lt y : Z) (amount : float) (d : database) : database :=
db (snd (update_leave_balance e lt y amount false (mkworld d []))).

(** Two deltas in a row leave the balance a single delta of their sum leaves. *)
Definition deltas_compose (d : database) (e lt y : Z) (x z : float) : Prop :=
stored_balance e lt y (apply_delta e lt y z (apply_delta e lt y x d))
= stored_balance e lt y (apply_delta e lt y (x + z)%float d).

(** *** Sample data *)

Definition empty_db : database := mkdb [] [] [] 0 [] [] 0 [] 0.

(** One balance row of a tenth of a day, written as the double next to it. *)
Definition tenth : float := 0x1.999999999999ap-4%float.
Definition two_tenths : float := 0x1.999999999999ap-3%float.
Definition three_tenths : float := 0x1.3333333333333p-2%float.

Definition ledger_tenth : database :=
with_LeaveBalances [mkLeaveBalance 1 1 1 2024 tenth] 1 empty_db.

(** A leave type with a default of twenty days, and no balance row yet. *)
Definition ledger_default : database :=
mkdb [] [] [] 0 [mkLeaveType 1 "Annual Leave" (Some 20%float)] [] 0 [] 0.

(** *** Leave requests *)

(** A request row after a decision: only [status] and [approver_id] change. *)
Definition decided (new_status : string) (approver : Z) (r : LeaveRequestRow) : LeaveRequestRow :=
  mkLeaveRequest (lr_id r) (lr_employee_id r) (lr_leave_type_id r) (start_date r) (end_date r)
    (reason r) new_status (Some approver) (request_date r).

Definition request_exists (id : Z) (d : database) : Prop :=
  exists r, In r (LeaveRequests d) /\ lr_id r = id.

(** The status and approver stored for a request id. *)
Definition status_of (id : Z) (d : database) : option (string * option Z) :=
  option_map (fun r => (status r, approver_id r)) (select_request id d).

(** One pending request, number 7, of employee 1. *)
Definition one_pending_request : database :=
  with_LeaveRequests
    [mkLeaveRequest 7 1 1 "2024-07-15" "2024-07-17" "Vacation" "Pending" None
       "2024-07-01 08:00:00"] 7 empty_db.

(** *** Reports *)

(** [D] lies within the request's dates, the way the store compares the
    [YYYY-MM-DD] texts. *)
Definition covers (lr : LeaveRequestRow) (D : string) : Prop :=
  String.leb (start_date lr) D = true /\ String.leb D (end_date lr) = true.

(** The request's dates meet the window [start_date_str .. end_date_str]. *)
Definition overlaps (lr : LeaveRequestRow) (start_date_str end_date_str : string) : Prop :=
  String.leb (start_date lr) end_date_str = true
  /\ String.leb start_date_str (end_date lr) = true.



Definition employee_exists (id : Z) (d : database) : Prop :=
  exists e, In e (Employees d) /\ e_id e = id.





(** The employee has an attendance record dated [D]. *)
Definition attended (e : EmployeeRow) (D : string) (d : database) : Prop :=
  exists al, In al (AttendanceLog d) /\ al_employee_id al = e_id e /\ attendance_date al = D.

(** The employee has an approved leave request whose dates contain [D]. *)
Definition on_approved_leave (e : EmployeeRow) (D : string) (d : database) : Prop :=
  exists lr, In lr (LeaveRequests d) /\ lr_employee_id lr = e_id e
             /\ status lr = "Approved" /\ covers lr D.

(** Two employees, no attendance at all; the first has approved leave over
    June 3 to June 7, the second a request that is still pending. *)
Definition two_on_leave : database :=
  mkdb [mkEmployee 1 "Amal" "Haddad" "EMP001"; mkEmployee 2 "Basil" "Aziz" "EMP002"] [] [] 0
       [mkLeaveType 1 "Annual Leave" (Some 20%float)]
       [mkLeaveRequest 1 1 1 "2024-06-03" "2024-06-07" "Trip" "Approved" (Some 1)
          "2024-05-20 10:00:00";
        mkLeaveRequest 2 2 1 "2024-06-03" "2024-06-07" "Trip" "Pending" None
          "2024-05-21 10:00:00"] 2 [] 0.

(** [D] lies within the request's dates, read as the dates they spell: the
    interval of the request contains [D] on the calendar. *)
Definition spans (lr : LeaveRequestRow) (D : date) : Prop :=
  exists from to,
    strptime_date (start_date lr) = Some from /\ strptime_date (end_date lr) = Some to
    /\ date_le from D = true /\ date_le D to = true.

(** The employee has an approved leave request whose interval contains [D]. *)
Definition on_approved_leave_over (e : EmployeeRow) (D : date) (d : database) : Prop :=
  exists lr, In lr (LeaveRequests d) /\ lr_employee_id lr = e_id e
             /\ status lr = "Approved" /\ spans lr D.

(** Every stored request carries its dates the way [strftime] writes them. *)
Definition dates_zero_padded (d : database) : Prop :=
  forall lr, In lr (LeaveRequests d) ->
    exists from to,
      valid_date from /\ valid_date to
      /\ start_date lr = date_strftime from /\ end_date lr = date_strftime to.

Definition amal : EmployeeRow := mkEmployee 1 "Amal" "Haddad" "EMP001".
Definition basil : EmployeeRow := mkEmployee 2 "Basil" "Aziz" "EMP002".

(** Two employees, nobody has clocked in, no request yet. *)
Definition two_employees : database :=
  mkdb [amal; basil] [] [] 0 [mkLeaveType 1 "Annual Leave" (Some 20%float)] [] 0 [] 0.

(** Both employees apply for leave from June 3 to June 7, 2024, and both
    requests are approved by user 7.  Amal writes the dates without the
    leading zeros, Basil with them; [apply_for_leave] accepts both
    spellings and stores each as it was written. *)
Definition both_on_leave : world :=
  let applied (w : world) (e : Z) (from to : string) :=
    snd (apply_for_leave (mkdatetime 2024 5 20 10 0 0 0) e 1 from to "Trip" w) in
  let approved (w : world) (id : Z) := snd (approve_leave_request id 7 w) in
  approved (applied (approved (applied (mkworld two_employees []) 1 "2024-6-3" "2024-6-7") 1)
                    2 "2024-06-03" "2024-06-07") 2.

(** *** Timestamps *)

(** [t.replace(microsecond=0)]: what survives a trip through the store. *)
Definition whole_second (t : datetime) : datetime :=
  mkdatetime (year t) (month t) (day t) (hour t) (minute t) (second t) 0.


(** Seconds since the start of day one of year one. *)
Definition epoch_seconds (t : datetime) : Z :=
  toordinal t * 86400 + hour t * 3600 + minute t * 60 + second t.

(** [HH:MM:SS] for a number of seconds: the hours in full (at least two
    digits), minutes and seconds on two digits each. *)
Definition hh_mm_ss (s : Z) : string :=
  (format_02 (s / 3600) ++ String ":" (pad2 (s mod 3600 / 60) (String ":" (pad2 (s mod 60) ""))))%string.

Definition nine_o_clock : datetime := mkdatetime 2024 6 1 9 0 0 0.
Definition half_past_five : datetime := mkdatetime 2024 6 1 17 30 0 0.

(** What C6 says of a clock-out that is earlier than the clock-in. *)
Definition invalid_sentinel_as_specified : Prop :=
  forall cin cout,
    valid_datetime cin -> valid_datetime cout ->
    dt_lt (whole_second cout) (whole_second cin) = true ->
    _calculate_duration (Some (strftime_datetime cin)) (Some (strftime_datetime cout))
    = "Invalid".

(** *** Attendance sessions *)

(** The time a clock-out is recorded at: the argument, else [datetime.now()]. *)
Definition effective_time (now : datetime) (given : option datetime) : datetime :=
  match given with None => now | Some t => t end.

(** The number of records of the employee without a clock-out time. *)
Definition count_open (employee_id : Z) (d : database) : nat :=
  List.length (filter (is_open_for employee_id) (AttendanceLog d)).

Definition one_open_session_at_most (d : database) : Prop :=
  forall employee_id, (count_open employee_id d <= 1)%nat.

(** Every stored clock-in time is what [strftime] wrote for a valid
    [datetime]: the only timestamps [clock_in] ever stores. *)
Definition canonical_log (d : database) : Prop :=
  forall r, In r (AttendanceLog d) ->
    exists t, valid_datetime t /\ clock_in_time r = strftime_datetime t.

(** The database after a statement that succeeds. *)
Definition after {A} (stmt : database -> sqlite_error + (database * A)) (d : database)
  : database :=
  match stmt d with
  | inr (d', _) => d'
  | inl _ => d
  end.

(** The calls of the attendance service. *)
Inductive operation :=
| ClockIn (now : datetime) (employee_id : Z) (clock_in_time_dt : option datetime)
          (notes : option string) (source : string)
| ClockOut (now : datetime) (employee_id : Z) (clock_out_time_dt : option datetime)
           (notes : option string).

Definition perform (op : operation) (w : world) : world :=
  match op with
  | ClockIn now e t notes source => snd (clock_in now e t notes source w)
  | ClockOut now e t notes => snd (clock_out now e t notes w)
  end.

(** The [datetime] objects a call receives are valid ones. *)
Definition valid_operation (op : operation) : Prop :=
  match op with
  | ClockIn now _ t _ _ => valid_datetime (effective_time now t)
  | ClockOut now _ t _ => valid_datetime (effective_time now t)
  end.

(** The states the service can bring an empty attendance log to, under any
    behaviour of the storage. *)
Inductive reachable : world -> Prop :=
| reachable_start (d : database) (fs : list (option sqlite_error)) :
    AttendanceLog d = [] -> reachable (mkworld d fs)
| reachable_step (w : world) (op : operation) :
    reachable w -> valid_operation op -> reachable (perform op w).

(** A caller that clocks an employee in only when [get_open_attendance]
    would find no open record for that employee. *)
Definition checked (op : operation) (w : world) : Prop :=
  match op with
  | ClockIn _ e _ _ _ => select_open_attendance e (db w) = None
  | ClockOut _ _ _ _ => True
  end.

Inductive reachable_checked : world -> Prop :=
| checked_start (d : database) (fs : list (option sqlite_error)) :
    AttendanceLog d = [] -> reachable_checked (mkworld d fs)
| checked_step (w : world) (op : operation) :
    reachable_checked w -> valid_operation op -> checked op w ->
    reachable_checked (perform op w).

Definition eight_o_clock : datetime := mkdatetime 2024 6 1 8 0 0 0.

(** Employee 1 clocks in at eight and again at nine, without clocking out. *)
Definition clocked_in_twice : world :=
  perform (ClockIn nine_o_clock 1 None None "manual")
    (perform (ClockIn eight_o_clock 1 None None "manual") (mkworld empty_db [])).

(** Employee 1 clocks in at eight, out at nine, and in again at half past five. *)
Definition in_out_in : world :=
  perform (ClockIn half_past_five 1 None None "manual")
    (perform (ClockOut nine_o_clock 1 None (Some "Lunch"))
       (perform (ClockIn eight_o_clock 1 None (Some "Morning") "manual") (mkworld empty_db []))).

(** The directory holds employee 1, who clocks in at eight, out at nine, and
    in again at half past five. *)
Definition a_working_day : world :=
  perform (ClockIn half_past_five 1 None None "manual")
    (perform (ClockOut nine_o_clock 1 None (Some "Lunch"))
       (perform (ClockIn eight_o_clock 1 None (Some "Morning") "manual")
          (mkworld (mkdb [mkEmployee 1 "Amal" "Haddad" "EMP001"] [] [] 0 [] [] 0 [] 0) []))).

(** Employee 1 clocked in at nine and has not clocked out. *)
Definition open_since_nine : database :=
  db (perform (ClockIn nine_o_clock 1 None None "manual") (mkworld empty_db [])).

(** *** Storage failures *)

(** Worlds in which the storage fails with [err]: when the connection is
    opened, when the first statement runs, when the commit runs. *)
Definition connect_fails (err : sqlite_error) (d : database) : world :=
  mkworld d [Some err].

Definition statement_fails (err : sqlite_error) (d : database) : world :=
  mkworld d [None; Some err].

Definition commit_fails (err : sqlite_error) (d : database) : world :=
  mkworld d [None; None; Some err].

(** Employee 1 is at work since nine, and annual leave comes with twenty
    days for everybody. *)
Definition at_work_with_default : database :=
  with_LeaveTypes [mkLeaveType 1 "Annual Leave" (Some 20%float)] open_since_nine.

(** The world [w] put off by [n] calls into [sqlite3] that work: the
    connection and the statement of an earlier read, or the first statement
    of a function that runs two. *)
Definition after_calls (n : nat) (w : world) : world :=
  mkworld (db w) (repeat None n ++ faults w).

(** What C10 says of [get_leave_balance]: the result of a run in which the
    storage failed differs from the result of every run in which it worked. *)
Definition balance_failure_is_told_apart : Prop :=
  forall err d d0 e lt y,
    fst (get_leave_balance e lt y (statement_fails err d))
    <> fst (get_leave_balance e lt y (mkworld d0 [])).

(** *** Sort orders *)

(** A three-way comparison that orders its arguments: equal arguments
    compare alike, swapping the arguments swaps the answer, and "before" is
    transitive. *)
Record ordering {A} (cmp : A -> A -> comparison) : Prop := mk_ordering {
  ord_eq : forall a b c, cmp a b = Eq -> cmp a c = cmp b c;
  ord_antisym : forall a b, cmp b a = CompOpp (cmp a b);
  ord_lt_trans : forall a b c, cmp a b = Lt -> cmp b c = Lt -> cmp a c = Lt }.

(** The list is in the order of [cmp]: no element comes after a later one. *)
Definition sorted_by {A} (cmp : A -> A -> comparison) (l : list A) : Prop :=
  Sorted.StronglySorted (fun a b => cmp a b <> Gt) l.

(** *** Records as the attendance service leaves them *)

(** The clock-in time and the date were written from one valid [datetime],
    and a clock-out time, if there is one, from a valid [datetime] that is
    not before it. *)
Definition well_formed_record (r : AttendanceLogRow) : Prop :=
  exists cin,
    valid_datetime cin
    /\ clock_in_time r = strftime_datetime cin
    /\ attendance_date r = strftime_date cin
    /\ match clock_out_time r with
       | None => True
       | Some out =>
         exists cout,
           valid_datetime cout /\ out = strftime_datetime cout
           /\ epoch_seconds cin <= epoch_seconds cout
       end.

Definition well_formed_log (d : database) : Prop :=
  NoDup (map al_id (AttendanceLog d))
  /\ forall r, In r (AttendanceLog d) -> well_formed_record r.

(** A record after its clock-out. *)
Definition closed_record (clock_out_time_str : string) (updated_notes : option string)
    (r : AttendanceLogRow) : AttendanceLogRow :=
  mkAttendance (al_id r) (al_employee_id r) (clock_in_time r) (Some clock_out_time_str)
    (attendance_date r) updated_notes (al_source r).

(** The order [get_attendance_records] lists in: later dates first, and
    within a date later clock-ins first. *)
Definition latest_first_cmp (a b : AttendanceLogRow) : comparison :=
  then_by (String.compare (attendance_date b) (attendance_date a))
          (String.compare (clock_in_time b) (clock_in_time a)).

(** The filters of [get_attendance_records], each one optional. *)
Definition attendance_matches (employee_id : option Z) (start_date_obj end_date_obj : option date)
    (r : AttendanceLogRow) : Prop :=
  (forall k, employee_id = Some k -> al_employee_id r = k)
  /\ (forall s, start_date_obj = Some s -> String.leb (date_strftime s) (attendance_date r) = true)
  /\ (forall e, end_date_obj = Some e -> String.leb (attendance_date r) (date_strftime e) = true).

(** *** The ledger as the service leaves it *)

(** A balance row with its balance replaced. *)
Definition with_balance (v : float) (r : LeaveBalanceRow) : LeaveBalanceRow :=
  mkLeaveBalance (lb_id r) (lb_employee_id r) (lb_leave_type_id r) (lb_year r) v.

(** What [update_leave_balance] computes as the new balance. *)
Definition new_balance_of (e lt y : Z) (amount : float) (is_initial_balance : bool)
    (d : database) : float :=
  if is_initial_balance then amount else (starting_balance e lt y d + amount)%float.

Definition balance_key_of (r : LeaveBalanceRow) : Z * Z * Z :=
  (lb_employee_id r, lb_leave_type_id r, lb_year r).

(** The primary key and the [UNIQUE (employee_id, leave_type_id, year)]
    constraint of [LeaveBalances]. *)
Definition ledger_well_formed (d : database) : Prop :=
  NoDup (map lb_id (LeaveBalances d)) /\ NoDup (map balance_key_of (LeaveBalances d)).

(** The database after [update_leave_balance] on working storage. *)
Definition ledger_after (e lt y : Z) (amount : float) (is_initial_balance : bool)
    (d : database) : database :=
  db (snd (update_leave_balance e lt y amount is_initial_balance (mkworld d []))).

(** Two balance rows with distinct ids and keys. *)
Definition two_balances : database :=
  with_LeaveBalances [mkLeaveBalance 1 1 1 2024 20%float; mkLeaveBalance 2 1 2 2024 10%float]
    2 ledger_default.


(** *** Leave types and the listing of requests *)

Definition type_name_taken (name : string) (d : database) : Prop :=
  exists r, In r (LeaveTypes d) /\ type_name r = name.

(** What a lookup of the default of a leave type added with [dflt] gives. *)
Definition default_as_read (dflt : option float) : float :=
  match bind_nullable_real dflt with
  | Some v => v
  | None => 0%float
  end.

Definition by_type_name_cmp (a b : LeaveTypeRow) : comparison :=
  String.compare (type_name a) (type_name b).

(** [ORDER BY lr.request_date DESC], on the rows [get_leave_requests] returns. *)
Definition newest_first_cmp (a b : LeaveRequestView) : comparison :=
  String.compare (request_date (lv_request b)) (request_date (lv_request a)).

(** The [LEFT JOIN Users]: the approver's row, or nothing when no user has
    the request's [approver_id]. *)
Definition approver_joined (lr : LeaveRequestRow) (u : option UserRow) (d : database) : Prop :=
  match u with
  | Some user => In user (Users d) /\ approver_id lr = Some (u_id user)
  | None => forall user, In user (Users d) -> approver_id lr <> Some (u_id user)
  end.

(** The filters of [get_leave_requests], each one optional. *)
Definition request_matches (employee_id : option Z) (status_filter : option string)
    (lr : LeaveRequestRow) : Prop :=
  (forall k, employee_id = Some k -> lr_employee_id lr = k)
  /\ (forall s, status_filter = Some s -> status lr = s).

(** One employee, one leave type, one user and nothing else. *)
Definition small_office : database :=
  mkdb [mkEmployee 1 "Ada" "Lovelace" "E001"] [mkUser 7 "manager"] [] 0
       [mkLeaveType 1 "Annual Leave" (Some 20%float)] [] 0 [] 0.


(** *** A time sheet *)

(** One session as the callers of the attendance service know it: who, from
    when, and until when if it is over. *)
Record session := mksession {
  s_id : Z; s_employee : Z; s_in : datetime; s_out : option datetime;
  s_notes : option string; s_source : string }.

(** The record [clock_in] and [clock_out] leave of a session. *)
Definition record_of (x : session) : AttendanceLogRow :=
  mkAttendance (s_id x) (s_employee x) (strftime_datetime (s_in x))
    (option_map strftime_datetime (s_out x)) (strftime_date (s_in x))
    (s_notes x) (s_source x).

Definition valid_session (x : session) : Prop :=
  valid_datetime (s_in x)
  /\ match s_out x with
     | Some out => valid_datetime out /\ epoch_seconds (s_in x) <= epoch_seconds out
     | None => True
     end.

(** Whole seconds from clock-in to clock-out; nothing while the session is open. *)
Definition worked (x : session) : Z :=
  match s_out x with
  | Some out => epoch_seconds out - epoch_seconds (s_in x)
  | None => 0
  end.

(** [t.date()]. *)
Definition date_of (t : datetime) : date := mkdate (year t) (month t) (day t).

Definition date_eq_dec (a b : date) : {a = b} + {a <> b}.
Proof. decide equality; apply Z.eq_dec. Defined.

(** The sessions of an employee that began on a day of the period. *)
Definition in_period (e : Z) (first last : date) (x : session) : bool :=
  (s_employee x =? e) && date_le first (date_of (s_in x)) && date_le (date_of (s_in x)) last.

Definition sum_Z (l : list Z) : Z := fold_right Z.add 0 l.

Definition total_worked (e : Z) (first last : date) (sheet : list session) : Z :=
  sum_Z (map worked (filter (in_period e first last) sheet)).

Definition days_present (e : Z) (first last : date) (sheet : list session) : nat :=
  List.length (nodup date_eq_dec
                 (map (fun x => date_of (s_in x)) (filter (in_period e first last) sheet))).

(** The directory holds exactly one employee with the id. *)
Definition listed_once (e : Z) (d : database) : Prop :=
  exists emp, filter (fun x => e =? e_id x) (Employees d) = [emp].

(** Employee 1 worked from eight to nine and is at work since half past five. *)
Definition june_first_sheet : list session :=
  [mksession 1 1 eight_o_clock (Some nine_o_clock) (Some "Morning") "manual";
   mksession 2 1 half_past_five None None "manual"].

Definition june_first_log : database :=
  mkdb [mkEmployee 1 "Amal" "Haddad" "EMP001"] [] (map record_of june_first_sheet) 2
       [] [] 0 [] 0.


(** *** The directory *)

(** [ORDER BY last_name, first_name]. *)
Definition by_name_cmp (a b : EmployeeRow) : comparison :=
  then_by (String.compare (last_name a) (last_name b))
          (String.compare (first_name a) (first_name b)).

End Spec.

(** * Properties *)

Import Spec.

(** Runs the plumbing of a service call and leaves the queries in place. *)
Ltac run_service :=
  unfold with_connection, select, execute, commit, bind, call, ret, sret, sraise, sbind;
  cbn [faults db tl pending file work fst snd].

(** ** Tables and queries *)

Section Tables.

Context {A : Type}.

Lemma insert_by_In (le : A -> A -> bool) (x y : A) (l : list A) :
  In y (insert_by le x l) <-> y = x \/ In y l.
Proof.
  induction l as [|z l IH]; simpl.
  - intuition.
  - destruct (le x z); simpl; rewrite ?IH; intuition.
Qed.

Lemma order_by_In (le : A -> A -> bool) (x : A) (l : list A) :
  In x (order_by le l) <-> In x l.
Proof.
  induction l as [|z l IH]; simpl; [tauto|].
  rewrite insert_by_In, IH. intuition.
Qed.

Lemma insert_by_length (le : A -> A -> bool) (x : A) (l : list A) :
  List.length (insert_by le x l) = S (List.length l).
Proof.
  induction l as [|z l IH]; simpl; [reflexivity|].
  destruct (le x z); simpl; congruence.
Qed.

Lemma order_by_length (le : A -> A -> bool) (l : list A) :
  List.length (order_by le l) = List.length l.
Proof.
  induction l as [|z l IH]; simpl; [reflexivity|].
  rewrite insert_by_length; congruence.
Qed.

Lemma order_by_hd_none (le : A -> A -> bool) (l : list A) :
  hd_error (order_by le l) = None <-> l = [].
Proof.
  split.
  - intro H. destruct l as [|z l]; [reflexivity|]. exfalso.
    pose proof (order_by_length le (z :: l)) as Hl.
    destruct (order_by le (z :: l)); simpl in *; discriminate.
  - intros ->. reflexivity.
Qed.

Lemma order_by_hd_some (le : A -> A -> bool) (l : list A) (x : A) :
  hd_error (order_by le l) = Some x -> In x l.
Proof.
  intro H. apply (order_by_In le).
  destruct (order_by le l); simpl in H; [discriminate|].
  injection H as ->. now left.
Qed.

Lemma find_map_stable (p : A -> bool) (f : A -> A) (l : list A) :
  (forall x, p (f x) = p x) -> find p (map f l) = option_map f (find p l).
Proof.
  intro Hp. induction l as [|z l IH]; simpl; [reflexivity|].
  rewrite Hp. destruct (p z); [reflexivity|exact IH].
Qed.

Lemma find_app_none (p : A -> bool) (l : list A) (x : A) :
  find p l = None -> find p (l ++ [x]) = if p x then Some x else None.
Proof.
  induction l as [|z l IH]; simpl; [reflexivity|].
  destruct (p z); [discriminate|exact IH].
Qed.

Lemma find_none_iff (p : A -> bool) (l : list A) :
  find p l = None <-> forall x, In x l -> p x = false.
Proof.
  split.
  - intros H x Hx. exact (find_none p l H x Hx).
  - induction l as [|z l IH]; simpl; intro H; [reflexivity|].
    rewrite (H z (or_introl eq_refl)). apply IH. intros x Hx. apply H. now right.
Qed.

Lemma find_some_filter (p : A -> bool) (l : list A) (x : A) :
  find p l = Some x -> (0 < List.length (filter p l))%nat.
Proof.
  induction l as [|z l IH]; simpl; [discriminate|].
  destruct (p z); simpl; [lia|exact IH].
Qed.

Lemma find_none_existsb (p : A -> bool) (l : list A) :
  find p l = None -> existsb p l = false.
Proof.
  induction l as [|z l IH]; simpl; [reflexivity|].
  destruct (p z); [discriminate|exact IH].
Qed.

End Tables.

(** ** The leave balance ledger *)

Lemma select_balance_some e lt y d row :
  select_balance e lt y d = Some row ->
  In row (LeaveBalances d) /\
  lb_employee_id row = e /\ lb_leave_type_id row = lt /\ lb_year row = y.
Proof.
  intro H. apply find_some in H. destruct H as [Hin Hk]. split; [exact Hin|].
  unfold balance_key in Hk. apply andb_prop in Hk as [Hk Hy].
  apply andb_prop in Hk as [He Hl]. lia.
Qed.

Lemma select_balance_none e lt y d :
  select_balance e lt y d = None <->
  forall row, In row (LeaveBalances d) ->
    ~ (lb_employee_id row = e /\ lb_leave_type_id row = lt /\ lb_year row = y).
Proof.
  unfold select_balance. rewrite find_none_iff. unfold balance_key.
  split; intros H row Hin; specialize (H row Hin).
  - intros (He & Hl & Hy). subst. rewrite !Z.eqb_refl in H. discriminate.
  - destruct (lb_employee_id row =? e) eqn:E1; [|reflexivity].
    destruct (lb_leave_type_id row =? lt) eqn:E2; [|reflexivity].
    destruct (lb_year row =? y) eqn:E3; [|reflexivity].
    exfalso. apply H. lia.
Qed.

(** The read never changes the file, whatever the storage does. *)
Lemma get_leave_balance_readonly e lt y w :
  db (snd (get_leave_balance e lt y w)) = db w.
Proof.
  unfold get_leave_balance, with_connection, select, bind, call, ret, sret.
  destruct w as [d fs]. simpl.
  destruct fs as [|[err|] fs]; simpl; [| reflexivity |].
  - destruct (select_balance e lt y d); simpl; [reflexivity|].
    destruct (select_leave_type lt d) as [t|]; [destruct (default_balance t)|]; reflexivity.
  - destruct fs as [|[err|] fs]; simpl; try reflexivity.
    + destruct (select_balance e lt y d); simpl; [reflexivity|].
      destruct (select_leave_type lt d) as [t|]; [destruct (default_balance t)|]; reflexivity.
    + destruct (select_balance e lt y d); simpl; [reflexivity|].
      destruct fs as [|[err|] fs]; simpl; try reflexivity.
      all: destruct (select_leave_type lt d) as [t|]; [destruct (default_balance t)|]; reflexivity.
Qed.


(** *** Writing a balance *)

Lemma update_balance_stores e lt y d row v :
  select_balance e lt y d = Some row -> is_nan v = false ->
  exists d', update_balance v (lb_id row) d = inr (d', tt)
             /\ stored_balance e lt y d' = Some v
             /\ List.length (LeaveBalances d') = List.length (LeaveBalances d).
Proof.
  intros Hrow Hv. unfold update_balance, bind_real. rewrite Hv.
  eexists. split; [reflexivity|]. split.
  - unfold stored_balance, select_balance in *. cbn [LeaveBalances with_LeaveBalances].
    rewrite find_map_stable.
    + rewrite Hrow. cbn [option_map]. rewrite Z.eqb_refl. reflexivity.
    + intro x. destruct (lb_id x =? lb_id row); reflexivity.
  - cbn [LeaveBalances with_LeaveBalances]. apply length_map.
Qed.

Lemma insert_balance_stores e lt y d v :
  select_balance e lt y d = None -> is_nan v = false ->
  exists d' id, insert_balance e lt y v d = inr (d', tt)
                /\ stored_balance e lt y d' = Some v
                /\ LeaveBalances d' = LeaveBalances d ++ [mkLeaveBalance id e lt y v].
Proof.
  intros Hrow Hv. unfold insert_balance, bind_real. rewrite Hv.
  unfold select_balance in Hrow. rewrite (find_none_existsb _ _ Hrow).
  eexists. eexists. split; [reflexivity|]. split; [|reflexivity].
  unfold stored_balance, select_balance. cbn [LeaveBalances with_LeaveBalances].
  rewrite (find_app_none _ _ _ Hrow).
  unfold balance_key. cbn [lb_employee_id lb_leave_type_id lb_year].
  rewrite !Z.eqb_refl. reflexivity.
Qed.

Lemma update_leave_balance_existing (d : database) (e lt y : Z) (amount : float)
    (is_initial_balance : bool) (row : LeaveBalanceRow) :
  select_balance e lt y d = Some row ->
  is_nan (if is_initial_balance then amount else balance row + amount) = false ->
  exists d',
    update_leave_balance e lt y amount is_initial_balance (mkworld d [])
    = (Return (if is_initial_balance then amount else balance row + amount)%float,
       mkworld d' [])
    /\ stored_balance e lt y d'
       = Some (if is_initial_balance then amount else balance row + amount)%float
    /\ List.length (LeaveBalances d') = List.length (LeaveBalances d).
Proof.
  intros Hrow Hv. unfold update_leave_balance. run_service. rewrite Hrow.
  destruct (update_balance_stores e lt y d row _ Hrow Hv) as (d' & Hu & Hs & Hl).
  exists d'. run_service. rewrite Hu. run_service. auto.
Qed.

Lemma update_leave_balance_missing (d : database) (e lt y : Z) (amount : float)
    (is_initial_balance : bool) :
  select_balance e lt y d = None ->
  is_nan (if is_initial_balance then amount else default_or_zero lt d + amount) = false ->
  exists d' id,
    update_leave_balance e lt y amount is_initial_balance (mkworld d [])
    = (Return (if is_initial_balance then amount else default_or_zero lt d + amount)%float,
       mkworld d' [])
    /\ stored_balance e lt y d'
       = Some (if is_initial_balance then amount else default_or_zero lt d + amount)%float
    /\ LeaveBalances d'
       = LeaveBalances d
         ++ [mkLeaveBalance id e lt y
               (if is_initial_balance then amount else default_or_zero lt d + amount)%float].
Proof.
  intros Hrow Hv. unfold update_leave_balance. run_service. rewrite Hrow.
  destruct (insert_balance_stores e lt y d _ Hrow Hv) as (d' & id & Hi & Hs & Hl).
  exists d', id. destruct is_initial_balance.
  - run_service. rewrite Hi. run_service. auto.
  - run_service. fold (default_or_zero lt d). rewrite Hi. run_service. auto.
Qed.


(** *** Deltas in sequence *)

Lemma apply_delta_stored d e lt y x :
  is_nan (starting_balance e lt y d + x) = false ->
  stored_balance e lt y (apply_delta e lt y x d) = Some (starting_balance e lt y d + x)%float.
Proof.
  unfold starting_balance, apply_delta. intro Hv.
  destruct (select_balance e lt y d) as [row|] eqn:E.
  - destruct (update_leave_balance_existing d e lt y x false row E Hv) as (d' & -> & Hs & _).
    exact Hs.
  - destruct (update_leave_balance_missing d e lt y x false E Hv) as (d' & id & -> & Hs & _).
    exact Hs.
Qed.

Lemma starting_balance_stored d e lt y v :
  stored_balance e lt y d = Some v -> starting_balance e lt y d = v.
Proof.
  unfold stored_balance, starting_balance.
  destruct (select_balance e lt y d); simpl; congruence.
Qed.

(** C9, as the code has it.  Balances are IEEE doubles, whose addition is not
    associative; two deltas in a row leave the balance their sum leaves
    whenever the sums involved are numbers and associate, as they do for a
    default of 20 days and deltas of -5 and -3. *)
Theorem deltas_compose_when_sums_associate (d : database) (e lt y : Z) (x z : float) :
  is_nan (starting_balance e lt y d + x) = false ->
  is_nan (starting_balance e lt y d + x + z) = false ->
  (starting_balance e lt y d + x + z = starting_balance e lt y d + (x + z))%float ->
  deltas_compose d e lt y x z
  /\ stored_balance e lt y (apply_delta e lt y z (apply_delta e lt y x d))
     = Some (starting_balance e lt y d + x + z)%float.
Proof.
  intros H1 H2 Hassoc. unfold deltas_compose.
  pose proof (apply_delta_stored d e lt y x H1) as Hx.
  pose proof (starting_balance_stored _ _ _ _ _ Hx) as Hb.
  assert (Hxz : stored_balance e lt y (apply_delta e lt y z (apply_delta e lt y x d))
                = Some (starting_balance e lt y d + x + z)%float).
  { rewrite <- Hb. apply apply_delta_stored. rewrite Hb. exact H2. }
  split; [|exact Hxz].
  rewrite Hxz, Hassoc. symmetry. apply apply_delta_stored. rewrite <- Hassoc. exact H2.
Qed.

Lemma float_neq (a b : float) : PrimFloat.eqb a b = false -> is_nan a = false -> a <> b.
Proof.
  intros Hab Hn ->. unfold is_nan in Hn. rewrite Hab in Hn. discriminate.
Qed.

(** C9, as stated, fails on the code: from a stored balance of 0.1, the deltas
    0.2 and then 0.3 leave 0.6000000000000001, their sum in one delta leaves
    0.6. *)
Lemma deltas_do_not_always_compose :
  ~ (forall d e lt y x z, deltas_compose d e lt y x z).
Proof.
  intro H. specialize (H ledger_tenth 1 1 2024 two_tenths three_tenths).
  unfold deltas_compose in H.
  apply (f_equal (fun o => match o with Some v => v | None => 0%float end)) in H.
  revert H. apply float_neq; vm_compute; reflexivity.
Qed.

Lemma deltas_compose_when_sums_associate_witness :
  deltas_compose ledger_default 1 1 2024 (-5)%float (-3)%float
  /\ stored_balance 1 1 2024
       (apply_delta 1 1 2024 (-3)%float (apply_delta 1 1 2024 (-5)%float ledger_default))
     = Some 12%float.
Proof.
  exact (deltas_compose_when_sums_associate ledger_default 1 1 2024 (-5)%float (-3)%float
           eq_refl eq_refl eq_refl).
Defined.

(** ** The leave request workflow *)

Lemma select_request_none id d : select_request id d = None <-> ~ request_exists id d.
Proof.
  unfold select_request, request_exists. rewrite find_none_iff. split.
  - intros H (r & Hin & Hid). specialize (H r Hin). lia.
  - intros H r Hin. destruct (lr_id r =? id) eqn:E; [|reflexivity].
    exfalso. apply H. exists r. split; [exact Hin|lia].
Qed.

Lemma update_status_missing id s a d :
  select_request id d = None ->
  _update_leave_request_status id s a (mkworld d []) = (Return false, mkworld d []).
Proof.
  intro H. unfold _update_leave_request_status. run_service. rewrite H. reflexivity.
Qed.

Lemma update_status_found id s a d row :
  select_request id d = Some row ->
  exists d',
    _update_leave_request_status id s a (mkworld d []) = (Return true, mkworld d' [])
    /\ select_request id d' = Some (decided s a row)
    /\ (forall r, In r (LeaveRequests d') -> lr_id r = id ->
          status r = s /\ approver_id r = Some a)
    /\ (forall r, In r (LeaveRequests d) -> lr_id r <> id -> In r (LeaveRequests d')).
Proof.
  intro H. unfold _update_leave_request_status. run_service. rewrite H.
  unfold update_request. run_service.
  pose proof (find_some_filter _ _ _ H) as Hpos.
  destruct (0 <? Z.of_nat (List.length (filter (fun r => lr_id r =? id) (LeaveRequests d)))) eqn:E;
    [|lia].
  eexists. split; [reflexivity|]. cbn [LeaveRequests with_LeaveRequests]. split; [|split].
  - unfold select_request in *. cbn [LeaveRequests with_LeaveRequests].
    rewrite find_map_stable.
    + rewrite H. cbn [option_map]. apply find_some in H. destruct H as [_ ->]. reflexivity.
    + intro x. destruct (lr_id x =? id) eqn:Ex; [cbn [lr_id]; exact Ex | exact Ex].
  - intros r Hin Hid. apply in_map_iff in Hin. destruct Hin as (r0 & Hr & _).
    destruct (lr_id r0 =? id) eqn:E0.
    + subst r. cbn. auto.
    + subst r. lia.
  - intros r Hin Hid. apply in_map_iff. exists r. split; [|exact Hin].
    destruct (lr_id r =? id) eqn:E0; [lia|reflexivity].
Qed.

(** C8. On working storage [approve_leave_request] and
    [reject_leave_request] return [False] exactly when no request has the
    id, and then change nothing; otherwise they return [True] and overwrite
    [status] and [approver_id], whatever the status was.  Hence approving and
    then rejecting one request leaves it [Rejected], with the second caller
    as approver. *)
Theorem approve_reject_unconditional (d : database) (id a1 a2 : Z) :
  (fst (approve_leave_request id a1 (mkworld d [])) = Return false <-> ~ request_exists id d)
  /\ (fst (reject_leave_request id a2 (mkworld d [])) = Return false <-> ~ request_exists id d)
  /\ (~ request_exists id d ->
      approve_leave_request id a1 (mkworld d []) = (Return false, mkworld d [])
      /\ reject_leave_request id a2 (mkworld d []) = (Return false, mkworld d []))
  /\ (forall row, select_request id d = Some row ->
      exists d1 d2,
        approve_leave_request id a1 (mkworld d []) = (Return true, mkworld d1 [])
        /\ select_request id d1 = Some (decided "Approved" a1 row)
        /\ reject_leave_request id a2 (mkworld d1 []) = (Return true, mkworld d2 [])
        /\ select_request id d2 = Some (decided "Rejected" a2 row)
        /\ (forall r, In r (LeaveRequests d2) -> lr_id r = id ->
              status r = "Rejected" /\ approver_id r = Some a2)).
Proof.
  unfold approve_leave_request, reject_leave_request.
  assert (Hiff : forall s a,
            fst (_update_leave_request_status id s a (mkworld d [])) = Return false
            <-> ~ request_exists id d).
  { intros s a. rewrite <- select_request_none.
    destruct (select_request id d) as [row|] eqn:E.
    - destruct (update_status_found id s a d row E) as (d' & -> & _).
      cbn. split; discriminate.
    - rewrite (update_status_missing id s a d E). cbn. tauto. }
  split; [apply Hiff|]. split; [apply Hiff|]. split.
  - intro Hno. apply select_request_none in Hno.
    split; apply update_status_missing; exact Hno.
  - intros row Hrow.
    destruct (update_status_found id "Approved" a1 d row Hrow) as (d1 & H1 & Hs1 & _).
    destruct (update_status_found id "Rejected" a2 d1 _ Hs1) as (d2 & H2 & Hs2 & Hall & _).
    exists d1, d2. repeat (split; [assumption|]). exact Hall.
Qed.

(** ** The reports *)








Lemma not_in_iff (x : Z) (l : list Z) : not_in x l = true <-> ~ In x l.
Proof.
  unfold not_in. rewrite negb_true_iff. split.
  - intros H Hin. assert (existsb (Z.eqb x) l = true); [|congruence].
    apply existsb_exists. exists x. split; [exact Hin|apply Z.eqb_refl].
  - intro H. destruct (existsb (Z.eqb x) l) eqn:E; [|reflexivity].
    apply existsb_exists in E. destruct E as (y & Hy & Exy).
    apply Z.eqb_eq in Exy. subst y. contradiction.
Qed.

Lemma present_ids_iff (e : EmployeeRow) (D : string) (d : database) :
  In (e_id e) (present_ids D d) <-> attended e D d.
Proof.
  unfold present_ids, attended. rewrite nodup_In, in_map_iff. split.
  - intros (al & Hid & Hin). apply filter_In in Hin. destruct Hin as [Hin HD].
    apply String.eqb_eq in HD. exists al. auto.
  - intros (al & Hin & Hid & HD). exists al. split; [exact Hid|].
    apply filter_In. split; [exact Hin|]. apply String.eqb_eq. exact HD.
Qed.

Lemma approved_leave_iff (lr : LeaveRequestRow) (D : string) :
  approved_leave D lr = true <-> status lr = "Approved" /\ covers lr D.
Proof.
  unfold approved_leave, covers. rewrite !andb_true_iff, String.eqb_eq. tauto.
Qed.

Lemma on_leave_ids_iff (e : EmployeeRow) (D : string) (d : database) :
  In (e_id e) (on_leave_ids D d) <-> on_approved_leave e D d.
Proof.
  unfold on_leave_ids, on_approved_leave. rewrite nodup_In, in_map_iff. split.
  - intros (lr & Hid & Hin). apply filter_In in Hin. destruct Hin as [Hin Ha].
    apply approved_leave_iff in Ha. exists lr. tauto.
  - intros (lr & Hin & Hid & Ha). exists lr. split; [exact Hid|].
    apply filter_In. split; [exact Hin|]. apply approved_leave_iff. exact Ha.
Qed.

Lemma absentee_rows_iff (D : string) (d : database) (e : EmployeeRow) :
  In e (absentee_rows D d)
  <-> In e (Employees d) /\ ~ attended e D d /\ ~ on_approved_leave e D d.
Proof.
  unfold absentee_rows. rewrite order_by_In, filter_In, andb_true_iff, !not_in_iff.
  rewrite present_ids_iff, on_leave_ids_iff. tauto.
Qed.

(** [get_absentee_report] on working storage lists an employee of the
    directory exactly when the employee has no attendance record dated that
    day and no approved leave request whose stored dates, compared as text
    with the day's [YYYY-MM-DD], lie on either side of it.  So an employee
    without any attendance but with approved leave stored as
    [2024-06-03 .. 2024-06-07] is not listed on June 5, while one whose
    request is still pending is. *)
Theorem absentee_report_iff (d : database) (report_date_obj : date) :
  exists rows,
    get_absentee_report report_date_obj (mkworld d [])
    = (Return (map absentee_row rows), mkworld d [])
    /\ (forall e, In e (Employees d) ->
          (In e rows <-> ~ attended e (date_strftime report_date_obj) d
                         /\ ~ on_approved_leave e (date_strftime report_date_obj) d))
    /\ (forall e, In e rows -> In e (Employees d))
    /\ (forall e, In e (Employees d) ->
          ~ attended e (date_strftime report_date_obj) d ->
          on_approved_leave e (date_strftime report_date_obj) d ->
          ~ In e rows)
    /\ get_absentee_report (mkdate 2024 6 5) (mkworld two_on_leave [])
       = (Return [mkAbsentee "EMP002" "Basil" "Aziz"], mkworld two_on_leave []).
Proof.
  exists (absentee_rows (date_strftime report_date_obj) d).
  split; [reflexivity|]. split; [|split; [|split]].
  - intros e He. rewrite absentee_rows_iff. tauto.
  - intros e He. apply absentee_rows_iff in He. tauto.
  - intros e He Hno Hleave Hin. apply absentee_rows_iff in Hin. tauto.
  - reflexivity.
Qed.


(** ** Timestamps as text *)

Lemma digit_val_digit (k : Z) : 0 <= k <= 9 -> digit_val (digit k) = Some k.
Proof.
  intro H.
  assert (E : k = 0 \/ k = 1 \/ k = 2 \/ k = 3 \/ k = 4 \/ k = 5 \/ k = 6 \/ k = 7
              \/ k = 8 \/ k = 9) by lia.
  repeat (destruct E as [-> | E]; [reflexivity|]). subst k. reflexivity.
Qed.

Lemma num2_digits (n : Z) :
  0 <= n <= 99 -> num2 (digit (n / 10 mod 10)) (digit (n mod 10)) = Some n.
Proof.
  intro H. unfold num2.
  rewrite !digit_val_digit by (Z.div_mod_to_equations; lia).
  f_equal. Z.div_mod_to_equations. lia.
Qed.

Lemma num4_digits (n : Z) :
  0 <= n <= 9999 ->
  num4 (digit (n / 1000 mod 10)) (digit (n / 100 mod 10))
       (digit (n / 10 mod 10)) (digit (n mod 10)) = Some n.
Proof.
  intro H. unfold num4, num2.
  rewrite !digit_val_digit by (Z.div_mod_to_equations; lia).
  f_equal. Z.div_mod_to_equations. lia.
Qed.

Lemma valid_datetimeb_iff (t : datetime) : valid_datetimeb t = true <-> valid_datetime t.
Proof.
  unfold valid_datetimeb, valid_datetime. rewrite !andb_true_iff, !Z.leb_le. tauto.
Qed.

Lemma whole_second_valid (t : datetime) : valid_datetime t -> valid_datetime (whole_second t).
Proof. unfold valid_datetime, whole_second. cbn. lia. Qed.

(** The first match of two pieces in a row. *)
Lemma first_and_then {A B} (m : matcher A) (k : A -> matcher B) (s : list ascii)
    (a : A) (r : list ascii) (res : B * list ascii) :
  hd_error (m s) = Some (a, r) -> hd_error (k a r) = Some res ->
  hd_error (and_then m k s) = Some res.
Proof.
  unfold and_then. destruct (m s) as [|[a0 r0] tl]; simpl; [discriminate|].
  intro E. injection E as -> ->. destruct (k a r); simpl; [discriminate|auto].
Qed.

Lemma whole_match_first {A} (m : matcher A) (s : string) (a : A) :
  hd_error (m (list_ascii_of_string s)) = Some (a, []) -> whole_match m s = Some a.
Proof.
  unfold whole_match. destruct (m (list_ascii_of_string s)) as [|[a0 r0] tl]; simpl;
    [discriminate|].
  intro E. injection E as -> ->. reflexivity.
Qed.

Lemma small_cases (P : Z -> Prop) (b : nat) :
  (forall k, (k < b)%nat -> P (Z.of_nat k)) -> forall n, 0 <= n < Z.of_nat b -> P n.
Proof. intros H n Hn. rewrite <- (Z2Nat.id n) by lia. apply H. lia. Qed.

(** Each directive reads back the two digits [strftime] writes for a number
    in its range, whatever follows. *)
Tactic Notation "two_digit_cases" integer(count) constr(b) :=
  refine (small_cases _ b _);
  let k := fresh "k" in
  intro k;
  do count (destruct k as [|k]; [intros; first [exfalso; lia | vm_compute; reflexivity]|]);
  intros; exfalso; lia.

Lemma directive_Y_padded (y : Z) (rest : list ascii) :
  0 <= y <= 9999 ->
  hd_error (directive_Y (digit (y / 1000 mod 10) :: digit (y / 100 mod 10)
                         :: digit (y / 10 mod 10) :: digit (y mod 10) :: rest))
  = Some (y, rest).
Proof. intro H. unfold directive_Y. rewrite num4_digits by exact H. reflexivity. Qed.

Lemma directive_m_padded (rest : list ascii) :
  forall n, 0 <= n < 13 -> 1 <= n ->
  hd_error (directive_m (digit (n / 10 mod 10) :: digit (n mod 10) :: rest)) = Some (n, rest).
Proof. two_digit_cases 13 13%nat. Qed.

Lemma directive_d_padded (rest : list ascii) :
  forall n, 0 <= n < 32 -> 1 <= n ->
  hd_error (directive_d (digit (n / 10 mod 10) :: digit (n mod 10) :: rest)) = Some (n, rest).
Proof. two_digit_cases 32 32%nat. Qed.

Lemma directive_H_padded (rest : list ascii) :
  forall n, 0 <= n < 24 -> 0 <= n ->
  hd_error (directive_H (digit (n / 10 mod 10) :: digit (n mod 10) :: rest)) = Some (n, rest).
Proof. two_digit_cases 24 24%nat. Qed.

Lemma directive_M_padded (rest : list ascii) :
  forall n, 0 <= n < 60 -> 0 <= n ->
  hd_error (directive_M (digit (n / 10 mod 10) :: digit (n mod 10) :: rest)) = Some (n, rest).
Proof. two_digit_cases 60 60%nat. Qed.

Lemma directive_S_padded (rest : list ascii) :
  forall n, 0 <= n < 60 -> 0 <= n ->
  hd_error (directive_S (digit (n / 10 mod 10) :: digit (n mod 10) :: rest)) = Some (n, rest).
Proof. two_digit_cases 60 60%nat. Qed.

(** One blank before a digit is all the blanks there are. *)
Lemma some_blanks_before_digit (rest : list ascii) :
  forall n, 0 <= n < 10 -> 0 <= n ->
  hd_error (some_blanks (" "%char :: digit n :: rest)) = Some (tt, digit n :: rest).
Proof. two_digit_cases 10 10%nat. Qed.

Lemma valid_datetime_day (t : datetime) : valid_datetime t -> 1 <= day t <= 31.
Proof.
  intros (_ & _ & Hd & _). unfold _days_in_month in Hd.
  destruct (month t =? 2); [destruct (_is_leap (year t))|];
    [| | destruct ((month t =? 4) || (month t =? 6) || (month t =? 9) || (month t =? 11))];
    lia.
Qed.

(** What [strftime] writes, [strptime] reads back, to the second. *)
Lemma strptime_strftime (t : datetime) :
  valid_datetime t -> strptime_datetime (strftime_datetime t) = Some (whole_second t).
Proof.
  intro Hv. pose proof (valid_datetime_day t Hv) as Hd'.
  pose proof Hv as (Hy & Hm & Hd & Hh & Hn & Hs & _).
  unfold strptime_datetime.
  rewrite (whole_match_first datetime_format (strftime_datetime t)
             (year t, month t, day t, hour t, minute t, second t)).
  - fold (whole_second t).
    rewrite (proj2 (valid_datetimeb_iff _) (whole_second_valid t Hv)). reflexivity.
  - unfold strftime_datetime, strftime_ymd, pad4, pad2, datetime_format.
    cbn [list_ascii_of_string].
    eapply first_and_then; [apply directive_Y_padded; lia|cbv beta].
    eapply first_and_then; [reflexivity|cbv beta].
    eapply first_and_then; [apply directive_m_padded; lia|cbv beta].
    eapply first_and_then; [reflexivity|cbv beta].
    eapply first_and_then; [apply directive_d_padded; lia|cbv beta].
    eapply first_and_then;
      [apply some_blanks_before_digit; Z.div_mod_to_equations; lia|cbv beta].
    eapply first_and_then; [apply directive_H_padded; lia|cbv beta].
    eapply first_and_then; [reflexivity|cbv beta].
    eapply first_and_then; [apply directive_M_padded; lia|cbv beta].
    eapply first_and_then; [reflexivity|cbv beta].
    eapply first_and_then; [apply directive_S_padded; lia|cbv beta].
    reflexivity.
Qed.

Lemma valid_date_day (D : date) : valid_date D -> 1 <= d_day D <= 31.
Proof.
  intros (_ & _ & Hd). unfold _days_in_month in Hd.
  destruct (d_month D =? 2); [destruct (_is_leap (d_year D))|];
    [| | destruct ((d_month D =? 4) || (d_month D =? 6) || (d_month D =? 9)
                   || (d_month D =? 11))];
    lia.
Qed.

(** What [strftime] writes of a date, [strptime] reads back. *)
Lemma strptime_date_strftime (D : date) :
  valid_date D -> strptime_date (date_strftime D) = Some D.
Proof.
  intro Hv. pose proof (valid_date_day D Hv) as Hd'. pose proof Hv as (Hy & Hm & Hd).
  unfold strptime_date.
  rewrite (whole_match_first date_format (date_strftime D) (d_year D, d_month D, d_day D)).
  - assert (Hb : valid_datetimeb (mkdatetime (d_year D) (d_month D) (d_day D) 0 0 0 0) = true).
    { apply valid_datetimeb_iff. unfold valid_datetime. cbn. lia. }
    rewrite Hb. destruct D; reflexivity.
  - unfold date_strftime, strftime_ymd, pad4, pad2, date_format.
    cbn [list_ascii_of_string].
    eapply first_and_then; [apply directive_Y_padded; lia|cbv beta].
    eapply first_and_then; [reflexivity|cbv beta].
    eapply first_and_then; [apply directive_m_padded; lia|cbv beta].
    eapply first_and_then; [reflexivity|cbv beta].
    eapply first_and_then; [apply directive_d_padded; lia|cbv beta].
    reflexivity.
Qed.

(** [strptime] reads more than [strftime] writes: months, days, hours,
    minutes and seconds of one digit, a day after a blank, any run of blanks
    between date and time.  It refuses text that goes on after the match and
    numbers that are no date or time. *)
Example strptime_spellings :
  strptime_date "2024-6-3" = Some (mkdate 2024 6 3)
  /\ strptime_date "2024-06- 3" = Some (mkdate 2024 6 3)
  /\ strptime_date "2024-06-03 " = None
  /\ strptime_date "2024-06-31" = None
  /\ strptime_date "24-06-03" = None
  /\ strptime_datetime "2024-6-3  9:5:7" = Some (mkdatetime 2024 6 3 9 5 7 0)
  /\ strptime_datetime "2024-06-03T09:00:00" = None
  /\ strptime_datetime "2024-06-03 09:00:60" = None.
Proof. vm_compute. repeat split. Qed.

(** ** The calendar *)

Lemma month_cases (m : Z) :
  1 <= m <= 12 ->
  m = 1 \/ m = 2 \/ m = 3 \/ m = 4 \/ m = 5 \/ m = 6 \/ m = 7 \/ m = 8 \/ m = 9
  \/ m = 10 \/ m = 11 \/ m = 12.
Proof. lia. Qed.

Ltac each_month H :=
  apply month_cases in H;
  repeat (destruct H as [H | H]); subst.

Lemma days_in_month_bounds (y m : Z) : 28 <= _days_in_month y m <= 31.
Proof.
  unfold _days_in_month.
  destruct (m =? 2); [destruct (_is_leap y)|];
    [| | destruct ((m =? 4) || (m =? 6) || (m =? 9) || (m =? 11))]; lia.
Qed.

(** Within a year the day number grows with (month, day). *)
Lemma days_before_month_next (y m m' : Z) :
  1 <= m <= 12 -> 1 <= m' <= 12 -> m < m' ->
  _days_before_month y m + _days_in_month y m <= _days_before_month y m'.
Proof.
  intros Hm Hm' Hlt. unfold _days_before_month, _days_in_month.
  each_month Hm; each_month Hm'; try lia; destruct (_is_leap y); vm_compute; discriminate.
Qed.

Lemma days_before_month_year (y m : Z) :
  1 <= m <= 12 ->
  0 <= _days_before_month y m
  /\ _days_before_month y m + _days_in_month y m <= 365 + (if _is_leap y then 1 else 0).
Proof.
  intros Hm. unfold _days_before_month, _days_in_month.
  each_month Hm; destruct (_is_leap y); split; vm_compute; discriminate.
Qed.

Lemma days_before_year_next (y : Z) :
  _days_before_year (y + 1) = _days_before_year y + 365 + (if _is_leap y then 1 else 0).
Proof.
  unfold _days_before_year, _is_leap. cbv zeta.
  replace (y + 1 - 1) with y by lia.
  destruct (y mod 4 =? 0) eqn:E4, (y mod 100 =? 0) eqn:E100, (y mod 400 =? 0) eqn:E400;
    cbn [andb orb negb];
    rewrite ?Z.eqb_eq, ?Z.eqb_neq in *; Z.div_mod_to_equations; lia.
Qed.

Lemma days_before_year_mono (y y' : Z) :
  y <= y' -> _days_before_year y <= _days_before_year y'.
Proof.
  intro H. unfold _days_before_year. cbv zeta. Z.div_mod_to_equations. lia.
Qed.

Lemma ymd2ord_lt (y m d y' m' d' : Z) :
  1 <= m <= 12 -> 1 <= d <= _days_in_month y m ->
  1 <= m' <= 12 -> 1 <= d' <= _days_in_month y' m' ->
  y < y' \/ (y = y' /\ (m < m' \/ (m = m' /\ d < d'))) ->
  _ymd2ord y m d < _ymd2ord y' m' d'.
Proof.
  intros Hm Hd Hm' Hd' Hlt. unfold _ymd2ord.
  destruct Hlt as [Hy | (-> & [Hlt | (-> & Hlt)])].
  - pose proof (days_before_month_year y m Hm) as [_ H1].
    pose proof (days_before_month_year y' m' Hm') as [H2 _].
    pose proof (days_before_year_next y) as H3.
    pose proof (days_before_year_mono (y + 1) y' ltac:(lia)) as H4. lia.
  - pose proof (days_before_month_next y' m m' Hm Hm' Hlt). lia.
  - lia.
Qed.

(** On valid values the field-wise order of [datetime] is the order of the
    instants, to the second. *)
Lemma cmp_epoch_seconds (a b : datetime) :
  valid_datetime a -> valid_datetime b ->
  _cmp (whole_second a) (whole_second b) = (epoch_seconds a ?= epoch_seconds b).
Proof.
  intros (Hy & Hm & Hd & Hh & Hn & Hs & _) (Hy' & Hm' & Hd' & Hh' & Hn' & Hs' & _).
  unfold _cmp, whole_second, epoch_seconds, toordinal, lex.
  cbn [year month day hour minute second microsecond].
  pose proof (ymd2ord_lt (year a) (month a) (day a) (year b) (month b) (day b) Hm Hd Hm' Hd') as Hab.
  pose proof (ymd2ord_lt (year b) (month b) (day b) (year a) (month a) (day a) Hm' Hd' Hm Hd) as Hba.
  symmetry.
  destruct (Z.compare_spec (year a) (year b)) as [Ey | Ey | Ey];
    [| apply Z.compare_lt_iff; lia | apply Z.compare_gt_iff; lia].
  destruct (Z.compare_spec (month a) (month b)) as [Em | Em | Em];
    [| apply Z.compare_lt_iff; lia | apply Z.compare_gt_iff; lia].
  destruct (Z.compare_spec (day a) (day b)) as [Ed | Ed | Ed];
    [| apply Z.compare_lt_iff; lia | apply Z.compare_gt_iff; lia].
  rewrite Ey, Em, Ed.
  destruct (Z.compare_spec (hour a) (hour b)) as [Eh | Eh | Eh];
    [| apply Z.compare_lt_iff; lia | apply Z.compare_gt_iff; lia].
  destruct (Z.compare_spec (minute a) (minute b)) as [En | En | En];
    [| apply Z.compare_lt_iff; lia | apply Z.compare_gt_iff; lia].
  destruct (Z.compare_spec (second a) (second b)) as [Es | Es | Es];
    [| apply Z.compare_lt_iff; lia | apply Z.compare_gt_iff; lia].
  rewrite Eh, En, Es. rewrite !Z.compare_refl. reflexivity.
Qed.

Lemma total_seconds_whole (a b : datetime) :
  total_seconds_int (whole_second a) (whole_second b) = epoch_seconds a - epoch_seconds b.
Proof.
  unfold total_seconds_int, sub_microseconds, whole_second, epoch_seconds, toordinal.
  cbn [year month day hour minute second microsecond]. cbv zeta.
  rewrite Z.sub_diag, Z.add_0_r, Z.quot_mul by lia. lia.
Qed.

(** ** Durations *)

Lemma format_02_pad2 (n : Z) : 0 <= n <= 99 -> format_02 n = pad2 n "".
Proof.
  intro H.
  assert (Hall : forallb (fun k => String.eqb (format_02 (Z.of_nat k)) (pad2 (Z.of_nat k) ""))
                         (seq 0 100) = true) by (vm_compute; reflexivity).
  rewrite forallb_forall in Hall. specialize (Hall (Z.to_nat n)).
  rewrite Z2Nat.id in Hall by lia. apply String.eqb_eq, Hall, in_seq. lia.
Qed.

Lemma strftime_truthy (t : datetime) : truthy (Some (strftime_datetime t)) = true.
Proof. reflexivity. Qed.

Lemma dt_lt_epoch (a b : datetime) :
  valid_datetime a -> valid_datetime b ->
  dt_lt (whole_second a) (whole_second b) = (epoch_seconds a <? epoch_seconds b).
Proof.
  intros Ha Hb. unfold dt_lt, Z.ltb. rewrite (cmp_epoch_seconds a b Ha Hb). reflexivity.
Qed.

Lemma calculate_duration_closed (cin cout : datetime) :
  valid_datetime cin -> valid_datetime cout ->
  _calculate_duration (Some (strftime_datetime cin)) (Some (strftime_datetime cout))
  = if epoch_seconds cout <? epoch_seconds cin then "Invalid (Out < In)"
    else hh_mm_ss (epoch_seconds cout - epoch_seconds cin).
Proof.
  intros Hin Hout. unfold _calculate_duration.
  rewrite !strftime_truthy. cbn [negb].
  rewrite (strptime_strftime cin Hin), (strptime_strftime cout Hout).
  rewrite (dt_lt_epoch cout cin Hout Hin), total_seconds_whole.
  destruct (epoch_seconds cout <? epoch_seconds cin) eqn:E; [reflexivity|].
  apply Z.ltb_ge in E. unfold hh_mm_ss.
  set (s := epoch_seconds cout - epoch_seconds cin) in *.
  rewrite (format_02_pad2 (s mod 3600 / 60)) by (Z.div_mod_to_equations; lia).
  rewrite (format_02_pad2 (s mod 60)) by (Z.div_mod_to_equations; lia).
  f_equal.
Qed.

(** C6, as the code has it.  For a stored clock-in, [_calculate_duration]
    returns ["Open"] while there is no clock-out; ["Invalid (Out < In)"] when
    the clock-out is earlier than the clock-in; and otherwise the time between
    the two as [HH:MM:SS], minutes and seconds on two digits and the hours in
    full, not wrapped at 24.  Every row of the daily attendance report
    carries the duration computed this way from its own two times. *)
Theorem calculate_duration_cases (cin cout : datetime) :
  valid_datetime cin -> valid_datetime cout ->
  _calculate_duration (Some (strftime_datetime cin)) None = "Open"
  /\ (dt_lt (whole_second cout) (whole_second cin) = true ->
      _calculate_duration (Some (strftime_datetime cin)) (Some (strftime_datetime cout))
      = "Invalid (Out < In)")
  /\ (dt_lt (whole_second cout) (whole_second cin) = false ->
      0 <= epoch_seconds cout - epoch_seconds cin
      /\ _calculate_duration (Some (strftime_datetime cin)) (Some (strftime_datetime cout))
         = hh_mm_ss (epoch_seconds cout - epoch_seconds cin))
  /\ (forall report_date_obj d,
        exists rows,
          get_daily_attendance_report report_date_obj (mkworld d [])
          = (Return rows, mkworld d [])
          /\ forall r, In r rows ->
               dr_duration r
               = _calculate_duration (Some (dr_clock_in_time r)) (dr_clock_out_time r)).
Proof.
  intros Hin Hout. split; [reflexivity|].
  rewrite (dt_lt_epoch cout cin Hout Hin), (calculate_duration_closed cin cout Hin Hout).
  split; [|split].
  - intro E. rewrite E. reflexivity.
  - intro E. rewrite E. apply Z.ltb_ge in E. split; [lia|reflexivity].
  - intros report_date_obj d. eexists. split; [reflexivity|].
    intros r Hr. apply in_map_iff in Hr. destruct Hr as (row & <- & _). reflexivity.
Qed.

(** C6, as stated, fails on the code: for a clock-out at 09:00 against a
    clock-in at 17:30 the function returns ["Invalid (Out < In)"], not
    ["Invalid"]. *)
Lemma invalid_sentinel_is_longer : ~ invalid_sentinel_as_specified.
Proof.
  intro H.
  specialize (H half_past_five nine_o_clock
                (proj1 (valid_datetimeb_iff half_past_five) eq_refl)
                (proj1 (valid_datetimeb_iff nine_o_clock) eq_refl) eq_refl).
  vm_compute in H. discriminate H.
Qed.

Lemma calculate_duration_cases_witness :
  _calculate_duration (Some "2024-06-01 09:00:00") (Some "2024-06-01 17:30:00") = "08:30:00".
Proof.
  exact (proj2 (proj1 (proj2 (proj2 (calculate_duration_cases nine_o_clock half_past_five
                                       (proj1 (valid_datetimeb_iff nine_o_clock) eq_refl)
                                       (proj1 (valid_datetimeb_iff half_past_five) eq_refl))))
                      eq_refl)).
Defined.

(** The report of the day for one employee who clocked in at eight, out at
    nine and in again at half past five. *)
Example daily_report_of_a_working_day :
  fst (get_daily_attendance_report (mkdate 2024 6 1) a_working_day)
  = Return
      [mkDailyRow "Amal Haddad" "EMP001" "2024-06-01 08:00:00" (Some "2024-06-01 09:00:00")
         (Some ("Morning" ++ String newline "Clock-out: Lunch")%string) "manual" "01:00:00";
       mkDailyRow "Amal Haddad" "EMP001" "2024-06-01 17:30:00" None None "manual" "Open"].
Proof. reflexivity. Qed.

(** A session over midnight of the next day but one: the hours run past 24. *)
Example duration_not_wrapped :
  _calculate_duration (Some "2024-06-01 09:00:00") (Some "2024-06-03 10:05:07") = "49:05:07"
  /\ _calculate_duration (Some "2024-02-28 00:00:00") (Some "2024-03-03 04:00:00") = "100:00:00".
Proof. split; reflexivity. Qed.

(** Outside the cases of the specification: no clock-in text, and text that
    is not a timestamp. *)
Example duration_other_sentinels :
  _calculate_duration None None = "N/A"
  /\ _calculate_duration (Some "") (Some "2024-06-01 17:30:00") = "N/A"
  /\ _calculate_duration (Some "2024-06-01 09:00:00") (Some "2024-06-31 17:30:00")
     = "Error calculating".
Proof. repeat split; reflexivity. Qed.

(** Timestamps that were not written by [strftime] but that [strptime]
    reads all the same. *)
Example duration_of_unpadded_text :
  _calculate_duration (Some "2024-6-1 9:00:00") (Some "2024-06-01 17:30:00") = "08:30:00".
Proof. vm_compute. reflexivity. Qed.

(** ** Dates as text: the order of the store is the order of the calendar *)

Lemma digit_compare (j k : Z) :
  0 <= j <= 9 -> 0 <= k <= 9 -> Ascii.compare (digit j) (digit k) = (j ?= k).
Proof.
  intros Hj Hk.
  assert (Ej : j = 0 \/ j = 1 \/ j = 2 \/ j = 3 \/ j = 4 \/ j = 5 \/ j = 6 \/ j = 7
               \/ j = 8 \/ j = 9) by lia.
  assert (Ek : k = 0 \/ k = 1 \/ k = 2 \/ k = 3 \/ k = 4 \/ k = 5 \/ k = 6 \/ k = 7
               \/ k = 8 \/ k = 9) by lia.
  repeat (destruct Ej as [-> | Ej]); try subst j;
    repeat (destruct Ek as [-> | Ek]); try subst k; reflexivity.
Qed.

Lemma compare_pad2 (n n' : Z) (r r' : string) :
  0 <= n <= 99 -> 0 <= n' <= 99 ->
  String.compare (pad2 n r) (pad2 n' r') = lex (n ?= n') (String.compare r r').
Proof.
  intros Hn Hn'. unfold pad2. cbn [String.compare].
  rewrite !digit_compare by (Z.div_mod_to_equations; lia). unfold lex.
  destruct (Z.compare_spec (n / 10 mod 10) (n' / 10 mod 10)) as [E1 | E1 | E1].
  - destruct (Z.compare_spec (n mod 10) (n' mod 10)) as [E0 | E0 | E0].
    + replace n' with n by (Z.div_mod_to_equations; lia). rewrite Z.compare_refl. reflexivity.
    + replace (n ?= n') with Lt; [reflexivity|].
      symmetry. apply Z.compare_lt_iff. Z.div_mod_to_equations. lia.
    + replace (n ?= n') with Gt; [reflexivity|].
      symmetry. apply Z.compare_gt_iff. Z.div_mod_to_equations. lia.
  - replace (n ?= n') with Lt; [reflexivity|].
    symmetry. apply Z.compare_lt_iff. Z.div_mod_to_equations. lia.
  - replace (n ?= n') with Gt; [reflexivity|].
    symmetry. apply Z.compare_gt_iff. Z.div_mod_to_equations. lia.
Qed.

Lemma compare_pad4 (n n' : Z) (r r' : string) :
  0 <= n <= 9999 -> 0 <= n' <= 9999 ->
  String.compare (pad4 n r) (pad4 n' r') = lex (n ?= n') (String.compare r r').
Proof.
  intros Hn Hn'. unfold pad4, pad2. cbn [String.compare].
  rewrite !digit_compare by (Z.div_mod_to_equations; lia). unfold lex.
  destruct (Z.compare_spec (n / 1000 mod 10) (n' / 1000 mod 10)) as [E3 | E3 | E3];
    [| replace (n ?= n') with Lt;
       [reflexivity | symmetry; apply Z.compare_lt_iff; Z.div_mod_to_equations; lia]
     | replace (n ?= n') with Gt;
       [reflexivity | symmetry; apply Z.compare_gt_iff; Z.div_mod_to_equations; lia]].
  destruct (Z.compare_spec (n / 100 mod 10) (n' / 100 mod 10)) as [E2 | E2 | E2];
    [| replace (n ?= n') with Lt;
       [reflexivity | symmetry; apply Z.compare_lt_iff; Z.div_mod_to_equations; lia]
     | replace (n ?= n') with Gt;
       [reflexivity | symmetry; apply Z.compare_gt_iff; Z.div_mod_to_equations; lia]].
  destruct (Z.compare_spec (n / 10 mod 10) (n' / 10 mod 10)) as [E1 | E1 | E1];
    [| replace (n ?= n') with Lt;
       [reflexivity | symmetry; apply Z.compare_lt_iff; Z.div_mod_to_equations; lia]
     | replace (n ?= n') with Gt;
       [reflexivity | symmetry; apply Z.compare_gt_iff; Z.div_mod_to_equations; lia]].
  destruct (Z.compare_spec (n mod 10) (n' mod 10)) as [E0 | E0 | E0];
    [| replace (n ?= n') with Lt;
       [reflexivity | symmetry; apply Z.compare_lt_iff; Z.div_mod_to_equations; lia]
     | replace (n ?= n') with Gt;
       [reflexivity | symmetry; apply Z.compare_gt_iff; Z.div_mod_to_equations; lia]].
  replace n' with n by (Z.div_mod_to_equations; lia). rewrite Z.compare_refl. reflexivity.
Qed.

Lemma valid_date_ranges (a : date) :
  valid_date a -> 0 <= d_year a <= 9999 /\ 0 <= d_month a <= 99 /\ 0 <= d_day a <= 99.
Proof.
  intros (Hy & Hm & Hd). pose proof (days_in_month_bounds (d_year a) (d_month a)). lia.
Qed.

Lemma compare_date_strftime (a b : date) :
  valid_date a -> valid_date b ->
  String.compare (date_strftime a) (date_strftime b) = date_cmp a b.
Proof.
  intros Ha Hb.
  apply valid_date_ranges in Ha. apply valid_date_ranges in Hb.
  unfold date_strftime, strftime_ymd, date_cmp.
  rewrite compare_pad4 by lia. f_equal. cbn [String.compare]. cbn [Ascii.compare N.compare N_of_ascii N_of_digits Pos.compare Pos.compare_cont N.add N.mul Pos.add Pos.mul].
  rewrite compare_pad2 by lia. f_equal. cbn [String.compare]. cbn [Ascii.compare N.compare N_of_ascii N_of_digits Pos.compare Pos.compare_cont N.add N.mul Pos.add Pos.mul].
  rewrite compare_pad2 by lia. cbn [String.compare].
  destruct (d_day a ?= d_day b); reflexivity.
Qed.

(** The texts of two valid dates compare as the dates do. *)
Lemma leb_date_strftime (a b : date) :
  valid_date a -> valid_date b ->
  String.leb (date_strftime a) (date_strftime b) = date_le a b.
Proof.
  intros Ha Hb. unfold String.leb, date_le. rewrite (compare_date_strftime a b Ha Hb).
  destruct (date_cmp a b); reflexivity.
Qed.

(** For a request whose dates were written from valid dates, the window
    test of the leave report and the day test of the absentee report are
    the tests on the calendar. *)
Lemma overlaps_on_calendar (lr : LeaveRequestRow) (from to w_start w_end : date) :
  valid_date from -> valid_date to -> valid_date w_start -> valid_date w_end ->
  start_date lr = date_strftime from -> end_date lr = date_strftime to ->
  (overlaps lr (date_strftime w_start) (date_strftime w_end)
   <-> date_le from w_end = true /\ date_le w_start to = true).
Proof.
  intros Hf Ht Hs He E1 E2. unfold overlaps. rewrite E1, E2.
  rewrite !leb_date_strftime by assumption. tauto.
Qed.

Lemma covers_on_calendar (lr : LeaveRequestRow) (from to D : date) :
  valid_date from -> valid_date to -> valid_date D ->
  start_date lr = date_strftime from -> end_date lr = date_strftime to ->
  (covers lr (date_strftime D) <-> date_le from D = true /\ date_le D to = true).
Proof.
  intros Hf Ht HD E1 E2. unfold covers. rewrite E1, E2.
  rewrite !leb_date_strftime by assumption. tauto.
Qed.

(** For requests whose dates were stored zero padded, the comparison of the
    texts is the comparison of the dates: there the report lists exactly the
    employees without attendance and without approved leave over the day. *)
Lemma absentee_report_on_padded_dates (d : database) (D : date) (e : EmployeeRow) :
  valid_date D -> dates_zero_padded d ->
  (In e (absentee_rows (date_strftime D) d)
   <-> In e (Employees d) /\ ~ attended e (date_strftime D) d
       /\ ~ on_approved_leave_over e D d).
Proof.
  intros HD Hpad. rewrite absentee_rows_iff.
  assert (Hsame : on_approved_leave e (date_strftime D) d <-> on_approved_leave_over e D d).
  { unfold on_approved_leave, on_approved_leave_over.
    split; intros (lr & Hin & He & Hs & Hc); exists lr;
      (split; [exact Hin|]; split; [exact He|]; split; [exact Hs|]);
      destruct (Hpad lr Hin) as (from & to & Hf & Ht & E1 & E2).
    - apply (covers_on_calendar lr from to D Hf Ht HD E1 E2) in Hc.
      exists from, to. rewrite E1, E2, !strptime_date_strftime by assumption. tauto.
    - destruct Hc as (from' & to' & P1 & P2 & L1 & L2).
      rewrite E1, strptime_date_strftime in P1 by assumption.
      rewrite E2, strptime_date_strftime in P2 by assumption.
      injection P1 as <-. injection P2 as <-.
      apply (covers_on_calendar lr from to D Hf Ht HD E1 E2). tauto. }
  tauto.
Qed.

(** C7.  The report of June 5, 2024 after both employees were granted leave
    from June 3 to June 7: neither has an attendance record, both have an
    approved request whose interval contains June 5, and still Amal is
    listed as absent.  [apply_for_leave] checked her dates with [strptime],
    which reads [2024-6-3], and stored them as written; the report compares
    the stored text with [2024-06-05], and [2024-6-3] sorts after it.  Basil,
    whose dates were written with the zeros, is left out as the claim says. *)
Theorem absentee_listed_while_on_leave :
  fst (apply_for_leave (mkdatetime 2024 5 20 10 0 0 0) 1 1 "2024-6-3" "2024-6-7" "Trip"
         (mkworld two_employees []))
  = Return (Some 1)
  /\ LeaveRequests (db both_on_leave)
     = [mkLeaveRequest 1 1 1 "2024-6-3" "2024-6-7" "Trip" "Approved" (Some 7)
          "2024-05-20 10:00:00";
        mkLeaveRequest 2 2 1 "2024-06-03" "2024-06-07" "Trip" "Approved" (Some 7)
          "2024-05-20 10:00:00"]
  /\ In amal (Employees (db both_on_leave))
  /\ ~ attended amal "2024-06-05" (db both_on_leave)
  /\ on_approved_leave_over amal (mkdate 2024 6 5) (db both_on_leave)
  /\ on_approved_leave_over basil (mkdate 2024 6 5) (db both_on_leave)
  /\ get_absentee_report (mkdate 2024 6 5) both_on_leave
     = (Return [mkAbsentee "EMP001" "Amal" "Haddad"], both_on_leave).
Proof.
  split; [vm_compute; reflexivity|]. split; [vm_compute; reflexivity|].
  split; [left; reflexivity|]. split; [|split; [|split]].
  - intros (al & Hin & _). vm_compute in Hin. exact Hin.
  - eexists. split; [left; reflexivity|]. split; [reflexivity|]. split; [reflexivity|].
    exists (mkdate 2024 6 3), (mkdate 2024 6 7). vm_compute. auto.
  - eexists. split; [right; left; reflexivity|]. split; [reflexivity|].
    split; [reflexivity|].
    exists (mkdate 2024 6 3), (mkdate 2024 6 7). vm_compute. auto.
  - vm_compute. reflexivity.
Qed.

(** ** Storage outcomes of a call *)

(** A statement followed by a commit either takes effect as a whole or
    leaves the file as it was. *)
Lemma write_then_commit {A B} (stmt : database -> sqlite_error + (database * A))
    (k : A -> B) (handler : sqlite_error -> Service B) (w : world) :
  (forall err w', db (snd (handler err w')) = db w') ->
  db (snd (with_connection (x <- execute stmt ;; commit ;; ret (k x)) handler w)) = db w
  \/ exists d' x,
       stmt (db w) = inr (d', x)
       /\ with_connection (x <- execute stmt ;; commit ;; ret (k x)) handler w
          = (Return (k x), mkworld d' (tl (tl (tl (faults w))))).
Proof.
  intro Hh. destruct w as [d fs]. unfold with_connection, execute, commit, bind, call, ret.
  cbn [faults db].
  destruct fs as [|[err|] fs]; cbn [tl pending file work].
  - destruct (stmt d) as [err|[d' x]] eqn:E; cbn [pending file work].
    + left. apply Hh.
    + right. exists d', x. split; reflexivity.
  - left. reflexivity.
  - destruct fs as [|[err|] fs]; cbn [tl pending file work].
    + destruct (stmt d) as [err|[d' x]] eqn:E; cbn [pending file work].
      * left. apply Hh.
      * right. exists d', x. split; reflexivity.
    + left. apply Hh.
    + destruct (stmt d) as [err|[d' x]] eqn:E; cbn [pending file work].
      * left. apply Hh.
      * destruct fs as [|[err|] fs]; cbn [tl pending file work].
        -- right. exists d', x. split; reflexivity.
        -- left. apply Hh.
        -- right. exists d', x. split; reflexivity.
Qed.

Lemma get_open_attendance_cases (e : Z) (w : world) :
  db (snd (get_open_attendance e w)) = db w
  /\ (fst (get_open_attendance e w) = Return (select_open_attendance e (db w))
      \/ fst (get_open_attendance e w) = Return None
      \/ exists err, fst (get_open_attendance e w) = Raise (SqliteError err)).
Proof.
  destruct w as [d fs]. unfold get_open_attendance. run_service.
  destruct fs as [|[err|] [|[err'|] fs]]; cbn; eauto.
Qed.

Lemma get_open_attendance_run (e : Z) (d : database) :
  get_open_attendance e (mkworld d []) = (Return (select_open_attendance e d), mkworld d []).
Proof. reflexivity. Qed.

(** ** The attendance sessions *)

Lemma select_open_some (e : Z) (d : database) (log : AttendanceLogRow) :
  select_open_attendance e d = Some log ->
  In log (AttendanceLog d) /\ al_employee_id log = e /\ clock_out_time log = None.
Proof.
  intro H. apply order_by_hd_some in H. apply filter_In in H. destruct H as [Hin Ho].
  unfold is_open_for in Ho. apply andb_prop in Ho as [He Hn].
  split; [exact Hin|]. split; [lia|]. destruct (clock_out_time log); [discriminate|reflexivity].
Qed.

Lemma select_open_none (e : Z) (d : database) :
  select_open_attendance e d = None <-> count_open e d = 0%nat.
Proof.
  unfold select_open_attendance, count_open. rewrite order_by_hd_none.
  split; [intros ->; reflexivity | apply length_zero_iff_nil].
Qed.

Lemma filter_hit {A} (p : A -> bool) (l : list A) (x : A) :
  In x l -> p x = true -> (0 < List.length (filter p l))%nat.
Proof.
  intros Hin Hp. assert (H : In x (filter p l)) by (apply filter_In; auto).
  destruct (filter p l); [contradiction|simpl; lia].
Qed.

(** [clock_out] on working storage, branch by branch. *)
Lemma clock_out_trace_run (d : database) (now : datetime) (e : Z)
    (t : option datetime) (notes : option string) :
  clock_out_trace now e t notes (mkworld d [])
  = match select_open_attendance e d with
    | None => (Return NoOpenRecord, mkworld d [])
    | Some log =>
      match strptime_datetime (clock_in_time log) with
      | None => (Raise ValueError, mkworld d [])
      | Some cin =>
        if dt_lt (effective_time now t) cin then (Return OutBeforeIn, mkworld d [])
        else (Return Updated,
              mkworld (after (update_attendance (strftime_datetime (effective_time now t))
                                (merge_notes (al_notes log) notes) (al_id log)) d) [])
      end
    end.
Proof.
  unfold clock_out_trace, sbind. rewrite get_open_attendance_run.
  destruct (select_open_attendance e d) as [log|] eqn:Hopen; [|reflexivity].
  fold (effective_time now t).
  destruct (strptime_datetime (clock_in_time log)) as [cin|]; [|reflexivity].
  destruct (dt_lt (effective_time now t) cin); [reflexivity|].
  apply select_open_some in Hopen. destruct Hopen as (Hin & _ & _).
  pose proof (filter_hit (fun r => al_id r =? al_id log) _ log Hin (Z.eqb_refl _)) as Hpos.
  unfold after, update_attendance. run_service.
  destruct (0 <? Z.of_nat (List.length (filter (fun r => al_id r =? al_id log) (AttendanceLog d))))
    eqn:E; [reflexivity|lia].
Qed.

Lemma canonical_parses (d : database) (log : AttendanceLogRow) :
  canonical_log d -> In log (AttendanceLog d) ->
  exists cin, strptime_datetime (clock_in_time log) = Some cin.
Proof.
  intros Hc Hin. destruct (Hc log Hin) as (t & Hv & ->).
  exists (whole_second t). apply strptime_strftime. exact Hv.
Qed.

(** C3. On working storage and a log of well-formed timestamps, [clock_out]
    always returns, and it returns [False] exactly when (a) the employee has
    no open record (no record of the employee without a clock-out time), the
    branch that prints "No open clock-in record found", or
    (b) the clock-out time is earlier than the clock-in time of the open
    record, the branch that prints "cannot be before clock-in time".  In both
    cases the database is left as it was, so an open record stays open. *)
Theorem clock_out_fails_iff (d : database) (now : datetime) (e : Z)
    (t : option datetime) (notes : option string) :
  canonical_log d ->
  (exists b, fst (clock_out now e t notes (mkworld d [])) = Return b)
  /\ (select_open_attendance e d = None <-> count_open e d = 0%nat)
  /\ (fst (clock_out now e t notes (mkworld d [])) = Return false
      <-> select_open_attendance e d = None
          \/ exists log cin,
               select_open_attendance e d = Some log
               /\ strptime_datetime (clock_in_time log) = Some cin
               /\ dt_lt (effective_time now t) cin = true)
  /\ (select_open_attendance e d = None ->
      clock_out_trace now e t notes (mkworld d []) = (Return NoOpenRecord, mkworld d []))
  /\ (forall log cin,
        select_open_attendance e d = Some log ->
        strptime_datetime (clock_in_time log) = Some cin ->
        dt_lt (effective_time now t) cin = true ->
        clock_out_trace now e t notes (mkworld d []) = (Return OutBeforeIn, mkworld d [])
        /\ select_open_attendance e (db (snd (clock_out now e t notes (mkworld d []))))
           = Some log)
  /\ (fst (clock_out now e t notes (mkworld d [])) = Return false ->
      snd (clock_out now e t notes (mkworld d [])) = mkworld d []).
Proof.
  intro Hc. split; [|split; [apply select_open_none|revert Hc]].
  { unfold clock_out, sbind. rewrite clock_out_trace_run.
    destruct (select_open_attendance e d) as [log|] eqn:Hopen; [|cbn; eauto].
    destruct (canonical_parses d log Hc (proj1 (select_open_some e d log Hopen))) as (cin & ->).
    destruct (dt_lt (effective_time now t) cin); cbn; eauto. }
  intro Hc. unfold clock_out, sbind. rewrite clock_out_trace_run.
  destruct (select_open_attendance e d) as [log|] eqn:Hopen.
  - destruct (canonical_parses d log Hc (proj1 (select_open_some e d log Hopen))) as (cin & Hcin).
    rewrite Hcin.
    destruct (dt_lt (effective_time now t) cin) eqn:Hlt; cbn.
    + split; [|split; [discriminate|split; [|reflexivity]]].
      * split; [|reflexivity]. intros _. right. exists log, cin. auto.
      * intros log' cin' [= <-] Hcin' _. auto.
    + split; [|split; [discriminate|split; [|discriminate]]].
      * split; [discriminate|].
        intros [Hn | (log' & cin' & [= <-] & Hcin' & Hlt')]; [discriminate|].
        congruence.
      * intros log' cin' [= <-] Hcin' Hlt'. congruence.
  - cbn. split; [|split; [reflexivity|split; [|reflexivity]]].
    + split; [auto|reflexivity].
    + intros log cin [=].
Qed.

(** *** What the two calls can do to the log *)

Lemma clock_in_cases (now : datetime) (e : Z) (t : option datetime)
    (notes : option string) (source : string) (w : world) :
  db (snd (clock_in now e t notes source w)) = db w
  \/ exists id,
       clock_in now e t notes source w
       = (Return (Some id),
          mkworld (with_AttendanceLog
                     (AttendanceLog (db w)
                      ++ [mkAttendance id e (strftime_datetime (effective_time now t)) None
                            (strftime_date (effective_time now t)) notes source])
                     id (db w))
                  (tl (tl (tl (faults w))))).
Proof.
  unfold clock_in. fold (effective_time now t).
  match goal with
  | |- context [with_connection ?body ?h w] =>
    destruct (write_then_commit
                (insert_attendance e (strftime_datetime (effective_time now t))
                   (strftime_date (effective_time now t)) notes source)
                (@Some Z) h w) as [Hsame | (d' & id & Hstmt & Hrun)]
  end.
  - intros [|] w'; reflexivity.
  - left. exact Hsame.
  - right. exists id. rewrite Hrun. unfold insert_attendance in Hstmt.
    injection Hstmt as <- <-. reflexivity.
Qed.

Lemma clock_out_cases (now : datetime) (e : Z) (t : option datetime)
    (notes : option string) (w : world) :
  db (snd (clock_out now e t notes w)) = db w
  \/ exists s n id,
       db (snd (clock_out now e t notes w)) = after (update_attendance s n id) (db w).
Proof.
  unfold clock_out, clock_out_trace, sbind.
  destruct (get_open_attendance_cases e w) as [Hdb _].
  destruct (get_open_attendance e w) as [[[log|]|exn] w1]; cbn [fst snd] in *;
    [| left; exact Hdb | left; exact Hdb].
  destruct (strptime_datetime (clock_in_time log)) as [cin|]; [|left; exact Hdb].
  fold (effective_time now t).
  destruct (dt_lt (effective_time now t) cin); [left; exact Hdb|].
  match goal with
  | |- context [with_connection ?body ?h w1] =>
    destruct (write_then_commit
                (update_attendance (strftime_datetime (effective_time now t))
                   (merge_notes (al_notes log) notes) (al_id log))
                (fun rowcount => if 0 <? rowcount then Updated else NothingUpdated) h w1)
      as [Hsame | (d' & x & Hstmt & Hrun)]
  end.
  - intros err w'. reflexivity.
  - left. destruct (with_connection _ _ w1) as [[b|exn] w2] eqn:E;
      cbn [fst snd sret] in *; congruence.
  - right. exists (strftime_datetime (effective_time now t)),
             (merge_notes (al_notes log) notes), (al_id log).
    rewrite Hrun. cbn [fst snd db]. unfold after. rewrite <- Hdb, Hstmt. reflexivity.
Qed.

Lemma count_open_after_insert (e e0 id : Z) (cin date : string) (notes : option string)
    (source : string) (seq : Z) (d : database) :
  count_open e (with_AttendanceLog
                  (AttendanceLog d ++ [mkAttendance id e0 cin None date notes source]) seq d)
  = (count_open e d + (if Z.eqb e0 e then 1 else 0))%nat.
Proof.
  unfold count_open. cbn [AttendanceLog with_AttendanceLog].
  rewrite filter_app, length_app. f_equal. cbn. unfold is_open_for. cbn.
  rewrite andb_true_r. destruct (e0 =? e); reflexivity.
Qed.

Lemma filter_map_shrinks {A} (p : A -> bool) (f : A -> A) (l : list A) :
  (forall x, p (f x) = true -> p x = true) ->
  (List.length (filter p (map f l)) <= List.length (filter p l))%nat.
Proof.
  intro H. induction l as [|x l IH]; simpl; [lia|].
  destruct (p (f x)) eqn:E.
  - rewrite (H x E). simpl. lia.
  - destruct (p x); simpl; lia.
Qed.

Lemma count_open_after_update (e : Z) (s : string) (n : option string) (id : Z)
    (d : database) :
  (count_open e (after (update_attendance s n id) d) <= count_open e d)%nat.
Proof.
  unfold after, update_attendance, count_open. cbn [AttendanceLog with_AttendanceLog].
  apply filter_map_shrinks. intros r. destruct (al_id r =? id); [|tauto].
  unfold is_open_for. cbn. rewrite andb_false_r. discriminate.
Qed.

Lemma canonical_after_update (s : string) (n : option string) (id : Z) (d : database) :
  canonical_log d -> canonical_log (after (update_attendance s n id) d).
Proof.
  intros Hc r Hin. unfold after, update_attendance in Hin.
  cbn [AttendanceLog with_AttendanceLog] in Hin.
  apply in_map_iff in Hin. destruct Hin as (r0 & <- & Hin0).
  destruct (Hc r0 Hin0) as (t & Hv & Ht). exists t. split; [exact Hv|].
  destruct (al_id r0 =? id); exact Ht.
Qed.

(** Every log the service builds holds timestamps [clock_out] can parse. *)
Lemma reachable_canonical (w : world) : reachable w -> canonical_log (db w).
Proof.
  induction 1 as [d fs Hempty | w op Hr IH Hv].
  - intros r Hin. cbn in Hin. rewrite Hempty in Hin. contradiction.
  - destruct op as [now e t notes source | now e t notes]; cbn [perform].
    + destruct (clock_in_cases now e t notes source w) as [-> | (id & ->)]; [exact IH|].
      intros r Hin. cbn in Hin. apply in_app_iff in Hin. destruct Hin as [Hin | [<- | []]].
      * exact (IH r Hin).
      * exists (effective_time now t). split; [exact Hv|reflexivity].
    + destruct (clock_out_cases now e t notes w) as [-> | (s & n & id & ->)]; [exact IH|].
      apply canonical_after_update. exact IH.
Qed.

(** C1, as stated, fails on the code: [clock_in] adds a record without
    looking for an open one, so two clock-ins in a row leave the employee
    with two open records. *)
Lemma two_open_sessions_reachable :
  ~ (forall w, reachable w -> one_open_session_at_most (db w)).
Proof.
  intro H.
  assert (Hr : reachable clocked_in_twice).
  { unfold clocked_in_twice. apply reachable_step; [apply reachable_step|].
    - apply reachable_start. reflexivity.
    - apply (proj1 (valid_datetimeb_iff eight_o_clock)). reflexivity.
    - apply (proj1 (valid_datetimeb_iff nine_o_clock)). reflexivity. }
  specialize (H clocked_in_twice Hr 1). vm_compute in H. lia.
Qed.

(** C1, as the code has it.  At most one record per employee is open in
    every state reached by calls in which an employee is clocked in only
    while having no open record; [clock_out] keeps that, and [clock_in]
    does when the caller has checked, because it never checks itself. *)
Theorem one_open_session_when_checked (w : world) :
  reachable_checked w -> one_open_session_at_most (db w).
Proof.
  induction 1 as [d fs Hempty | w op Hr IH Hv Hc].
  - intro e. unfold count_open. cbn. rewrite Hempty. cbn. lia.
  - destruct op as [now e t notes source | now e t notes]; cbn [perform checked] in *.
    + destruct (clock_in_cases now e t notes source w) as [-> | (id & ->)]; [exact IH|].
      intro e'. cbn [snd db]. rewrite count_open_after_insert.
      destruct (e =? e') eqn:E.
      * apply Z.eqb_eq in E. subst e'. apply select_open_none in Hc. lia.
      * specialize (IH e'). lia.
    + destruct (clock_out_cases now e t notes w) as [-> | (s & n & id & ->)]; [exact IH|].
      intro e'. pose proof (count_open_after_update e' s n id (db w)). specialize (IH e'). lia.
Qed.

Lemma one_open_session_when_checked_witness :
  reachable_checked in_out_in /\ one_open_session_at_most (db in_out_in).
Proof.
  assert (Hr : reachable_checked in_out_in).
  { unfold in_out_in.
    apply checked_step; [apply checked_step; [apply checked_step|..]|..].
    - apply checked_start. reflexivity.
    - apply (proj1 (valid_datetimeb_iff eight_o_clock)). reflexivity.
    - reflexivity.
    - apply (proj1 (valid_datetimeb_iff nine_o_clock)). reflexivity.
    - exact I.
    - apply (proj1 (valid_datetimeb_iff half_past_five)). reflexivity.
    - reflexivity. }
  split; [exact Hr | exact (one_open_session_when_checked in_out_in Hr)].
Defined.

(** The log after clocking in at eight, out at nine and in again: one closed
    record with both notes, one open record. *)
Example in_out_in_log :
  AttendanceLog (db in_out_in)
  = [mkAttendance 1 1 "2024-06-01 08:00:00" (Some "2024-06-01 09:00:00") "2024-06-01"
       (Some ("Morning" ++ String newline "Clock-out: Lunch")%string) "manual";
     mkAttendance 2 1 "2024-06-01 17:30:00" None "2024-06-01" None "manual"].
Proof. reflexivity. Qed.

Lemma clock_out_fails_iff_witness :
  canonical_log open_since_nine
  /\ clock_out_trace eight_o_clock 1 None None (mkworld open_since_nine [])
     = (Return OutBeforeIn, mkworld open_since_nine [])
  /\ clock_out eight_o_clock 1 None None (mkworld open_since_nine [])
     = (Return false, mkworld open_since_nine [])
  /\ clock_out eight_o_clock 2 None None (mkworld open_since_nine [])
     = (Return false, mkworld open_since_nine []).
Proof.
  assert (Hc : canonical_log open_since_nine).
  { apply (reachable_canonical (perform (ClockIn nine_o_clock 1 None None "manual")
                                  (mkworld empty_db []))).
    apply reachable_step; [apply reachable_start; reflexivity|].
    apply (proj1 (valid_datetimeb_iff nine_o_clock)). reflexivity. }
  split; [exact Hc|].
  destruct (clock_out_fails_iff open_since_nine eight_o_clock 1 None None Hc)
    as (_ & _ & _ & _ & Hbefore & _).
  destruct (clock_out_fails_iff open_since_nine eight_o_clock 2 None None Hc)
    as (_ & _ & _ & Hnone & _ & _).
  destruct (Hbefore (mkAttendance 1 1 "2024-06-01 09:00:00" None "2024-06-01" None "manual")
              nine_o_clock eq_refl eq_refl eq_refl) as [Htrace _].
  split; [exact Htrace|]. split.
  - unfold clock_out, sbind. rewrite Htrace. reflexivity.
  - unfold clock_out, sbind. rewrite (Hnone eq_refl). reflexivity.
Defined.

(** ** Storage failures *)

(** C10, as stated, fails on the code: when the SELECT of
    [get_leave_balance] raises, the function returns [0.0], which is also
    what it returns for a key without a row and a leave type without a
    default. *)
Lemma failed_read_looks_like_zero_balance : ~ balance_failure_is_told_apart.
Proof.
  intro H. apply (H OperationalError empty_db empty_db 1 1 2024). reflexivity.
Qed.

(** C10, as the code has it.  A [sqlite3.Error] raised by a statement or by
    the commit is caught inside the service: the call returns its fallback
    and the file keeps its content.  This holds at every statement and at
    the commit of each of the four functions: the INSERT and the commit of
    [clock_in]; both SELECTs of [get_leave_balance]; the SELECT of
    [get_open_attendance]; the SELECT, the UPDATE and the commit of
    [clock_out].  The fallback of [clock_in] is [None], which no successful
    call returns; the fallbacks of [get_leave_balance],
    [get_open_attendance] and [clock_out] are [0.0], [None] and [False],
    which working storage returns as well.  An error of [sqlite3.connect],
    also of the second connection [clock_out] opens, is raised to the
    caller. *)
Theorem storage_errors_are_caught (err : sqlite_error) (d : database) :
  (forall now e t notes source,
      clock_in now e t notes source (statement_fails err d) = (Return None, mkworld d [])
      /\ clock_in now e t notes source (commit_fails err d) = (Return None, mkworld d [])
      /\ clock_in now e t notes source (connect_fails err d)
         = (Raise (SqliteError err), mkworld d [])
      /\ exists id d', clock_in now e t notes source (mkworld d [])
                       = (Return (Some id), mkworld d' []))
  /\ (forall e lt y,
        get_leave_balance e lt y (statement_fails err d) = (Return 0%float, mkworld d [])
        /\ (stored_balance e lt y d = None ->
            get_leave_balance e lt y (after_calls 1 (statement_fails err d))
            = (Return 0%float, mkworld d []))
        /\ get_leave_balance e lt y (connect_fails err d)
           = (Raise (SqliteError err), mkworld d [])
        /\ get_leave_balance e lt y (mkworld empty_db [])
           = (Return 0%float, mkworld empty_db []))
  /\ (forall e,
        get_open_attendance e (statement_fails err d) = (Return None, mkworld d [])
        /\ get_open_attendance e (connect_fails err d)
           = (Raise (SqliteError err), mkworld d [])
        /\ (count_open e d = 0%nat ->
            get_open_attendance e (mkworld d []) = (Return None, mkworld d [])))
  /\ (forall now e t notes,
        clock_out now e t notes (statement_fails err d) = (Return false, mkworld d [])
        /\ clock_out now e t notes (connect_fails err d)
           = (Raise (SqliteError err), mkworld d [])
        /\ (fst (clock_out now e t notes (mkworld d [])) = Return true ->
            clock_out now e t notes (after_calls 2 (statement_fails err d))
            = (Return false, mkworld d [])
            /\ clock_out now e t notes (after_calls 2 (commit_fails err d))
               = (Return false, mkworld d [])
            /\ clock_out now e t notes (after_calls 2 (connect_fails err d))
               = (Raise (SqliteError err), mkworld d []))
        /\ (count_open e d = 0%nat ->
            clock_out now e t notes (mkworld d []) = (Return false, mkworld d []))).
Proof.
  split; [|split; [|split]].
  - intros now e t notes source. split; [|split; [|split]].
    + destruct err; reflexivity.
    + destruct err; reflexivity.
    + reflexivity.
    + eexists. eexists. reflexivity.
  - intros e lt y. split; [reflexivity|]. split; [|split; reflexivity].
    intro Hnone. unfold stored_balance in Hnone.
    destruct (select_balance e lt y d) as [row|] eqn:Hrow; [discriminate|].
    unfold get_leave_balance, after_calls, statement_fails.
    cbn [db faults repeat app]. run_service. rewrite Hrow. reflexivity.
  - intros e. split; [reflexivity|]. split; [reflexivity|].
    intro H0. rewrite get_open_attendance_run.
    rewrite (proj2 (select_open_none e d) H0). reflexivity.
  - intros now e t notes. split; [reflexivity|]. split; [reflexivity|]. split.
    + intro Htrue. unfold clock_out, sbind in Htrue. rewrite clock_out_trace_run in Htrue.
      destruct (select_open_attendance e d) as [log|] eqn:Hopen; [|discriminate].
      destruct (strptime_datetime (clock_in_time log)) as [cin|] eqn:Hcin; [|discriminate].
      destruct (dt_lt (effective_time now t) cin) eqn:Hlt; [discriminate|].
      unfold effective_time in Hlt.
      unfold clock_out, clock_out_trace, get_open_attendance, sbind,
        after_calls, statement_fails, commit_fails, connect_fails.
      cbn [db faults repeat app]. run_service. rewrite Hopen, Hcin, Hlt. run_service.
      unfold update_attendance. run_service.
      split; [reflexivity|]. split; reflexivity.
    + intro H0. unfold clock_out, sbind. rewrite clock_out_trace_run.
      rewrite (proj2 (select_open_none e d) H0). reflexivity.
Qed.

Lemma storage_errors_are_caught_witness :
  get_leave_balance 1 1 2024 (mkworld at_work_with_default [])
  = (Return 20%float, mkworld at_work_with_default [])
  /\ get_leave_balance 1 1 2024 (after_calls 1 (statement_fails OperationalError at_work_with_default))
     = (Return 0%float, mkworld at_work_with_default [])
  /\ fst (clock_out half_past_five 1 None None (mkworld at_work_with_default [])) = Return true
  /\ clock_out half_past_five 1 None None
       (after_calls 2 (statement_fails OperationalError at_work_with_default))
     = (Return false, mkworld at_work_with_default [])
  /\ clock_out half_past_five 1 None None
       (after_calls 2 (commit_fails OperationalError at_work_with_default))
     = (Return false, mkworld at_work_with_default []).
Proof.
  destruct (storage_errors_are_caught OperationalError at_work_with_default)
    as (_ & Hbalance & _ & Hout).
  destruct (Hbalance 1 1 2024) as (_ & Hsecond & _).
  destruct (Hout half_past_five 1 None None) as (_ & _ & Hwrite & _).
  destruct (Hwrite eq_refl) as (Hupdate & Hcommit & _).
  split; [reflexivity|]. split; [exact (Hsecond eq_refl)|]. split; [reflexivity|].
  split; [exact Hupdate|exact Hcommit].
Defined.

(** ** Worked examples *)



Lemma approve_reject_unconditional_witness :
  exists d1 d2,
    approve_leave_request 7 3 (mkworld one_pending_request []) = (Return true, mkworld d1 [])
    /\ status_of 7 d1 = Some ("Approved", Some 3)
    /\ reject_leave_request 7 4 (mkworld d1 []) = (Return true, mkworld d2 [])
    /\ status_of 7 d2 = Some ("Rejected", Some 4).
Proof.
  destruct (approve_reject_unconditional one_pending_request 7 3 4) as (_ & _ & _ & H).
  destruct (H _ eq_refl) as (d1 & d2 & Ha & Hs1 & Hr & Hs2 & _).
  exists d1, d2. unfold status_of. rewrite Hs1, Hs2. auto.
Defined.

(** The two balances of the counterexample to composition, as doubles. *)
Example two_deltas_against_one :
  stored_balance 1 1 2024
    (apply_delta 1 1 2024 three_tenths (apply_delta 1 1 2024 two_tenths ledger_tenth))
  = Some 0x1.3333333333334p-1%float
  /\ stored_balance 1 1 2024 (apply_delta 1 1 2024 (two_tenths + three_tenths)%float ledger_tenth)
     = Some 0x1.3333333333333p-1%float.
Proof. split; vm_compute; reflexivity. Qed.

(** A NaN is no balance: the store turns it into NULL, the column refuses
    it, and the call falls back on reading the balance. *)
Example nan_is_not_stored :
  update_leave_balance 1 1 2024 nan true (mkworld ledger_default [])
  = (Return 20%float, mkworld ledger_default []).
Proof. vm_compute. reflexivity. Qed.

(** [apply_for_leave] files a request for an employee nobody knows, and with
    the end before the start. *)
Example permissive_application :
  fst (apply_for_leave eight_o_clock 99 1 "2024-06-05" "2024-06-01" "Trip" (mkworld empty_db []))
  = Return (Some 1)
  /\ fst (apply_for_leave eight_o_clock 99 1 "2024-06-31" "2024-07-01" "Trip" (mkworld empty_db []))
     = Return None.
Proof. split; reflexivity. Qed.

(** * More of the services *)

(** ** Sort orders *)

Lemma ascii_compare_lt_trans (a b c : ascii) :
  Ascii.compare a b = Lt -> Ascii.compare b c = Lt -> Ascii.compare a c = Lt.
Proof.
  unfold Ascii.compare. rewrite !N.compare_lt_iff. apply N.lt_trans.
Qed.

Lemma string_compare_lt_trans (a b c : string) :
  String.compare a b = Lt -> String.compare b c = Lt -> String.compare a c = Lt.
Proof.
  revert b c. induction a as [|x a IH]; intros [|y b] [|z c]; simpl; try congruence.
  destruct (Ascii.compare x y) eqn:Exy; try discriminate;
    destruct (Ascii.compare y z) eqn:Eyz; try discriminate; intros Hab Hbc.
  - apply Ascii.compare_eq_iff in Exy. apply Ascii.compare_eq_iff in Eyz. subst.
    destruct (Ascii.compare z z) eqn:Ezz; try reflexivity.
    + exact (IH b c Hab Hbc).
    + pose proof (Ascii.compare_antisym z z) as H. rewrite Ezz in H. discriminate.
  - apply Ascii.compare_eq_iff in Exy. subst. rewrite Eyz. reflexivity.
  - apply Ascii.compare_eq_iff in Eyz. subst. rewrite Exy. reflexivity.
  - rewrite (ascii_compare_lt_trans x y z Exy Eyz). reflexivity.
Qed.

Lemma string_compare_refl (a : string) : String.compare a a = Eq.
Proof.
  pose proof (String.compare_antisym a a) as H.
  destruct (String.compare a a); simpl in H; congruence.
Qed.

Lemma ordering_by_key {A} (k : A -> string) :
  ordering (fun a b => String.compare (k a) (k b)).
Proof.
  split.
  - intros a b c H. apply String.compare_eq_iff in H. rewrite H. reflexivity.
  - intros a b. apply String.compare_antisym.
  - intros a b c. apply string_compare_lt_trans.
Qed.

Lemma ordering_flip {A} (cmp : A -> A -> comparison) :
  ordering cmp -> ordering (fun a b => cmp b a).
Proof.
  intros [Heq Has Htr]. split.
  - intros a b c H. rewrite (Has a c), (Has b c). f_equal. apply Heq.
    rewrite Has, H. reflexivity.
  - intros a b. apply Has.
  - intros a b c Hab Hbc. exact (Htr c b a Hbc Hab).
Qed.

Lemma ordering_eq_r {A} (cmp : A -> A -> comparison) (a b c : A) :
  ordering cmp -> cmp a b = Eq -> cmp c a = cmp c b.
Proof.
  intros [Heq Has Htr] H. rewrite (Has a c), (Has b c). f_equal. apply Heq. exact H.
Qed.

Lemma ordering_then_by {A} (c1 c2 : A -> A -> comparison) :
  ordering c1 -> ordering c2 -> ordering (fun a b => then_by (c1 a b) (c2 a b)).
Proof.
  intros O1 O2. pose proof O1 as [Heq1 Has1 Htr1]. pose proof O2 as [Heq2 Has2 Htr2]. split.
  - intros a b c. unfold then_by.
    destruct (c1 a b) eqn:E1; try discriminate. intro E2.
    rewrite (Heq1 a b c E1). destruct (c1 b c); auto.
  - intros a b. unfold then_by. rewrite (Has1 a b), (Has2 a b).
    destruct (c1 a b); reflexivity.
  - intros a b c. unfold then_by.
    destruct (c1 a b) eqn:E1; try discriminate;
      destruct (c1 b c) eqn:E2; try discriminate; intros Hab Hbc.
    + rewrite (Heq1 a b c E1), E2. exact (Htr2 a b c Hab Hbc).
    + rewrite (Heq1 a b c E1), E2. reflexivity.
    + rewrite (ordering_eq_r c1 b c a O1 E2) in E1. rewrite E1. reflexivity.
    + rewrite (Htr1 a b c E1 E2). reflexivity.
Qed.

Lemma ordering_le_trans {A} (cmp : A -> A -> comparison) (a b c : A) :
  ordering cmp -> cmp a b <> Gt -> cmp b c <> Gt -> cmp a c <> Gt.
Proof.
  intros O Hab Hbc. pose proof O as [Heq Has Htr].
  destruct (cmp a b) eqn:E1; [| |congruence].
  - rewrite (Heq a b c E1). exact Hbc.
  - destruct (cmp b c) eqn:E2; [| |congruence].
    + rewrite <- (ordering_eq_r cmp b c a O E2), E1. discriminate.
    + rewrite (Htr a b c E1 E2). discriminate.
Qed.

Lemma ordering_le_total {A} (cmp : A -> A -> comparison) (a b : A) :
  ordering cmp -> cmp a b = Gt -> cmp b a <> Gt.
Proof.
  intros [_ Has _] H. rewrite Has, H. discriminate.
Qed.

Lemma insert_by_sorted {A} (cmp : A -> A -> comparison) (x : A) (l : list A) :
  ordering cmp -> sorted_by cmp l ->
  sorted_by cmp (insert_by (fun a b => not_after (cmp a b)) x l).
Proof.
  intros O. unfold sorted_by. induction 1 as [|y l Hs IH Hy]; simpl.
  - constructor; constructor.
  - destruct (cmp x y) eqn:E; simpl.
    + constructor; [constructor; assumption|]. constructor; [congruence|].
      apply Forall_forall. intros z Hz. rewrite Forall_forall in Hy.
      apply (ordering_le_trans cmp x y z O); [congruence|auto].
    + constructor; [constructor; assumption|]. constructor; [congruence|].
      apply Forall_forall. intros z Hz. rewrite Forall_forall in Hy.
      apply (ordering_le_trans cmp x y z O); [congruence|auto].
    + constructor; [exact IH|].
      apply Forall_forall. intros z Hz. apply insert_by_In in Hz.
      destruct Hz as [-> | Hz]; [exact (ordering_le_total cmp x y O E)|].
      rewrite Forall_forall in Hy. auto.
Qed.

(** [ORDER BY] returns its rows in order. *)
Lemma order_by_sorted {A} (cmp : A -> A -> comparison) (l : list A) :
  ordering cmp -> sorted_by cmp (order_by (fun a b => not_after (cmp a b)) l).
Proof.
  intro O. induction l as [|x l IH]; simpl; [constructor|].
  apply insert_by_sorted; assumption.
Qed.

(** The first row of [ORDER BY] comes before every row of the table. *)
Lemma order_by_hd_first {A} (cmp : A -> A -> comparison) (l : list A) (x y : A) :
  ordering cmp ->
  hd_error (order_by (fun a b => not_after (cmp a b)) l) = Some x ->
  In y l -> cmp x y <> Gt.
Proof.
  intros O Hx Hy. pose proof (order_by_sorted cmp l O) as Hs.
  apply (order_by_In (fun a b => not_after (cmp a b))) in Hy.
  destruct (order_by _ l) as [|z l']; [discriminate|]. injection Hx as ->.
  destruct Hy as [-> | Hy].
  - pose proof O as [_ Has _]. specialize (Has y y). destruct (cmp y y); simpl in Has; congruence.
  - unfold sorted_by in Hs. inversion Hs as [|? ? _ Hall]; subst.
    rewrite Forall_forall in Hall. auto.
Qed.

(** ** The attendance log in every reachable state *)

Lemma autoincrement_fresh {A} (id : A -> Z) (rows : list A) (seq : Z) (r : A) :
  In r rows -> id r < autoincrement id rows seq.
Proof.
  unfold autoincrement. induction rows as [|x rows IH]; simpl; [contradiction|].
  intros [-> | Hin]; [lia|]. specialize (IH Hin). lia.
Qed.

Lemma autoincrement_not_in {A} (id : A -> Z) (rows : list A) (seq : Z) :
  ~ In (autoincrement id rows seq) (map id rows).
Proof.
  intro H. apply in_map_iff in H. destruct H as (r & Hid & Hin).
  pose proof (autoincrement_fresh id rows seq r Hin). lia.
Qed.

Lemma NoDup_snoc {A} (l : list A) (x : A) : NoDup l -> ~ In x l -> NoDup (l ++ [x]).
Proof.
  intros Hl Hx. induction Hl as [|y l Hy Hl IH]; simpl.
  - constructor; [auto|constructor].
  - constructor.
    + rewrite in_app_iff. simpl. intros [H | [H | []]]; [contradiction|].
      subst. apply Hx. now left.
    + apply IH. intro H. apply Hx. now right.
Qed.

Lemma same_id_same_row {A} (id : A -> Z) (l : list A) (x y : A) :
  NoDup (map id l) -> In x l -> In y l -> id x = id y -> x = y.
Proof.
  induction l as [|z l IH]; simpl; [contradiction|].
  intros Hnd Hx Hy Hid. inversion Hnd as [|? ? Hz Hnd']; subst.
  destruct Hx as [-> | Hx], Hy as [-> | Hy]; auto.
  - exfalso. apply Hz. rewrite Hid. apply in_map. exact Hy.
  - exfalso. apply Hz. rewrite <- Hid. apply in_map. exact Hx.
Qed.

(** A clock-out time that is not before the stored clock-in time is not
    before it to the second either. *)
Lemma not_before_whole_second (t c : datetime) :
  valid_datetime t -> valid_datetime c ->
  dt_lt t (whole_second c) = false -> epoch_seconds c <= epoch_seconds t.
Proof.
  intros Ht Hc Hlt.
  assert (Hw : dt_lt (whole_second t) (whole_second c) = false).
  { destruct Ht as (_ & _ & _ & _ & _ & _ & Hus).
    revert Hlt. unfold dt_lt, _cmp, whole_second, lex.
    cbn [year month day hour minute second microsecond].
    destruct (year t ?= year c); try tauto.
    destruct (month t ?= month c); try tauto.
    destruct (day t ?= day c); try tauto.
    destruct (hour t ?= hour c); try tauto.
    destruct (minute t ?= minute c); try tauto.
    destruct (second t ?= second c); tauto. }
  rewrite (dt_lt_epoch t c Ht Hc) in Hw. apply Z.ltb_ge in Hw. exact Hw.
Qed.

Lemma get_open_attendance_found (e : Z) (w : world) (log : AttendanceLogRow) :
  fst (get_open_attendance e w) = Return (Some log) ->
  select_open_attendance e (db w) = Some log.
Proof.
  intro H. destruct (get_open_attendance_cases e w) as [_ [Hc | [Hc | (err & Hc)]]];
    rewrite Hc in H; congruence.
Qed.

(** What a [clock_in] that changes the file has done. *)
Lemma clock_in_effect (now : datetime) (e : Z) (t : option datetime)
    (notes : option string) (source : string) (w : world) :
  db (snd (clock_in now e t notes source w)) = db w
  \/ clock_in now e t notes source w
     = (Return (Some (autoincrement al_id (AttendanceLog (db w)) (seq_AttendanceLog (db w)))),
        mkworld (with_AttendanceLog
                   (AttendanceLog (db w)
                    ++ [mkAttendance
                          (autoincrement al_id (AttendanceLog (db w)) (seq_AttendanceLog (db w)))
                          e (strftime_datetime (effective_time now t)) None
                          (strftime_date (effective_time now t)) notes source])
                   (autoincrement al_id (AttendanceLog (db w)) (seq_AttendanceLog (db w)))
                   (db w))
                (tl (tl (tl (faults w))))).
Proof.
  unfold clock_in. fold (effective_time now t).
  match goal with
  | |- context [with_connection ?body ?h w] =>
    destruct (write_then_commit
                (insert_attendance e (strftime_datetime (effective_time now t))
                   (strftime_date (effective_time now t)) notes source)
                (@Some Z) h w) as [Hsame | (d' & id & Hstmt & Hrun)]
  end.
  - intros [|] w'; reflexivity.
  - left. exact Hsame.
  - right. rewrite Hrun. unfold insert_attendance in Hstmt.
    injection Hstmt as <- <-. reflexivity.
Qed.

(** What a [clock_out] that changes the file has done. *)
Lemma clock_out_effect (now : datetime) (e : Z) (t : option datetime)
    (notes : option string) (w : world) :
  db (snd (clock_out now e t notes w)) = db w
  \/ exists log cin,
       select_open_attendance e (db w) = Some log
       /\ strptime_datetime (clock_in_time log) = Some cin
       /\ dt_lt (effective_time now t) cin = false
       /\ clock_out now e t notes w
          = (Return true,
             mkworld (after (update_attendance (strftime_datetime (effective_time now t))
                               (merge_notes (al_notes log) notes) (al_id log)) (db w))
                     (faults (snd (clock_out now e t notes w)))).
Proof.
  unfold clock_out, clock_out_trace, sbind.
  destruct (get_open_attendance_cases e w) as [Hdb _].
  pose proof (get_open_attendance_found e w) as Hfound.
  destruct (get_open_attendance e w) as [[[log|]|exn] w1]; cbn [fst snd] in *;
    [| left; exact Hdb | left; exact Hdb].
  specialize (Hfound log eq_refl).
  destruct (strptime_datetime (clock_in_time log)) as [cin|] eqn:Hcin; [|left; exact Hdb].
  fold (effective_time now t).
  destruct (dt_lt (effective_time now t) cin) eqn:Hlt; [left; exact Hdb|].
  match goal with
  | |- context [with_connection ?body ?h w1] =>
    destruct (write_then_commit
                (update_attendance (strftime_datetime (effective_time now t))
                   (merge_notes (al_notes log) notes) (al_id log))
                (fun rowcount => if 0 <? rowcount then Updated else NothingUpdated) h w1)
      as [Hsame | (d' & x & Hstmt & Hrun)]
  end.
  - intros err w'. reflexivity.
  - left. destruct (with_connection _ _ w1) as [[b|exn] w2] eqn:E;
      cbn [fst snd sret] in *; congruence.
  - right. exists log, cin. split; [exact Hfound|]. split; [exact Hcin|]. split; [exact Hlt|].
    rewrite Hrun. cbn [fst snd sret faults].
    assert (Hx : (0 <? x) = true).
    { unfold update_attendance in Hstmt. injection Hstmt as _ <-.
      apply select_open_some in Hfound. destruct Hfound as (Hin & _).
      rewrite Hdb.
      pose proof (filter_hit (fun r => al_id r =? al_id log) _ log Hin (Z.eqb_refl _)). lia. }
    rewrite Hx. cbn [returned]. unfold after. rewrite <- Hdb, Hstmt. reflexivity.
Qed.

Lemma well_formed_after_update (d : database) (log : AttendanceLogRow) (t cin : datetime)
    (n : option string) :
  well_formed_log d -> In log (AttendanceLog d) -> valid_datetime t ->
  strptime_datetime (clock_in_time log) = Some cin -> dt_lt t cin = false ->
  well_formed_log (after (update_attendance (strftime_datetime t) n (al_id log)) d).
Proof.
  intros [Hnd Hwf] Hin Ht Hcin Hlt. unfold well_formed_log, after, update_attendance.
  cbv zeta. cbn [AttendanceLog with_AttendanceLog]. split.
  - rewrite map_map. erewrite map_ext; [exact Hnd|].
    intro r. cbn. destruct (al_id r =? al_id log); reflexivity.
  - intros r Hr. apply in_map_iff in Hr. destruct Hr as (r0 & <- & Hr0).
    destruct (al_id r0 =? al_id log) eqn:E; [|exact (Hwf r0 Hr0)].
    apply Z.eqb_eq in E.
    assert (r0 = log) by (apply (same_id_same_row al_id (AttendanceLog d)); assumption).
    subst r0. destruct (Hwf log Hin) as (c & Hc & Hci & Hdate & _).
    exists c. cbn. split; [exact Hc|]. split; [exact Hci|]. split; [exact Hdate|].
    exists t. split; [exact Ht|]. split; [reflexivity|].
    rewrite Hci, (strptime_strftime c Hc) in Hcin. injection Hcin as <-.
    apply not_before_whole_second; assumption.
Qed.

Lemma well_formed_when_reachable (w : world) : reachable w -> well_formed_log (db w).
Proof.
  induction 1 as [d fs Hempty | w op Hr IH Hv].
  - cbn. unfold well_formed_log. rewrite Hempty. split; [constructor|intros r []].
  - destruct op as [now e t notes source | now e t notes]; cbn [perform].
    + destruct (clock_in_effect now e t notes source w) as [-> | ->]; [exact IH|].
      cbn [snd db]. destruct IH as [Hnd Hwf]. split.
      * cbn [AttendanceLog with_AttendanceLog]. rewrite map_app. cbn.
        apply NoDup_snoc; [exact Hnd|apply autoincrement_not_in].
      * intros r Hin. cbn [AttendanceLog with_AttendanceLog] in Hin.
        apply in_app_iff in Hin. destruct Hin as [Hin | [<- | []]]; [exact (Hwf r Hin)|].
        exists (effective_time now t). cbn. auto.
    + destruct (clock_out_effect now e t notes w)
        as [-> | (log & cin & Hopen & Hcin & Hlt & ->)]; [exact IH|].
      cbn [snd db]. apply select_open_some in Hopen. destruct Hopen as (Hin & _).
      apply (well_formed_after_update (db w) log (effective_time now t) cin); assumption.
Qed.

Lemma in_out_in_reachable : reachable in_out_in.
Proof.
  unfold in_out_in.
  apply reachable_step; [apply reachable_step; [apply reachable_step|]|].
  - apply reachable_start. reflexivity.
  - apply (proj1 (valid_datetimeb_iff eight_o_clock)). reflexivity.
  - apply (proj1 (valid_datetimeb_iff nine_o_clock)). reflexivity.
  - apply (proj1 (valid_datetimeb_iff half_past_five)). reflexivity.
Defined.

(** X1. In every state the attendance service can reach, the record ids are
    distinct, each record's date is the date of its clock-in time, and each
    closed record was clocked out at or after its clock-in. *)
Theorem reachable_log_well_formed (w : world) : reachable w -> well_formed_log (db w).
Proof. exact (well_formed_when_reachable w). Qed.

Lemma reachable_log_well_formed_witness :
  reachable in_out_in /\ well_formed_log (db in_out_in).
Proof.
  split; [exact in_out_in_reachable
         | exact (reachable_log_well_formed in_out_in in_out_in_reachable)].
Defined.

(** ** Clocking in and out on working storage *)

Lemma count_open_zero_filter (e : Z) (d : database) :
  count_open e d = 0%nat -> filter (is_open_for e) (AttendanceLog d) = [].
Proof. unfold count_open. apply length_zero_iff_nil. Qed.

(** X2. On working storage, clocking in an employee who has no open record
    returns an id larger than every id in the log, and [get_open_attendance]
    then returns exactly the record that was written: that id, the clock-in
    time and its date as text, the notes and the source, and no clock-out. *)
Theorem clock_in_then_open (d : database) (now : datetime) (e : Z) (t : option datetime)
    (notes : option string) (source : string) :
  count_open e d = 0%nat ->
  exists id d',
    clock_in now e t notes source (mkworld d []) = (Return (Some id), mkworld d' [])
    /\ (forall r, In r (AttendanceLog d) -> al_id r < id)
    /\ get_open_attendance e (mkworld d' [])
       = (Return (Some (mkAttendance id e (strftime_datetime (effective_time now t)) None
                          (strftime_date (effective_time now t)) notes source)),
          mkworld d' [])
    /\ count_open e d' = 1%nat.
Proof.
  intro H0.
  exists (autoincrement al_id (AttendanceLog d) (seq_AttendanceLog d)).
  exists (with_AttendanceLog
            (AttendanceLog d
             ++ [mkAttendance (autoincrement al_id (AttendanceLog d) (seq_AttendanceLog d)) e
                   (strftime_datetime (effective_time now t)) None
                   (strftime_date (effective_time now t)) notes source])
            (autoincrement al_id (AttendanceLog d) (seq_AttendanceLog d)) d).
  split; [reflexivity|]. split; [|split].
  - intros r Hr. apply autoincrement_fresh. exact Hr.
  - rewrite get_open_attendance_run. f_equal. f_equal.
    unfold select_open_attendance. cbn [AttendanceLog with_AttendanceLog].
    rewrite filter_app, (count_open_zero_filter e d H0). cbn.
    unfold is_open_for. cbn. rewrite Z.eqb_refl. reflexivity.
  - rewrite count_open_after_insert, H0, Z.eqb_refl. reflexivity.
Qed.

Lemma clock_in_then_open_witness :
  exists id d',
    clock_in nine_o_clock 1 None (Some "Morning") "manual" (mkworld empty_db [])
    = (Return (Some id), mkworld d' [])
    /\ (forall r, In r (AttendanceLog empty_db) -> al_id r < id)
    /\ get_open_attendance 1 (mkworld d' [])
       = (Return (Some (mkAttendance id 1 "2024-06-01 09:00:00" None "2024-06-01"
                          (Some "Morning") "manual")),
          mkworld d' [])
    /\ count_open 1 d' = 1%nat.
Proof.
  exact (clock_in_then_open empty_db nine_o_clock 1 None (Some "Morning") "manual" eq_refl).
Defined.

Lemma map_untouched {A} (id : A -> Z) (g : A -> A) (k : Z) (l : list A) :
  ~ In k (map id l) -> map (fun r => if id r =? k then g r else r) l = l.
Proof.
  induction l as [|z l IH]; simpl; [reflexivity|].
  intro H. destruct (id z =? k) eqn:E.
  - exfalso. apply H. left. lia.
  - f_equal. apply IH. tauto.
Qed.

(** Rewriting the one row with a given id changes the count of a predicate
    by what it does to that row. *)
Lemma count_after_rewrite {A} (id : A -> Z) (g : A -> A) (p : A -> bool) (x : A) (l : list A) :
  NoDup (map id l) -> In x l ->
  (List.length (filter p (map (fun r => if Z.eqb (id r) (id x) then g r else r) l))
   + (if p x then 1 else 0)
   = List.length (filter p l) + (if p (g x) then 1 else 0))%nat.
Proof.
  induction l as [|z l IH]; simpl; [contradiction|].
  intros Hnd Hin. inversion Hnd as [|? ? Hz Hnd']; subst.
  destruct Hin as [-> | Hin].
  - rewrite Z.eqb_refl, (map_untouched id g (id x) l Hz).
    destruct (p x), (p (g x)); simpl; lia.
  - assert (E : (id z =? id x) = false).
    { apply Z.eqb_neq. intro E. apply Hz. rewrite E. apply in_map. exact Hin. }
    rewrite E. specialize (IH Hnd' Hin). destruct (p z); simpl; lia.
Qed.

(** X3. On working storage, with distinct record ids, a clock-out at or
    after the clock-in of the employee's open record returns [True], writes
    the clock-out time and the merged notes into that record and leaves every
    other record as it was: the employee has one open record fewer, every
    other employee as many as before. *)
Theorem clock_out_closes (d : database) (now : datetime) (e : Z) (t : option datetime)
    (notes : option string) (log : AttendanceLogRow) (cin : datetime) :
  NoDup (map al_id (AttendanceLog d)) ->
  select_open_attendance e d = Some log ->
  strptime_datetime (clock_in_time log) = Some cin ->
  dt_lt (effective_time now t) cin = false ->
  exists d',
    clock_out now e t notes (mkworld d []) = (Return true, mkworld d' [])
    /\ In (closed_record (strftime_datetime (effective_time now t))
             (merge_notes (al_notes log) notes) log) (AttendanceLog d')
    /\ (forall r, In r (AttendanceLog d) -> r <> log -> In r (AttendanceLog d'))
    /\ List.length (AttendanceLog d') = List.length (AttendanceLog d)
    /\ count_open e d = S (count_open e d')
    /\ (forall e', e' <> e -> count_open e' d' = count_open e' d).
Proof.
  intros Hnd Hopen Hcin Hlt.
  pose proof (select_open_some e d log Hopen) as (Hin & He & Hout).
  eexists. split.
  { unfold clock_out, sbind. rewrite clock_out_trace_run, Hopen, Hcin, Hlt. reflexivity. }
  unfold after, update_attendance. cbv zeta. cbn [AttendanceLog with_AttendanceLog].
  split; [|split; [|split; [|split]]].
  - apply in_map_iff. exists log. rewrite Z.eqb_refl. auto.
  - intros r Hr Hne. apply in_map_iff. exists r. split; [|exact Hr].
    destruct (al_id r =? al_id log) eqn:E; [|reflexivity].
    exfalso. apply Hne. apply (same_id_same_row al_id (AttendanceLog d)); [assumption..|lia].
  - apply length_map.
  - unfold count_open. cbn [AttendanceLog with_AttendanceLog].
    pose proof (count_after_rewrite al_id
                  (closed_record (strftime_datetime (effective_time now t))
                     (merge_notes (al_notes log) notes))
                  (is_open_for e) log (AttendanceLog d) Hnd Hin) as Hc.
    assert (Hp : is_open_for e log = true)
      by (unfold is_open_for; rewrite Hout, He, Z.eqb_refl; reflexivity).
    assert (Hg : is_open_for e (closed_record (strftime_datetime (effective_time now t))
                                  (merge_notes (al_notes log) notes) log) = false)
      by (unfold is_open_for, closed_record; cbn; apply andb_false_r).
    rewrite Hp, Hg in Hc. unfold closed_record in Hc. lia.
  - intros e' Hne. unfold count_open. cbn [AttendanceLog with_AttendanceLog].
    pose proof (count_after_rewrite al_id
                  (closed_record (strftime_datetime (effective_time now t))
                     (merge_notes (al_notes log) notes))
                  (is_open_for e') log (AttendanceLog d) Hnd Hin) as Hc.
    assert (Hp : is_open_for e' log = false).
    { unfold is_open_for. rewrite He.
      replace (e =? e') with false by (symmetry; apply Z.eqb_neq; congruence). reflexivity. }
    assert (Hg : is_open_for e' (closed_record (strftime_datetime (effective_time now t))
                                   (merge_notes (al_notes log) notes) log) = false)
      by (unfold is_open_for, closed_record; cbn; apply andb_false_r).
    rewrite Hp, Hg in Hc. unfold closed_record in Hc. lia.
Qed.

Lemma clock_out_closes_witness :
  exists d',
    clock_out half_past_five 1 None (Some "Done") (mkworld open_since_nine [])
    = (Return true, mkworld d' [])
    /\ In (mkAttendance 1 1 "2024-06-01 09:00:00" (Some "2024-06-01 17:30:00") "2024-06-01"
             (Some "Clock-out: Done") "manual") (AttendanceLog d')
    /\ count_open 1 open_since_nine = S (count_open 1 d').
Proof.
  destruct (clock_out_closes open_since_nine half_past_five 1 None (Some "Done")
              (mkAttendance 1 1 "2024-06-01 09:00:00" None "2024-06-01" None "manual")
              nine_o_clock)
    as (d' & Hrun & Hin & _ & _ & Hcount & _).
  - repeat constructor. simpl. tauto.
  - reflexivity.
  - reflexivity.
  - reflexivity.
  - exists d'. auto.
Defined.

(** X4. On working storage [get_open_attendance] returns [None] exactly
    when the employee has no record without a clock-out time; otherwise it
    returns such a record of that employee, and one whose clock-in time is
    not before that of any other open record of the employee. *)
Theorem get_open_attendance_latest (d : database) (e : Z) :
  exists found,
    get_open_attendance e (mkworld d []) = (Return found, mkworld d [])
    /\ (found = None <-> count_open e d = 0%nat)
    /\ (forall log, found = Some log ->
          In log (AttendanceLog d) /\ al_employee_id log = e /\ clock_out_time log = None
          /\ forall r, In r (AttendanceLog d) -> al_employee_id r = e ->
                       clock_out_time r = None ->
                       String.leb (clock_in_time r) (clock_in_time log) = true).
Proof.
  exists (select_open_attendance e d). split; [reflexivity|]. split; [apply select_open_none|].
  intros log Hlog. destruct (select_open_some e d log Hlog) as (Hin & He & Hout).
  split; [exact Hin|]. split; [exact He|]. split; [exact Hout|].
  intros r Hr Hre Hro.
  pose proof (order_by_hd_first
                (fun a b : AttendanceLogRow => String.compare (clock_in_time b) (clock_in_time a))
                (filter (is_open_for e) (AttendanceLog d)) log r
                (ordering_flip _ (ordering_by_key clock_in_time)) Hlog) as H.
  unfold String.leb.
  destruct (String.compare (clock_in_time r) (clock_in_time log)); try reflexivity.
  exfalso. apply H; [|reflexivity].
  apply filter_In. split; [exact Hr|]. unfold is_open_for. rewrite Hre, Hro, Z.eqb_refl. reflexivity.
Qed.

(** ** Listing attendance records *)

Lemma attendance_where_iff (emp : option Z) (s e : option date) (r : AttendanceLogRow) :
  attendance_where emp (option_map date_strftime s) (option_map date_strftime e) r = true
  <-> attendance_matches emp s e r.
Proof.
  unfold attendance_where, attendance_matches. rewrite !andb_true_iff.
  destruct emp as [k|], s as [s|], e as [e|]; cbn [option_map]; rewrite ?Z.eqb_eq;
    intuition (try congruence).
  all: try match goal with H : forall _, Some _ = Some _ -> _ |- _ => apply H; reflexivity end.
  all: try match goal with H : Some _ = Some _ |- _ => injection H as <- end; auto.
Qed.

Lemma latest_first_ordering : ordering latest_first_cmp.
Proof.
  unfold latest_first_cmp.
  apply (ordering_then_by
           (fun a b : AttendanceLogRow => String.compare (attendance_date b) (attendance_date a))
           (fun a b : AttendanceLogRow => String.compare (clock_in_time b) (clock_in_time a))).
  - apply (ordering_flip _ (ordering_by_key attendance_date)).
  - apply (ordering_flip _ (ordering_by_key clock_in_time)).
Qed.

(** X5. On working storage [get_attendance_records] returns the records
    that pass the filters that were given (employee, first date, last date,
    both dates inclusive and compared as text), each as often as the log holds
    it, with later dates first and within a date later clock-ins first.  When
    the query fails it returns the empty list. *)
Theorem attendance_records_listing (d : database) (employee_id : option Z)
    (start_date_obj end_date_obj : option date) :
  exists rows,
    get_attendance_records employee_id start_date_obj end_date_obj (mkworld d [])
    = (Return rows, mkworld d [])
    /\ (forall r, In r rows
                  <-> In r (AttendanceLog d)
                      /\ attendance_matches employee_id start_date_obj end_date_obj r)
    /\ List.length rows
       = List.length (filter (attendance_where employee_id
                                (option_map date_strftime start_date_obj)
                                (option_map date_strftime end_date_obj)) (AttendanceLog d))
    /\ sorted_by latest_first_cmp rows
    /\ (forall err,
          get_attendance_records employee_id start_date_obj end_date_obj (statement_fails err d)
          = (Return [], mkworld d [])).
Proof.
  exists (select_attendance_records employee_id (option_map date_strftime start_date_obj)
            (option_map date_strftime end_date_obj) d).
  split; [reflexivity|]. split; [|split; [|split]].
  - intro r. unfold select_attendance_records.
    rewrite order_by_In, filter_In, attendance_where_iff. tauto.
  - apply order_by_length.
  - apply (order_by_sorted latest_first_cmp), latest_first_ordering.
  - intro err. reflexivity.
Qed.

(** With no filter at all, the listing holds every record of the log. *)
Example every_record_listed :
  fst (get_attendance_records None None None in_out_in)
  = Return [mkAttendance 2 1 "2024-06-01 17:30:00" None "2024-06-01" None "manual";
            mkAttendance 1 1 "2024-06-01 08:00:00" (Some "2024-06-01 09:00:00") "2024-06-01"
              (Some ("Morning" ++ String newline "Clock-out: Lunch")%string) "manual"].
Proof. reflexivity. Qed.

(** ** The ledger: reading back, repeating, and other keys *)

Lemma get_leave_balance_run (d : database) (e lt y : Z) :
  get_leave_balance e lt y (mkworld d []) = (Return (starting_balance e lt y d), mkworld d []).
Proof.
  unfold get_leave_balance, starting_balance, default_or_zero. run_service.
  destruct (select_balance e lt y d); [reflexivity|]. run_service.
  destruct (select_leave_type lt d) as [t|]; [destruct (default_balance t)|]; reflexivity.
Qed.

(** [update_leave_balance] on working storage, in full. *)
Lemma update_leave_balance_run (d : database) (e lt y : Z) (amount : float) (init : bool) :
  update_leave_balance e lt y amount init (mkworld d [])
  = if is_nan (new_balance_of e lt y amount init d)
    then (Return (starting_balance e lt y d), mkworld d [])
    else
      (Return (new_balance_of e lt y amount init d),
       mkworld
         (match select_balance e lt y d with
          | Some row =>
            with_LeaveBalances
              (map (fun r => if lb_id r =? lb_id row
                             then with_balance (new_balance_of e lt y amount init d) r
                             else r) (LeaveBalances d))
              (seq_LeaveBalances d) d
          | None =>
            with_LeaveBalances
              (LeaveBalances d
               ++ [mkLeaveBalance (autoincrement lb_id (LeaveBalances d) (seq_LeaveBalances d))
                     e lt y (new_balance_of e lt y amount init d)])
              (autoincrement lb_id (LeaveBalances d) (seq_LeaveBalances d)) d
          end) []).
Proof.
  unfold new_balance_of, starting_balance.
  destruct (select_balance e lt y d) as [row|] eqn:Hrow.
  - destruct (is_nan (if init then amount else (balance row + amount)%float)) eqn:Hn.
    + unfold update_leave_balance. run_service. rewrite Hrow. run_service.
      unfold update_balance, bind_real. rewrite Hn. run_service.
      rewrite get_leave_balance_run. unfold starting_balance. rewrite Hrow. reflexivity.
    + unfold update_leave_balance. run_service. rewrite Hrow. run_service.
      unfold update_balance, bind_real. rewrite Hn. reflexivity.
  - destruct (is_nan (if init then amount else (default_or_zero lt d + amount)%float)) eqn:Hn.
    + unfold update_leave_balance. run_service. rewrite Hrow.
      destruct init; run_service; fold (default_or_zero lt d);
        unfold insert_balance, bind_real; rewrite Hn; run_service;
        rewrite get_leave_balance_run; unfold starting_balance; rewrite Hrow; reflexivity.
    + unfold update_leave_balance. run_service. rewrite Hrow.
      unfold select_balance in Hrow.
      destruct init; run_service; fold (default_or_zero lt d);
        unfold insert_balance, bind_real; rewrite Hn, (find_none_existsb _ _ Hrow);
        reflexivity.
Qed.

Lemma stored_after_update (d : database) (e lt y : Z) (amount : float) (init : bool) :
  is_nan (new_balance_of e lt y amount init d) = false ->
  stored_balance e lt y (ledger_after e lt y amount init d)
  = Some (new_balance_of e lt y amount init d).
Proof.
  intro Hn. unfold ledger_after. rewrite update_leave_balance_run, Hn. cbn [snd db].
  unfold stored_balance.
  destruct (select_balance e lt y d) as [row|] eqn:Hrow; unfold select_balance in *;
    cbn [LeaveBalances with_LeaveBalances].
  - rewrite find_map_stable.
    + rewrite Hrow. cbn [option_map]. rewrite Z.eqb_refl. reflexivity.
    + intro x. destruct (lb_id x =? lb_id row); reflexivity.
  - rewrite (find_app_none _ _ _ Hrow). unfold balance_key. cbn. rewrite !Z.eqb_refl.
    reflexivity.
Qed.

(** X6. On working storage, whatever number [update_leave_balance] returns
    is what [get_leave_balance] reads next for the same employee, leave type
    and year: the amount itself after an initial set, the previous balance
    (stored one, else default, else 0.0) plus the amount otherwise. *)
Theorem update_then_get (d : database) (e lt y : Z) (amount : float) (init : bool) :
  is_nan (new_balance_of e lt y amount init d) = false ->
  exists d',
    update_leave_balance e lt y amount init (mkworld d [])
    = (Return (new_balance_of e lt y amount init d), mkworld d' [])
    /\ get_leave_balance e lt y (mkworld d' [])
       = (Return (new_balance_of e lt y amount init d), mkworld d' []).
Proof.
  intro Hn. exists (ledger_after e lt y amount init d). split.
  - unfold ledger_after. rewrite update_leave_balance_run, Hn. reflexivity.
  - rewrite get_leave_balance_run. f_equal. f_equal.
    apply starting_balance_stored, stored_after_update, Hn.
Qed.

Lemma update_then_get_witness :
  exists d',
    update_leave_balance 1 1 2024 (-5)%float false (mkworld ledger_default [])
    = (Return 15%float, mkworld d' [])
    /\ get_leave_balance 1 1 2024 (mkworld d' []) = (Return 15%float, mkworld d' []).
Proof.
  exact (update_then_get ledger_default 1 1 2024 (-5)%float false eq_refl).
Defined.


Lemma map_twice_with_balance (v : float) (i : Z) (rows : list LeaveBalanceRow) :
  map (fun r => if lb_id r =? i then with_balance v r else r)
    (map (fun r => if lb_id r =? i then with_balance v r else r) rows)
  = map (fun r => if lb_id r =? i then with_balance v r else r) rows.
Proof.
  rewrite map_map. apply map_ext. intro r.
  destruct (lb_id r =? i) eqn:E; [|rewrite E; reflexivity].
  cbn [with_balance lb_id]. rewrite E. reflexivity.
Qed.

(** X7. Setting an initial balance is idempotent: on working storage a
    second [update_leave_balance(..., is_initial_balance=True)] with the same
    arguments returns the same number and leaves the database exactly as the
    first one left it (no second row, no new id). *)
Theorem set_initial_balance_idempotent (d : database) (e lt y : Z) (amount : float) :
  is_nan amount = false ->
  update_leave_balance e lt y amount true (mkworld (ledger_after e lt y amount true d) [])
  = (Return amount, mkworld (ledger_after e lt y amount true d) []).
Proof.
  intro Hn. rewrite update_leave_balance_run. unfold new_balance_of. rewrite Hn.
  f_equal. f_equal.
  unfold ledger_after. rewrite update_leave_balance_run. unfold new_balance_of.
  rewrite Hn. cbn [snd db].
  destruct (select_balance e lt y d) as [row|] eqn:Hrow; unfold select_balance in *.
  - cbn [LeaveBalances with_LeaveBalances seq_LeaveBalances].
    rewrite find_map_stable by (intro x; destruct (lb_id x =? lb_id row); reflexivity).
    rewrite Hrow. cbn [option_map]. rewrite Z.eqb_refl. cbn [with_balance lb_id].
    rewrite map_twice_with_balance. destruct d; reflexivity.
  - cbn [LeaveBalances with_LeaveBalances seq_LeaveBalances].
    rewrite (find_app_none _ _ _ Hrow). unfold balance_key. cbn [lb_employee_id lb_leave_type_id lb_year].
    rewrite !Z.eqb_refl. cbn [andb find lb_id].
    rewrite map_app. cbn [map lb_id]. rewrite Z.eqb_refl. cbn [with_balance lb_id lb_employee_id lb_leave_type_id lb_year].
    rewrite map_untouched by apply autoincrement_not_in.
    destruct d; reflexivity.
Qed.

Lemma set_initial_balance_idempotent_witness :
  update_leave_balance 1 1 2024 20%float true
    (mkworld (ledger_after 1 1 2024 20%float true ledger_default) [])
  = (Return 20%float, mkworld (ledger_after 1 1 2024 20%float true ledger_default) []).
Proof.
  exact (set_initial_balance_idempotent ledger_default 1 1 2024 20%float eq_refl).
Defined.


Lemma balance_key_iff (e lt y : Z) (r : LeaveBalanceRow) :
  balance_key e lt y r = true <-> balance_key_of r = (e, lt, y).
Proof.
  unfold balance_key, balance_key_of. rewrite !andb_true_iff, !Z.eqb_eq.
  split; [intros [[-> ->] ->]; reflexivity|intro H; inversion H; auto].
Qed.

Lemma find_app_some {A} (p : A -> bool) (l m : list A) (r : A) :
  find p l = Some r -> find p (l ++ m) = Some r.
Proof.
  induction l as [|z l IH]; simpl; [discriminate|].
  destruct (p z); [auto|exact IH].
Qed.

Lemma find_map_elsewhere {A} (p : A -> bool) (id : A -> Z) (g : A -> A) (i : Z) (l : list A) :
  (forall x, p (g x) = p x) ->
  (forall x, In x l -> p x = true -> id x <> i) ->
  find p (map (fun r => if id r =? i then g r else r) l) = find p l.
Proof.
  intros Hp Hi. induction l as [|z l IH]; simpl; [reflexivity|].
  assert (Hz : p (if id z =? i then g z else z) = p z)
    by (destruct (id z =? i); [apply Hp|reflexivity]).
  rewrite Hz. destruct (p z) eqn:E.
  - specialize (Hi z (or_introl eq_refl) E). apply Z.eqb_neq in Hi. rewrite Hi. reflexivity.
  - apply IH. intros x Hx. apply Hi. right. exact Hx.
Qed.

(** X8. [update_leave_balance] touches one key only. If ids and
    (employee, leave type, year) keys of [LeaveBalances] are unique, as the
    schema requires, they are still unique afterwards, the balance stored
    under every other key is unchanged, and so are the leave types; this
    holds for every amount, including one the storage refuses. *)
Theorem update_leave_balance_frame (d : database) (e lt y : Z) (amount : float) (init : bool) :
  ledger_well_formed d ->
  ledger_well_formed (ledger_after e lt y amount init d)
  /\ LeaveTypes (ledger_after e lt y amount init d) = LeaveTypes d
  /\ forall e' lt' y', (e', lt', y') <> (e, lt, y) ->
       stored_balance e' lt' y' (ledger_after e lt y amount init d)
       = stored_balance e' lt' y' d.
Proof.
  intros [Hid Hkey]. unfold ledger_after. rewrite update_leave_balance_run.
  destruct (is_nan _); cbn [snd db]; [split; [split; assumption|split; reflexivity]|].
  set (v := new_balance_of e lt y amount init d).
  destruct (select_balance e lt y d) as [row|] eqn:Hrow; unfold select_balance in Hrow.
  - apply find_some in Hrow. destruct Hrow as [Hin Hk]. apply balance_key_iff in Hk.
    split; [split|split; [reflexivity|]];
      unfold stored_balance, select_balance; cbn [LeaveBalances with_LeaveBalances].
    + rewrite map_map.
      rewrite (map_ext _ lb_id); [exact Hid|].
      intro r. destruct (lb_id r =? lb_id row); reflexivity.
    + rewrite map_map.
      rewrite (map_ext _ balance_key_of); [exact Hkey|].
      intro r. destruct (lb_id r =? lb_id row); reflexivity.
    + intros e' lt' y' Hne. rewrite find_map_elsewhere; [reflexivity|reflexivity|].
      intros x Hx Hp E. apply balance_key_iff in Hp.
      apply (same_id_same_row lb_id _ x row Hid Hx Hin) in E. subst x. congruence.
  - pose proof (proj1 (find_none_iff _ _) Hrow) as Hnone.
    split; [split|split; [reflexivity|]];
      unfold stored_balance, select_balance; cbn [LeaveBalances with_LeaveBalances].
    + rewrite map_app. apply NoDup_snoc; [exact Hid|]. apply autoincrement_not_in.
    + rewrite map_app. apply NoDup_snoc; [exact Hkey|]. cbn [map balance_key_of
        lb_employee_id lb_leave_type_id lb_year].
      intro H. apply in_map_iff in H. destruct H as (r & Hr & Hin).
      apply (proj2 (balance_key_iff e lt y r)) in Hr.
      rewrite (Hnone r Hin) in Hr. discriminate.
    + intros e' lt' y' Hne.
      destruct (find (balance_key e' lt' y') (LeaveBalances d)) as [r|] eqn:Hf.
      * rewrite (find_app_some _ _ _ _ Hf). reflexivity.
      * rewrite (find_app_none _ _ _ Hf).
        destruct (balance_key e' lt' y' _) eqn:Hp; [|reflexivity].
        apply balance_key_iff in Hp. unfold balance_key_of in Hp.
        cbn [lb_employee_id lb_leave_type_id lb_year] in Hp. symmetry in Hp.
        contradiction.
Qed.


Lemma update_leave_balance_frame_witness :
  ledger_well_formed (ledger_after 1 1 2024 (-5)%float false two_balances)
  /\ LeaveTypes (ledger_after 1 1 2024 (-5)%float false two_balances) = LeaveTypes two_balances
  /\ forall e' lt' y', (e', lt', y') <> (1, 1, 2024) ->
       stored_balance e' lt' y' (ledger_after 1 1 2024 (-5)%float false two_balances)
       = stored_balance e' lt' y' two_balances.
Proof.
  apply (update_leave_balance_frame two_balances 1 1 2024 (-5)%float false).
  split; repeat constructor; simpl; intuition discriminate.
Defined.

Ltac storage_cases fs :=
  destruct fs as [|[?|] [|[?|] [|[?|] [|[?|] [|[?|] fs]]]]];
  cbn [faults db tl pending file work fst snd].

(** X9. [update_leave_balance] is all or nothing under every behaviour of
    the storage: whichever of connecting, reading, writing or committing
    fails, the database afterwards is either unchanged or exactly what the
    same call leaves on working storage. *)
Theorem update_leave_balance_atomic (w : world) (e lt y : Z) (amount : float) (init : bool) :
  db (snd (update_leave_balance e lt y amount init w)) = db w
  \/ db (snd (update_leave_balance e lt y amount init w))
     = ledger_after e lt y amount init (db w).
Proof.
  destruct w as [d fs]. cbn [db].
  unfold ledger_after. rewrite update_leave_balance_run.
  unfold new_balance_of, starting_balance, default_or_zero.
  unfold update_leave_balance, update_balance, insert_balance, bind_real. run_service.
  destruct (select_balance e lt y d) as [row|] eqn:Hrow; destruct init;
    match goal with |- context [is_nan ?x] => destruct (is_nan x) eqn:Hn end.
  all: try (assert (Hex : existsb (balance_key e lt y) (LeaveBalances d) = false)
              by (apply find_none_existsb; exact Hrow)).
  all: storage_cases fs;
    repeat (rewrite ?Hrow, ?Hex, ?Hn; cbn [faults db tl pending file work fst snd]);
    first [left; reflexivity | left; apply get_leave_balance_readonly | right; reflexivity].
Qed.


(** X10. A refused amount changes nothing: when the new balance is not a
    number, SQLite would store NULL in a NOT NULL column, the statement
    fails, and [update_leave_balance] returns the balance in force (stored,
    else default, else 0.0) with the database as it was. *)
Theorem update_leave_balance_refused (d : database) (e lt y : Z) (amount : float)
    (init : bool) :
  is_nan (new_balance_of e lt y amount init d) = true ->
  update_leave_balance e lt y amount init (mkworld d [])
  = (Return (starting_balance e lt y d), mkworld d []).
Proof.
  intro Hn. rewrite update_leave_balance_run, Hn. reflexivity.
Qed.

Lemma update_leave_balance_refused_witness :
  update_leave_balance 1 1 2024 nan false (mkworld ledger_default [])
  = (Return 20%float, mkworld ledger_default []).
Proof.
  exact (update_leave_balance_refused ledger_default 1 1 2024 nan false eq_refl).
Defined.

(** ** Leave types *)

Lemma type_name_taken_iff (name : string) (d : database) :
  existsb (fun r => String.eqb (type_name r) name) (LeaveTypes d) = true
  <-> type_name_taken name d.
Proof.
  unfold type_name_taken. rewrite existsb_exists.
  split; intros (r & Hin & H); exists r; split; try exact Hin; apply String.eqb_eq; exact H.
Qed.

Lemma find_fresh_snoc {A} (id : A -> Z) (rows : list A) (x : A) :
  ~ In (id x) (map id rows) ->
  find (fun r => id r =? id x) (rows ++ [x]) = Some x.
Proof.
  intro H. rewrite find_app_none.
  - rewrite Z.eqb_refl. reflexivity.
  - apply find_none_iff. intros r Hr. apply Z.eqb_neq. intro E. apply H.
    rewrite <- E. apply in_map, Hr.
Qed.

(** X11. [add_leave_type] with a name some leave type already has returns
    [None] and changes nothing.  With a new name it returns an id larger
    than every id in the table, appends the type and leaves the balances
    alone; from then on [get_leave_balance] for that type answers, for every
    employee and year without a stored balance, the default the type was
    added with, and 0.0 when it was added with no default or one that is not
    a number. *)
Theorem add_leave_type_cases (seq : Z) (name : string) (dflt : option float) (d : database) :
  (type_name_taken name d ->
   add_leave_type seq name dflt (mkworld d []) = (Return None, mkworld d []))
  /\ (~ type_name_taken name d ->
      exists id d',
        add_leave_type seq name dflt (mkworld d []) = (Return (Some id), mkworld d' [])
        /\ (forall r, In r (LeaveTypes d) -> lt_id r < id)
        /\ LeaveTypes d' = LeaveTypes d ++ [mkLeaveType id name (bind_nullable_real dflt)]
        /\ LeaveBalances d' = LeaveBalances d
        /\ forall e y, stored_balance e id y d = None ->
             get_leave_balance e id y (mkworld d' [])
             = (Return (default_as_read dflt), mkworld d' [])).
Proof.
  split.
  - intro H. apply type_name_taken_iff in H.
    unfold add_leave_type, insert_leave_type. run_service. rewrite H. reflexivity.
  - intro H.
    assert (Hex : existsb (fun r => String.eqb (type_name r) name) (LeaveTypes d) = false).
    { destruct (existsb _ _) eqn:E; [|reflexivity].
      exfalso. apply H, type_name_taken_iff, E. }
    exists (autoincrement lt_id (LeaveTypes d) seq).
    exists (with_LeaveTypes
              (LeaveTypes d ++ [mkLeaveType (autoincrement lt_id (LeaveTypes d) seq) name
                                  (bind_nullable_real dflt)]) d).
    split; [|split; [|split; [|split]]].
    + unfold add_leave_type, insert_leave_type. run_service. rewrite Hex. reflexivity.
    + intros r Hr. apply autoincrement_fresh, Hr.
    + reflexivity.
    + reflexivity.
    + intros e y Hs. rewrite get_leave_balance_run. f_equal. f_equal.
      unfold starting_balance, stored_balance, select_balance in *.
      cbn [LeaveBalances with_LeaveTypes].
      destruct (find _ (LeaveBalances d)); [discriminate|].
      unfold default_or_zero, select_leave_type, default_as_read.
      cbn [LeaveTypes with_LeaveTypes].
      pose proof (find_fresh_snoc lt_id (LeaveTypes d)
                    (mkLeaveType (autoincrement lt_id (LeaveTypes d) seq) name
                       (bind_nullable_real dflt))
                    (autoincrement_not_in lt_id (LeaveTypes d) seq)) as Hf.
      cbn [lt_id] in Hf. rewrite Hf. reflexivity.
Qed.

Lemma by_type_name_ordering : ordering by_type_name_cmp.
Proof. apply (ordering_by_key type_name). Qed.

(** X12. [get_leave_types] returns every leave type exactly once, in
    ascending order of [type_name] (compared as SQLite compares TEXT); when
    the statement fails it returns the empty list. *)
Theorem leave_types_listing (d : database) (err : sqlite_error) :
  exists rows,
    get_leave_types (mkworld d []) = (Return rows, mkworld d [])
    /\ (forall r, In r rows <-> In r (LeaveTypes d))
    /\ List.length rows = List.length (LeaveTypes d)
    /\ sorted_by by_type_name_cmp rows
    /\ get_leave_types (statement_fails err d) = (Return [], mkworld d []).
Proof.
  exists (select_leave_types d). unfold select_leave_types.
  split; [reflexivity|]. split; [|split; [|split]].
  - intro r. apply order_by_In.
  - apply order_by_length.
  - apply (order_by_sorted by_type_name_cmp), by_type_name_ordering.
  - reflexivity.
Qed.


(** ** Leave requests *)

(** X13. A request filed with two well-formed dates, in whatever order,
    gets an id larger than every id in the table and is stored as Pending
    with no approver; [approve_leave_request] on that id then returns [True]
    and rewrites that row only: the earlier requests are as they were, and no
    leave balance is touched. *)
Theorem apply_then_approve (now : datetime) (e lt a : Z) (s f : date) (why : string)
    (d : database) :
  valid_date s -> valid_date f ->
  exists id d1 d2,
    apply_for_leave now e lt (date_strftime s) (date_strftime f) why (mkworld d [])
    = (Return (Some id), mkworld d1 [])
    /\ (forall r, In r (LeaveRequests d) -> lr_id r < id)
    /\ LeaveRequests d1
       = LeaveRequests d
         ++ [mkLeaveRequest id e lt (date_strftime s) (date_strftime f) why
               "Pending" None (strftime_datetime now)]
    /\ approve_leave_request id a (mkworld d1 []) = (Return true, mkworld d2 [])
    /\ LeaveRequests d2
       = LeaveRequests d
         ++ [mkLeaveRequest id e lt (date_strftime s) (date_strftime f) why
               "Approved" (Some a) (strftime_datetime now)]
    /\ LeaveBalances d2 = LeaveBalances d.
Proof.
  intros Hs Hf.
  set (id := autoincrement lr_id (LeaveRequests d) (seq_LeaveRequests d)).
  set (row := mkLeaveRequest id e lt (date_strftime s) (date_strftime f) why
                "Pending" None (strftime_datetime now)).
  set (d1 := with_LeaveRequests (LeaveRequests d ++ [row]) id d).
  assert (Hfind : select_request id d1 = Some row).
  { unfold select_request, d1. cbn [LeaveRequests with_LeaveRequests].
    pose proof (find_fresh_snoc lr_id (LeaveRequests d) row
                  (autoincrement_not_in lr_id (LeaveRequests d) (seq_LeaveRequests d))) as H.
    exact H. }
  exists id, d1.
  exists (with_LeaveRequests
            (LeaveRequests d ++ [decided "Approved" a row]) id d).
  split; [|split; [|split; [|split; [|split]]]].
  - unfold apply_for_leave. rewrite !strptime_date_strftime by assumption.
    unfold insert_request. reflexivity.
  - intros r Hr. apply autoincrement_fresh, Hr.
  - reflexivity.
  - unfold approve_leave_request, _update_leave_request_status. run_service.
    rewrite Hfind. unfold update_request. run_service.
    unfold d1 at 1 2. cbn [LeaveRequests with_LeaveRequests seq_LeaveRequests].
    rewrite filter_app, map_app, length_app.
    cbn [filter map lr_id row]. rewrite Z.eqb_refl. cbn [List.length].
    rewrite map_untouched by apply autoincrement_not_in.
    replace (0 <? _) with true by (symmetry; apply Z.ltb_lt; lia).
    unfold d1. reflexivity.
  - reflexivity.
  - reflexivity.
Qed.

Lemma apply_then_approve_witness :
  exists id d1 d2,
    apply_for_leave eight_o_clock 1 1 "2024-06-05" "2024-06-01" "Trip" (mkworld small_office [])
    = (Return (Some id), mkworld d1 [])
    /\ (forall r, In r (LeaveRequests small_office) -> lr_id r < id)
    /\ LeaveRequests d1
       = LeaveRequests small_office
         ++ [mkLeaveRequest id 1 1 "2024-06-05" "2024-06-01" "Trip"
               "Pending" None (strftime_datetime eight_o_clock)]
    /\ approve_leave_request id 7 (mkworld d1 []) = (Return true, mkworld d2 [])
    /\ LeaveRequests d2
       = LeaveRequests small_office
         ++ [mkLeaveRequest id 1 1 "2024-06-05" "2024-06-01" "Trip"
               "Approved" (Some 7) (strftime_datetime eight_o_clock)]
    /\ LeaveBalances d2 = LeaveBalances small_office.
Proof.
  apply (apply_then_approve eight_o_clock 1 1 7 (mkdate 2024 6 5) (mkdate 2024 6 1) "Trip"
           small_office); vm_compute; intuition discriminate.
Defined.


Lemma requests_where_iff (employee_id : option Z) (status_filter : option string)
    (lr : LeaveRequestRow) :
  requests_where employee_id status_filter lr = true
  <-> request_matches employee_id status_filter lr.
Proof.
  unfold requests_where, request_matches. rewrite andb_true_iff.
  destruct employee_id as [k|], status_filter as [s|];
    rewrite ?Z.eqb_eq, ?String.eqb_eq; split.
  all: intros [H1 H2]; split; try reflexivity; auto.
  all: intros ? E; congruence.
Qed.

Lemma approvers_of_iff (lr : LeaveRequestRow) (d : database) (u : option UserRow) :
  In u (approvers_of lr d) <-> approver_joined lr u d.
Proof.
  unfold approvers_of, approver_joined.
  set (p := fun u0 : UserRow => match approver_id lr with
                               | Some a => a =? u_id u0
                               | None => false
                               end).
  assert (Hp : forall user, p user = true <-> approver_id lr = Some (u_id user)).
  { intro user. unfold p. destruct (approver_id lr) as [a|].
    - rewrite Z.eqb_eq. split; [intros ->; reflexivity|intro E; inversion E; reflexivity].
    - split; discriminate. }
  destruct (filter p (Users d)) as [|u0 us] eqn:E.
  - destruct u as [user|]; simpl.
    + split; [intros [H|[]]; discriminate|].
      intros [Hin Ha]. apply Hp in Ha.
      assert (Hf : In user (filter p (Users d))) by (apply filter_In; auto).
      rewrite E in Hf. destruct Hf.
    + split; [|auto]. intros _ user Hin Ha. apply Hp in Ha.
      assert (Hf : In user (filter p (Users d))) by (apply filter_In; auto).
      rewrite E in Hf. destruct Hf.
  - rewrite <- E. destruct u as [user|].
    + rewrite in_map_iff. split.
      * intros (x & Hx & Hin). inversion Hx; subst x. apply filter_In in Hin.
        destruct Hin as [Hin Ha]. apply Hp in Ha. auto.
      * intros [Hin Ha]. exists user. split; [reflexivity|]. apply filter_In.
        split; [exact Hin|]. apply Hp, Ha.
    + rewrite in_map_iff. split.
      * intros (x & Hx & _). discriminate.
      * intro Hno. exfalso.
        assert (Hf : In u0 (filter p (Users d))) by (rewrite E; left; reflexivity).
        apply filter_In in Hf. destruct Hf as [Hin Ha]. apply Hp in Ha.
        exact (Hno u0 Hin Ha).
Qed.

Lemma joined_requests_iff (d : database) lr e lt u :
  In (lr, e, lt, u) (joined_requests d)
  <-> In lr (LeaveRequests d)
      /\ (In e (Employees d) /\ e_id e = lr_employee_id lr)
      /\ (In lt (LeaveTypes d) /\ lt_id lt = lr_leave_type_id lr)
      /\ approver_joined lr u d.
Proof.
  unfold joined_requests. rewrite in_flat_map. split.
  - intros (lr0 & Hlr & H). apply in_flat_map in H. destruct H as (e0 & He & H).
    apply in_flat_map in H. destruct H as (lt0 & Hlt & H).
    apply in_map_iff in H. destruct H as (u0 & Heq & Hu). inversion Heq; subst.
    apply filter_In in He, Hlt. destruct He as [He He'], Hlt as [Hlt Hlt'].
    apply Z.eqb_eq in He', Hlt'. apply approvers_of_iff in Hu. auto.
  - intros (Hlr & [He He'] & [Hlt Hlt'] & Hu). exists lr. split; [exact Hlr|].
    apply in_flat_map. exists e. split; [apply filter_In; split; [exact He|lia]|].
    apply in_flat_map. exists lt. split; [apply filter_In; split; [exact Hlt|lia]|].
    apply in_map. apply approvers_of_iff, Hu.
Qed.

Lemma sorted_by_map {A B} (f : A -> B) (cmp : B -> B -> comparison) (l : list A) :
  sorted_by (fun a b => cmp (f a) (f b)) l -> sorted_by cmp (map f l).
Proof.
  unfold sorted_by. induction 1 as [|a l Hs IH Hall]; simpl; constructor.
  - exact IH.
  - apply Forall_map. exact Hall.
Qed.

(** X14. [get_leave_requests] lists a row exactly for every leave request
    that passes the optional employee and status filters, joined to an
    employee with its [employee_id] and a leave type with its
    [leave_type_id], with the approver's user name or none when no user has
    its [approver_id]; a request whose employee or leave type is not in the
    tables is not listed.  The rows come newest [request_date] first, and
    when the statement fails the list is empty. *)
Theorem leave_requests_listing (employee_id : option Z) (status_filter : option string)
    (d : database) (err : sqlite_error) :
  exists rows,
    get_leave_requests employee_id status_filter (mkworld d []) = (Return rows, mkworld d [])
    /\ (forall v, In v rows <->
          exists lr e lt u,
            v = mkLeaveRequestView lr (first_name e ++ " " ++ last_name e)%string
                  (employee_code e) (type_name lt) (option_map username u)
            /\ In lr (LeaveRequests d)
            /\ (In e (Employees d) /\ e_id e = lr_employee_id lr)
            /\ (In lt (LeaveTypes d) /\ lt_id lt = lr_leave_type_id lr)
            /\ approver_joined lr u d
            /\ request_matches employee_id status_filter lr)
    /\ sorted_by newest_first_cmp rows
    /\ get_leave_requests employee_id status_filter (statement_fails err d)
       = (Return [], mkworld d []).
Proof.
  exists (map leave_request_view (select_leave_requests employee_id status_filter d)).
  split; [reflexivity|]. split; [|split].
  - intro v. unfold select_leave_requests. rewrite in_map_iff. split.
    + intros ([[[lr e] lt] u] & Hv & Hin). apply order_by_In, filter_In in Hin.
      destruct Hin as [Hj Hw]. apply joined_requests_iff in Hj.
      apply requests_where_iff in Hw. cbn [fst] in Hw.
      exists lr, e, lt, u. split; [symmetry; exact Hv|]. tauto.
    + intros (lr & e & lt & u & -> & Hlr & He & Hlt & Hu & Hw).
      exists (lr, e, lt, u). split; [reflexivity|].
      apply order_by_In, filter_In. split.
      * apply joined_requests_iff. tauto.
      * apply requests_where_iff. exact Hw.
  - apply sorted_by_map. unfold select_leave_requests.
    apply (order_by_sorted
             (fun a b : LeaveRequestRow * EmployeeRow * LeaveTypeRow * option UserRow =>
                String.compare (request_date (fst (fst (fst b))))
                               (request_date (fst (fst (fst a)))))).
    apply ordering_flip.
    apply (ordering_by_key
             (fun j : LeaveRequestRow * EmployeeRow * LeaveTypeRow * option UserRow =>
                request_date (fst (fst (fst j))))).
  - reflexivity.
Qed.


(** X15. A decision is all or nothing and stays inside [LeaveRequests]:
    under every behaviour of the storage, [_update_leave_request_status]
    (hence [approve_leave_request] and [reject_leave_request]) either leaves
    the database as it was or rewrites [status] and [approver_id] of the rows
    with the given id and nothing else.  It never adds or removes a request,
    and it never touches a leave balance: approving a leave deducts
    nothing. *)
Theorem decision_stays_in_requests (w : world) (id a : Z) (s : string) :
  (db (snd (_update_leave_request_status id s a w)) = db w
   \/ LeaveRequests (db (snd (_update_leave_request_status id s a w)))
      = map (fun r => if lr_id r =? id then decided s a r else r) (LeaveRequests (db w)))
  /\ List.length (LeaveRequests (db (snd (_update_leave_request_status id s a w))))
     = List.length (LeaveRequests (db w))
  /\ LeaveBalances (db (snd (_update_leave_request_status id s a w))) = LeaveBalances (db w)
  /\ LeaveTypes (db (snd (_update_leave_request_status id s a w))) = LeaveTypes (db w)
  /\ Employees (db (snd (_update_leave_request_status id s a w))) = Employees (db w)
  /\ AttendanceLog (db (snd (_update_leave_request_status id s a w))) = AttendanceLog (db w).
Proof.
  destruct w as [d fs]. cbn [db].
  unfold _update_leave_request_status, update_request. run_service.
  destruct (select_request id d) as [row|] eqn:Hrow.
  all: storage_cases fs;
    repeat (rewrite ?Hrow; cbn [faults db tl pending file work fst snd]).
  all: split; [first [left; reflexivity | right; reflexivity]|].
  all: cbn [LeaveRequests LeaveBalances LeaveTypes Employees AttendanceLog with_LeaveRequests];
    rewrite ?length_map; auto.
Qed.


(** ** Reports over a log the service wrote *)

Lemma a_working_day_reachable : reachable a_working_day.
Proof.
  unfold a_working_day.
  apply reachable_step; [apply reachable_step; [apply reachable_step|]|].
  - apply reachable_start. reflexivity.
  - apply (proj1 (valid_datetimeb_iff eight_o_clock)). reflexivity.
  - apply (proj1 (valid_datetimeb_iff nine_o_clock)). reflexivity.
  - apply (proj1 (valid_datetimeb_iff half_past_five)). reflexivity.
Defined.

Lemma daily_attendance_rows_In (s : string) (d : database) (al : AttendanceLogRow)
    (e : EmployeeRow) :
  In (al, e) (daily_attendance_rows s d)
  <-> In al (AttendanceLog d) /\ attendance_date al = s
      /\ In e (Employees d) /\ e_id e = al_employee_id al.
Proof.
  unfold daily_attendance_rows. rewrite order_by_In, in_flat_map. split.
  - intros (al0 & Hal & H). destruct (String.eqb (attendance_date al0) s) eqn:E; [|destruct H].
    apply in_map_iff in H. destruct H as (e0 & Heq & He). inversion Heq; subst.
    apply filter_In in He. destruct He as [He Hid]. apply String.eqb_eq in E.
    apply Z.eqb_eq in Hid. auto.
  - intros (Hal & Hd & He & Hid). exists al. split; [exact Hal|].
    rewrite (proj2 (String.eqb_eq _ _) Hd). apply in_map, filter_In.
    split; [exact He|apply Z.eqb_eq, Hid].
Qed.

(** X16. In every state the attendance service can reach, the daily
    attendance report of any date shows, for each row, the clock-in of a
    record of that date whose employee is in the directory, and as duration
    either "Open" (no clock-out yet) or the whole seconds from clock-in to
    clock-out as HH:MM:SS; it never shows "N/A", "Invalid (Out < In)" or
    "Error calculating". *)
Theorem daily_report_durations (w : world) (D : date) :
  reachable w ->
  exists rows,
    get_daily_attendance_report D (mkworld (db w) []) = (Return rows, mkworld (db w) [])
    /\ forall row, In row rows ->
         exists cin,
           valid_datetime cin
           /\ dr_clock_in_time row = strftime_datetime cin
           /\ strftime_date cin = date_strftime D
           /\ match dr_clock_out_time row with
              | None => dr_duration row = "Open"
              | Some out =>
                exists cout,
                  valid_datetime cout /\ out = strftime_datetime cout
                  /\ epoch_seconds cin <= epoch_seconds cout
                  /\ dr_duration row = hh_mm_ss (epoch_seconds cout - epoch_seconds cin)
              end.
Proof.
  intro Hr. apply well_formed_when_reachable in Hr. destruct Hr as [_ Hwf].
  eexists. split; [reflexivity|].
  intros row Hin. apply in_map_iff in Hin. destruct Hin as ([al e] & <- & Hin).
  apply daily_attendance_rows_In in Hin. destruct Hin as (Hal & Hd & _).
  destruct (Hwf al Hal) as (cin & Hv & Hci & Hdate & Hout).
  exists cin. cbn [fst snd dr_clock_in_time dr_clock_out_time dr_duration].
  split; [exact Hv|]. split; [exact Hci|]. split; [congruence|].
  destruct (clock_out_time al) as [out|].
  - destruct Hout as (cout & Hvo & -> & Hle). exists cout.
    split; [exact Hvo|]. split; [reflexivity|]. split; [exact Hle|].
    rewrite Hci, (calculate_duration_closed cin cout Hv Hvo).
    destruct (epoch_seconds cout <? epoch_seconds cin) eqn:E; [lia|reflexivity].
  - rewrite Hci. reflexivity.
Qed.

Lemma daily_report_durations_witness :
  exists rows,
    get_daily_attendance_report (mkdate 2024 6 1) (mkworld (db a_working_day) [])
    = (Return rows, mkworld (db a_working_day) [])
    /\ forall row, In row rows ->
         exists cin,
           valid_datetime cin
           /\ dr_clock_in_time row = strftime_datetime cin
           /\ strftime_date cin = date_strftime (mkdate 2024 6 1)
           /\ match dr_clock_out_time row with
              | None => dr_duration row = "Open"
              | Some out =>
                exists cout,
                  valid_datetime cout /\ out = strftime_datetime cout
                  /\ epoch_seconds cin <= epoch_seconds cout
                  /\ dr_duration row = hh_mm_ss (epoch_seconds cout - epoch_seconds cin)
              end.
Proof.
  exact (daily_report_durations a_working_day (mkdate 2024 6 1) a_working_day_reachable).
Defined.


Lemma sum_insert_by {A} (f : A -> Z) (le : A -> A -> bool) (x : A) (l : list A) :
  sum_Z (map f (insert_by le x l)) = f x + sum_Z (map f l).
Proof.
  unfold sum_Z. induction l as [|y l IH]; simpl; [reflexivity|].
  destruct (le x y); simpl; [reflexivity|]. rewrite IH. lia.
Qed.

Lemma sum_order_by {A} (f : A -> Z) (le : A -> A -> bool) (l : list A) :
  sum_Z (map f (order_by le l)) = sum_Z (map f l).
Proof.
  induction l as [|y l IH]; simpl; [reflexivity|].
  rewrite sum_insert_by, IH. reflexivity.
Qed.

Lemma fold_left_sum {A} (f : A -> Z) (l : list A) (a : Z) :
  fold_left (fun acc x => acc + f x) l a = a + sum_Z (map f l).
Proof.
  unfold sum_Z. revert a. induction l as [|y l IH]; intro a; simpl; [lia|].
  rewrite IH. lia.
Qed.

Lemma filter_map_commute {A B} (p : B -> bool) (g : A -> B) (l : list A) :
  filter p (map g l) = map g (filter (fun a => p (g a)) l).
Proof.
  induction l as [|y l IH]; simpl; [reflexivity|].
  destruct (p (g y)); simpl; rewrite IH; reflexivity.
Qed.

(** The inner join with a directory that lists the employee once neither
    drops nor repeats a record. *)
Lemma join_listed_once {A B} (c : A -> bool) (p : A -> B -> bool) (E : list B) (L : list A) :
  (forall al, c al = true -> exists emp, filter (p al) E = [emp]) ->
  flat_map (fun al => if c al then map (fun _ => al) (filter (p al) E) else []) L
  = filter c L.
Proof.
  intro H. induction L as [|al L IH]; simpl; [reflexivity|].
  rewrite IH. destruct (c al) eqn:Ec; [|reflexivity].
  destruct (H al Ec) as (emp & ->). reflexivity.
Qed.

(** The inner join with a directory that does not list the employee drops
    every record. *)
Lemma join_not_listed {A B} (c : A -> bool) (p : A -> B -> bool) (E : list B) (L : list A) :
  (forall al, c al = true -> filter (p al) E = []) ->
  flat_map (fun al => if c al then map (fun _ => al) (filter (p al) E) else []) L = [].
Proof.
  intro H. induction L as [|al L IH]; simpl; [reflexivity|].
  rewrite IH. destruct (c al) eqn:Ec; [|reflexivity]. rewrite (H al Ec). reflexivity.
Qed.

Lemma session_seconds_record (x : session) :
  valid_session x -> session_seconds (record_of x) = worked x.
Proof.
  intros [Hin Hout]. unfold session_seconds, worked, record_of.
  cbn [clock_in_time clock_out_time]. rewrite strftime_truthy.
  destruct (s_out x) as [out|]; [|reflexivity].
  destruct Hout as [Hvo Hle]. cbn [option_map]. rewrite strftime_truthy. cbn [andb].
  rewrite (strptime_strftime _ Hin), (strptime_strftime out Hvo).
  rewrite (dt_lt_epoch _ _ Hin Hvo), total_seconds_whole.
  destruct (epoch_seconds (s_in x) <? epoch_seconds out) eqn:E; [reflexivity|].
  apply Z.ltb_ge in E. lia.
Qed.

Lemma worked_nonneg (x : session) : valid_session x -> 0 <= worked x.
Proof.
  intros [_ H]. unfold worked. destruct (s_out x); [lia|lia].
Qed.

Lemma valid_date_of (t : datetime) : valid_datetime t -> valid_date (date_of t).
Proof. unfold valid_datetime, valid_date, date_of. cbn. tauto. Qed.

Lemma summary_where_record (e : Z) (first last : date) (x : session) :
  valid_date first -> valid_date last -> valid_session x ->
  (al_employee_id (record_of x) =? e)
  && String.leb (date_strftime first) (attendance_date (record_of x))
  && String.leb (attendance_date (record_of x)) (date_strftime last)
  = in_period e first last x.
Proof.
  intros Hf Hl [Hin _]. unfold in_period, record_of. cbn [al_employee_id attendance_date].
  change (strftime_date (s_in x)) with (date_strftime (date_of (s_in x))).
  rewrite !leb_date_strftime by (try assumption; apply valid_date_of, Hin).
  reflexivity.
Qed.

Lemma date_strftime_inj (a b : date) :
  valid_date a -> valid_date b -> date_strftime a = date_strftime b -> a = b.
Proof.
  intros Ha Hb E. pose proof (compare_date_strftime a b Ha Hb) as H.
  rewrite E, string_compare_refl in H. symmetry in H. unfold date_cmp, lex in H.
  destruct (d_year a ?= d_year b) eqn:Ey; try discriminate.
  destruct (d_month a ?= d_month b) eqn:Em; try discriminate.
  apply Z.compare_eq in Ey, Em, H. destruct a, b; cbn in *. congruence.
Qed.

Lemma nodup_length_inj {A B} (decA : forall a b : A, {a = b} + {a <> b})
    (decB : forall a b : B, {a = b} + {a <> b}) (h : A -> B) (l : list A) :
  (forall a b, In a l -> In b l -> h a = h b -> a = b) ->
  List.length (nodup decB (map h l)) = List.length (nodup decA l).
Proof.
  induction l as [|x l IH]; intro Hinj; simpl; [reflexivity|].
  assert (IH' : List.length (nodup decB (map h l)) = List.length (nodup decA l)).
  { apply IH. intros a b Ha Hb. apply Hinj; right; assumption. }
  destruct (in_dec decB (h x) (map h l)) as [Hi|Hi], (in_dec decA x l) as [Hj|Hj];
    simpl; try (rewrite IH'; reflexivity).
  - exfalso. apply in_map_iff in Hi. destruct Hi as (y & Hy & Hin).
    apply Hj. rewrite (Hinj x y); [exact Hin|left; reflexivity|right; exact Hin|auto].
  - exfalso. apply Hi, in_map, Hj.
Qed.

Lemma nodup_length_same {A} (dec : forall a b : A, {a = b} + {a <> b}) (l m : list A) :
  (forall a, In a l <-> In a m) ->
  List.length (nodup dec l) = List.length (nodup dec m).
Proof.
  intro H. apply Nat.le_antisymm; apply NoDup_incl_length; try apply NoDup_nodup;
    intros a Ha; apply nodup_In; apply nodup_In in Ha; apply H; exact Ha.
Qed.

Lemma hh_mm_ss_format (s : Z) :
  0 <= s ->
  (format_02 (s / 3600) ++ ":" ++ format_02 (s mod 3600 / 60) ++ ":" ++ format_02 (s mod 60))%string
  = hh_mm_ss s.
Proof.
  intro H. unfold hh_mm_ss.
  rewrite (format_02_pad2 (s mod 3600 / 60)) by (Z.div_mod_to_equations; lia).
  rewrite (format_02_pad2 (s mod 60)) by (Z.div_mod_to_equations; lia).
  f_equal.
Qed.

Lemma sum_Z_nonneg (l : list Z) : (forall z, In z l -> 0 <= z) -> 0 <= sum_Z l.
Proof.
  unfold sum_Z. induction l as [|z l IH]; simpl; [lia|].
  intro H. specialize (IH (fun y Hy => H y (or_intror Hy))).
  specialize (H z (or_introl eq_refl)). lia.
Qed.

(** X17. Let the attendance log hold the records of a time sheet of valid
    sessions, each closed at or after its start, and let the directory list
    the employee once.  Then the summary of the employee over a period counts
    the distinct days on which a session of theirs began within the period,
    adds up the whole seconds of their closed sessions that began within it
    (an open session adds nothing) and prints that total as HH:MM:SS.  The
    total is taken below [2^53], where the source's sum in a double is
    exact. *)
Theorem summary_of_time_sheet (d : database) (sheet : list session) (e : Z) (first last : date) :
  valid_date first -> valid_date last ->
  Forall valid_session sheet ->
  AttendanceLog d = map record_of sheet ->
  listed_once e d ->
  total_worked e first last sheet < 2 ^ 53 ->
  get_employee_attendance_summary e first last (mkworld d [])
  = (Return (mkSummary e (date_strftime first) (date_strftime last)
               (Z.of_nat (days_present e first last sheet))
               (total_worked e first last sheet)
               (hh_mm_ss (total_worked e first last sheet))
               "N/A (Deferred)" "N/A (Deferred)"),
     mkworld d []).
Proof.
  intros Hf Hl Hvalid Hlog Hone _.
  rewrite Forall_forall in Hvalid.
  unfold get_employee_attendance_summary. run_service. f_equal. f_equal.
  assert (Hrows : forall (f : AttendanceLogRow -> Z) ,
            sum_Z (map f (summary_rows e (date_strftime first) (date_strftime last) d))
            = sum_Z (map (fun x => f (record_of x)) (filter (in_period e first last) sheet))).
  { intro f. unfold summary_rows. rewrite sum_order_by.
    rewrite (join_listed_once
               (fun al => (al_employee_id al =? e)
                          && String.leb (date_strftime first) (attendance_date al)
                          && String.leb (attendance_date al) (date_strftime last))
               (fun al emp => al_employee_id al =? e_id emp)).
    - rewrite Hlog, filter_map_commute, map_map. f_equal. f_equal.
      apply filter_ext_in. intros x Hx. apply summary_where_record; auto.
    - intros al Hc. apply andb_prop in Hc as [Hc _]. apply andb_prop in Hc as [Hc _].
      apply Z.eqb_eq in Hc. rewrite Hc. exact Hone. }
  assert (Hmem : forall s,
            In s (map attendance_date
                    (summary_rows e (date_strftime first) (date_strftime last) d))
            <-> In s (map (fun x => date_strftime (date_of (s_in x)))
                        (filter (in_period e first last) sheet))).
  { intro s. unfold summary_rows. rewrite !in_map_iff. split.
    - intros (al & <- & Hin). apply order_by_In, in_flat_map in Hin.
      destruct Hin as (al0 & Hal0 & Hin).
      match type of Hin with In _ (if ?c then _ else _) => destruct c eqn:Hc end;
        [|destruct Hin].
      apply in_map_iff in Hin. destruct Hin as (emp & <- & _).
      rewrite Hlog in Hal0. apply in_map_iff in Hal0. destruct Hal0 as (x & <- & Hx).
      exists x. split; [reflexivity|]. apply filter_In. split; [exact Hx|].
      rewrite <- (summary_where_record e first last x); auto.
    - intros (x & <- & Hx). apply filter_In in Hx. destruct Hx as [Hx Hp].
      exists (record_of x). split; [reflexivity|]. apply order_by_In, in_flat_map.
      exists (record_of x). split; [rewrite Hlog; apply in_map, Hx|].
      rewrite (summary_where_record e first last x); auto. rewrite Hp.
      apply in_map_iff. destruct Hone as (emp & Hemp).
      exists emp. split; [reflexivity|].
      assert (He : s_employee x = e).
      { unfold in_period in Hp. apply andb_prop in Hp as [Hp _].
        apply andb_prop in Hp as [Hp _]. lia. }
      cbn [record_of al_employee_id]. rewrite He, Hemp. left. reflexivity. }
  assert (Htotal : fold_left (fun acc al => acc + session_seconds al)
                     (summary_rows e (date_strftime first) (date_strftime last) d) 0
                   = total_worked e first last sheet).
  { rewrite fold_left_sum, Hrows. unfold total_worked. cbn [Z.add]. f_equal.
    apply map_ext_in. intros x Hx. apply session_seconds_record, Hvalid.
    apply filter_In in Hx. tauto. }
  unfold summary_of. rewrite Htotal. f_equal.
  - f_equal. rewrite (nodup_length_same string_dec _ _ Hmem). unfold days_present.
    rewrite <- (map_map (fun x => date_of (s_in x)) date_strftime).
    apply nodup_length_inj. intros a b Ha Hb.
    apply in_map_iff in Ha, Hb. destruct Ha as (x & <- & Hx), Hb as (y & <- & Hy).
    apply filter_In in Hx, Hy.
    apply date_strftime_inj; apply valid_date_of; apply Hvalid; tauto.
  - apply hh_mm_ss_format. unfold total_worked. apply sum_Z_nonneg.
    intros z Hz. apply in_map_iff in Hz. destruct Hz as (x & <- & Hx).
    apply worked_nonneg, Hvalid. apply filter_In in Hx. tauto.
Qed.


Lemma summary_of_time_sheet_witness :
  get_employee_attendance_summary 1 (mkdate 2024 6 1) (mkdate 2024 6 30)
    (mkworld june_first_log [])
  = (Return (mkSummary 1 "2024-06-01" "2024-06-30" 1 3600 "01:00:00"
               "N/A (Deferred)" "N/A (Deferred)"),
     mkworld june_first_log []).
Proof.
  apply (summary_of_time_sheet june_first_log june_first_sheet 1
           (mkdate 2024 6 1) (mkdate 2024 6 30)).
  - vm_compute. intuition discriminate.
  - vm_compute. intuition discriminate.
  - repeat constructor; try (apply (proj1 (valid_datetimeb_iff _)); reflexivity).
    vm_compute. discriminate.
  - reflexivity.
  - exists (mkEmployee 1 "Amal" "Haddad" "EMP001"). reflexivity.
  - reflexivity.
Defined.

(** ** Employees *)

Lemma not_listed_filter (e : Z) (d : database) :
  ~ employee_exists e d -> filter (fun emp => e =? e_id emp) (Employees d) = [].
Proof.
  intro H. destruct (filter _ (Employees d)) as [|emp l] eqn:E; [reflexivity|].
  exfalso. apply H.
  assert (Hin : In emp (filter (fun emp => e =? e_id emp) (Employees d)))
    by (rewrite E; left; reflexivity).
  apply filter_In in Hin. destruct Hin as [Hin Hid]. apply Z.eqb_eq in Hid.
  exists emp. auto.
Qed.

Lemma summary_not_listed (e : Z) (first last : date) (d : database) :
  ~ employee_exists e d ->
  get_employee_attendance_summary e first last (mkworld d [])
  = (Return (mkSummary e (date_strftime first) (date_strftime last) 0 0 "00:00:00"
               "N/A (Deferred)" "N/A (Deferred)"),
     mkworld d []).
Proof.
  intro H. unfold get_employee_attendance_summary. run_service.
  unfold summary_rows.
  rewrite (join_not_listed
             (fun al => (al_employee_id al =? e)
                        && String.leb (date_strftime first) (attendance_date al)
                        && String.leb (attendance_date al) (date_strftime last))
             (fun al emp => al_employee_id al =? e_id emp)).
  - reflexivity.
  - intros al Hc. apply andb_prop in Hc as [Hc _]. apply andb_prop in Hc as [Hc _].
    apply Z.eqb_eq in Hc. rewrite Hc. apply not_listed_filter, H.
Qed.


Lemma select_employee_none (e : Z) (d : database) :
  employee_service.select_employee e d = None <-> ~ employee_exists e d.
Proof.
  unfold employee_service.select_employee, employee_exists. rewrite find_none_iff. split.
  - intros H (emp & Hin & Hid). specialize (H emp Hin). lia.
  - intros H emp Hin. apply Z.eqb_neq. intro Hid. apply H. exists emp. auto.
Qed.

Lemma by_name_ordering : ordering by_name_cmp.
Proof.
  apply (ordering_then_by (fun a b => String.compare (last_name a) (last_name b))
                          (fun a b => String.compare (first_name a) (first_name b)));
    [apply (ordering_by_key last_name)|apply (ordering_by_key first_name)].
Qed.

(** X18. [delete_employee] returns [False] and changes nothing when the
    directory has no employee with the id.  Otherwise it returns [True] and
    removes the employee from the directory only: attendance records, leave
    requests, leave balances and users stay as they were (the connection
    never switches foreign keys on, so nothing cascades).  Afterwards
    [get_employee] finds nobody, [get_all_employees] lists exactly the
    others, by last and first name, and the attendance summary of the
    deleted employee is empty over every period although their records are
    still in the log. *)
Theorem delete_employee_effect (d : database) (e : Z) :
  (~ employee_exists e d ->
   employee_service.delete_employee e (mkworld d []) = (Return false, mkworld d []))
  /\ (employee_exists e d ->
      exists d' listed,
        employee_service.delete_employee e (mkworld d []) = (Return true, mkworld d' [])
        /\ AttendanceLog d' = AttendanceLog d
        /\ LeaveRequests d' = LeaveRequests d
        /\ LeaveBalances d' = LeaveBalances d
        /\ Users d' = Users d
        /\ employee_service.get_employee e (mkworld d' []) = (Return None, mkworld d' [])
        /\ employee_service.get_all_employees (mkworld d' []) = (Return listed, mkworld d' [])
        /\ (forall emp, In emp listed <-> In emp (Employees d) /\ e_id emp <> e)
        /\ sorted_by by_name_cmp listed
        /\ forall first last,
             get_employee_attendance_summary e first last (mkworld d' [])
             = (Return (mkSummary e (date_strftime first) (date_strftime last) 0 0 "00:00:00"
                          "N/A (Deferred)" "N/A (Deferred)"),
                mkworld d' [])).
Proof.
  split.
  - intro H. apply select_employee_none in H.
    unfold employee_service.delete_employee. run_service. rewrite H. reflexivity.
  - intro H.
    destruct (employee_service.select_employee e d) as [emp0|] eqn:Hsel;
      [|apply select_employee_none in Hsel; contradiction].
    set (d' := with_Employees (filter (fun x => negb (e_id x =? e)) (Employees d)) d).
    assert (Hgone : ~ employee_exists e d').
    { intros (emp & Hin & Hid). unfold d' in Hin. cbn [Employees with_Employees] in Hin.
      apply filter_In in Hin. destruct Hin as [_ Hn].
      apply negb_true_iff, Z.eqb_neq in Hn. contradiction. }
    exists d', (employee_service.select_all_employees d').
    split; [|split; [|split; [|split; [|split; [|split; [|split; [|split; [|split]]]]]]]];
      try reflexivity.
    + unfold employee_service.delete_employee. run_service. rewrite Hsel.
      unfold employee_service.delete_employee_row. run_service.
      unfold employee_service.select_employee in Hsel.
      pose proof (find_some_filter _ _ _ Hsel) as Hpos.
      replace (0 <? _) with true by (symmetry; apply Z.ltb_lt; lia).
      reflexivity.
    + apply select_employee_none in Hgone.
      unfold employee_service.get_employee. run_service. rewrite Hgone. reflexivity.
    + intro emp. unfold employee_service.select_all_employees. rewrite order_by_In.
      unfold d'. cbn [Employees with_Employees]. rewrite filter_In, negb_true_iff, Z.eqb_neq.
      tauto.
    + apply (order_by_sorted by_name_cmp), by_name_ordering.
    + intros first last. apply summary_not_listed, Hgone.
Qed.


(** ** The handlers of the views *)

(** A time that is not earlier, to the second, is not before the stored
    clock-in time. *)
Lemma not_before_stored (t c : datetime) :
  valid_datetime t -> valid_datetime c ->
  epoch_seconds c <= epoch_seconds t -> dt_lt t (whole_second c) = false.
Proof.
  intros Ht Hc Hle.
  assert (Hw : dt_lt (whole_second t) (whole_second c) = false)
    by (rewrite (dt_lt_epoch t c Ht Hc); apply Z.ltb_ge; exact Hle).
  destruct Ht as (_ & _ & _ & _ & _ & _ & Hus).
  revert Hw. unfold dt_lt, _cmp, whole_second, lex.
  cbn [year month day hour minute second microsecond].
  destruct (year t ?= year c); try tauto.
  destruct (month t ?= month c); try tauto.
  destruct (day t ?= day c); try tauto.
  destruct (hour t ?= hour c); try tauto.
  destruct (minute t ?= minute c); try tauto.
  destruct (second t ?= second c); try tauto.
  intros _. destruct (microsecond t ?= 0) eqn:E; try reflexivity.
  exfalso. clear Hle Hc. change (microsecond t < 0) in E. lia.
Qed.

(** X19. A session through the handlers of the attendance view.  For an
    employee with no open record, the clock-in button at [t1] stores a record
    with source "manual_ui" that the status button then shows; the clock-out
    button at any [t2] that is not earlier to the second returns [True];
    the status button then shows nothing, and the log is the old log followed
    by the one closed record, with the notes of both clicks merged. *)
Theorem ui_session_round_trip (d : database) (e : Z) (t1 t2 : datetime)
    (n1 n2 : option string) :
  valid_datetime t1 -> valid_datetime t2 ->
  epoch_seconds t1 <= epoch_seconds t2 ->
  count_open e d = 0%nat ->
  exists id d1 d2,
    attendance_view.handle_clock_in_click t1 e n1 (mkworld d [])
    = (Return (Some id), mkworld d1 [])
    /\ attendance_view.handle_get_current_status_click e (mkworld d1 [])
       = (Return (Some (mkAttendance id e (strftime_datetime t1) None (strftime_date t1)
                          n1 "manual_ui")),
          mkworld d1 [])
    /\ attendance_view.handle_clock_out_click t2 e n2 (mkworld d1 [])
       = (Return true, mkworld d2 [])
    /\ attendance_view.handle_get_current_status_click e (mkworld d2 [])
       = (Return None, mkworld d2 [])
    /\ AttendanceLog d2
       = AttendanceLog d
         ++ [mkAttendance id e (strftime_datetime t1) (Some (strftime_datetime t2))
               (strftime_date t1) (merge_notes n1 n2) "manual_ui"].
Proof.
  intros H1 H2 Hle H0.
  set (id := autoincrement al_id (AttendanceLog d) (seq_AttendanceLog d)).
  set (rec := mkAttendance id e (strftime_datetime t1) None (strftime_date t1) n1 "manual_ui").
  set (d1 := with_AttendanceLog (AttendanceLog d ++ [rec]) id d).
  set (d2 := with_AttendanceLog
               (AttendanceLog d
                ++ [closed_record (strftime_datetime t2) (merge_notes n1 n2) rec]) id d).
  assert (Hopen : select_open_attendance e d1 = Some rec).
  { unfold select_open_attendance, d1. cbn [AttendanceLog with_AttendanceLog].
    rewrite filter_app, (count_open_zero_filter e d H0). cbn.
    unfold is_open_for. cbn. rewrite Z.eqb_refl. reflexivity. }
  assert (Hd2 : after (update_attendance (strftime_datetime t2) (merge_notes n1 n2) id) d1 = d2).
  { unfold after, update_attendance, d1, d2. cbv zeta.
    cbn [AttendanceLog with_AttendanceLog seq_AttendanceLog].
    rewrite map_app. cbn [map al_id rec]. rewrite Z.eqb_refl.
    rewrite map_untouched by apply autoincrement_not_in. reflexivity. }
  exists id, d1, d2. split; [reflexivity|]. split; [|split; [|split]].
  - unfold attendance_view.handle_get_current_status_click.
    rewrite get_open_attendance_run, Hopen. reflexivity.
  - unfold attendance_view.handle_clock_out_click, clock_out, sbind.
    rewrite clock_out_trace_run, Hopen. cbn [clock_in_time rec].
    rewrite (strptime_strftime t1 H1). cbn [effective_time].
    rewrite (not_before_stored t2 t1 H2 H1 Hle). cbn [al_notes al_id rec].
    rewrite Hd2. reflexivity.
  - unfold attendance_view.handle_get_current_status_click.
    rewrite get_open_attendance_run. f_equal. f_equal.
    apply select_open_none. unfold count_open, d2. cbn [AttendanceLog with_AttendanceLog].
    rewrite filter_app, (count_open_zero_filter e d H0). cbn.
    unfold is_open_for. cbn. rewrite andb_false_r. reflexivity.
  - reflexivity.
Qed.

Lemma ui_session_round_trip_witness :
  exists id d1 d2,
    attendance_view.handle_clock_in_click eight_o_clock 1 (Some "Morning") (mkworld small_office [])
    = (Return (Some id), mkworld d1 [])
    /\ attendance_view.handle_get_current_status_click 1 (mkworld d1 [])
       = (Return (Some (mkAttendance id 1 (strftime_datetime eight_o_clock) None
                          (strftime_date eight_o_clock) (Some "Morning") "manual_ui")),
          mkworld d1 [])
    /\ attendance_view.handle_clock_out_click nine_o_clock 1 (Some "Lunch") (mkworld d1 [])
       = (Return true, mkworld d2 [])
    /\ attendance_view.handle_get_current_status_click 1 (mkworld d2 [])
       = (Return None, mkworld d2 [])
    /\ AttendanceLog d2
       = AttendanceLog small_office
         ++ [mkAttendance id 1 (strftime_datetime eight_o_clock)
               (Some (strftime_datetime nine_o_clock)) (strftime_date eight_o_clock)
               (merge_notes (Some "Morning") (Some "Lunch")) "manual_ui"].
Proof.
  apply (ui_session_round_trip small_office 1 eight_o_clock nine_o_clock
           (Some "Morning") (Some "Lunch")).
  - apply (proj1 (valid_datetimeb_iff _)). reflexivity.
  - apply (proj1 (valid_datetimeb_iff _)). reflexivity.
  - vm_compute. discriminate.
  - reflexivity.
Defined.


(** X20. The handlers of the views hand the service the dates their text
    arguments spell: given the text [strftime] writes for valid dates, each
    report handler does exactly what its service does for those dates (the
    summary handler returns the service's dictionary), in every world.  The
    attendance listing treats a missing or empty bound as no bound. *)
Theorem view_handlers_parse_dates (first last : date) (e : Z) (k lt : option Z)
    (st : option string) (w : world) :
  valid_date first -> valid_date last ->
  reporting_view.handle_generate_daily_attendance_report_click (date_strftime first) w
  = get_daily_attendance_report first w
  /\ reporting_view.handle_generate_employee_summary_click e
       (date_strftime first) (date_strftime last) w
     = sbind (get_employee_attendance_summary e first last) (fun s => sret (Some s)) w
  /\ reporting_view.handle_generate_leave_report_click
       (date_strftime first) (date_strftime last) k lt st w
     = get_leave_report first last k lt st w
  /\ reporting_view.handle_generate_absentee_report_click (date_strftime first) w
     = get_absentee_report first w
  /\ attendance_view.handle_view_attendance_click k
       (Some (date_strftime first)) (Some (date_strftime last)) w
     = get_attendance_records k (Some first) (Some last) w
  /\ attendance_view.handle_view_attendance_click k (Some (date_strftime first)) None w
     = get_attendance_records k (Some first) None w
  /\ attendance_view.handle_view_attendance_click k (Some "") (Some (date_strftime last)) w
     = get_attendance_records k None (Some last) w.
Proof.
  intros Hf Hl.
  unfold reporting_view.handle_generate_daily_attendance_report_click,
    reporting_view.handle_generate_employee_summary_click,
    reporting_view.handle_generate_leave_report_click,
    reporting_view.handle_generate_absentee_report_click,
    attendance_view.handle_view_attendance_click, attendance_view.parse_bound.
  assert (Ht1 : truthy (Some (date_strftime first)) = true) by reflexivity.
  assert (Ht2 : truthy (Some (date_strftime last)) = true) by reflexivity.
  rewrite Ht1, Ht2, (strptime_date_strftime first Hf), (strptime_date_strftime last Hl).
  cbn [option_map truthy]. repeat split; reflexivity.
Qed.

Lemma view_handlers_parse_dates_witness :
  reporting_view.handle_generate_daily_attendance_report_click "2024-06-01" a_working_day
  = get_daily_attendance_report (mkdate 2024 6 1) a_working_day
  /\ reporting_view.handle_generate_employee_summary_click 1 "2024-06-01" "2024-06-30"
       a_working_day
     = sbind (get_employee_attendance_summary 1 (mkdate 2024 6 1) (mkdate 2024 6 30))
         (fun s => sret (Some s)) a_working_day
  /\ reporting_view.handle_generate_leave_report_click "2024-06-01" "2024-06-30"
       (Some 1) None (Some "Approved") a_working_day
     = get_leave_report (mkdate 2024 6 1) (mkdate 2024 6 30) (Some 1) None (Some "Approved")
         a_working_day
  /\ reporting_view.handle_generate_absentee_report_click "2024-06-01" a_working_day
     = get_absentee_report (mkdate 2024 6 1) a_working_day
  /\ attendance_view.handle_view_attendance_click (Some 1)
       (Some "2024-06-01") (Some "2024-06-30") a_working_day
     = get_attendance_records (Some 1) (Some (mkdate 2024 6 1)) (Some (mkdate 2024 6 30))
         a_working_day
  /\ attendance_view.handle_view_attendance_click (Some 1) (Some "2024-06-01") None
       a_working_day
     = get_attendance_records (Some 1) (Some (mkdate 2024 6 1)) None a_working_day
  /\ attendance_view.handle_view_attendance_click (Some 1) (Some "") (Some "2024-06-30")
       a_working_day
     = get_attendance_records (Some 1) None (Some (mkdate 2024 6 30)) a_working_day.
Proof.
  apply (view_handlers_parse_dates (mkdate 2024 6 1) (mkdate 2024 6 30) 1 (Some 1) None
           (Some "Approved") a_working_day);
    vm_compute; intuition discriminate.
Defined.
